(** * Prosal_Supabase: filtered pagination and reconciliation

    A shallow embedding of the pagination loops, the filter-to-query
    translation and the identity-set reconciliation of the repository,
    with the properties its specification states about them.

    - [Reconcile]   : [find_match] and the mismatch report of
                      results_compre_Lawrence.py / schema_retrevie.py
    - [Postgrest]   : the query builder of the record store and a
                      list-backed store that evaluates the queries
    - [Awards]      : award_table/award_table_filter.py
    - [Notices]     : notices_table/table_filter_Lawrence.py
    - [HigherGov]   : the page-number loops of testing.py and
                      highergov_api.py *)

From Stdlib Require Import ZArith Lia.
From stdpp Require Import base decidable option list strings gmap sets.

Local Open Scope string_scope.
Local Open Scope list_scope.
Local Open Scope Z_scope.
Local Set Warnings "-register-all".

(* ===================================================================== *)
(** ** Reconciliation (results_compre_Lawrence.py, schema_retrevie.py)    *)
(* ===================================================================== *)

Module Reconcile.

(** A record reduced to its identifiers: a Python [set] of strings. *)
Abbreviation ids := (gset string).

(** Python truthiness of a set: non-empty. *)
Definition truthy (s : ids) : bool := bool_decide (s ≠ ∅).

(** [find_match(opportunity, other_opportunities)]: the [for] loop
    returns [True] at the first [other] with a truthy intersection and
    [False] when the loop runs out. *)
Fixpoint find_match (opportunity : ids) (other_opportunities : list ids) : bool :=
  match other_opportunities with
  | [] => false
  | other :: rest =>
      if truthy (opportunity ∩ other) then true
      else find_match opportunity rest
  end.

(** [[op for op in ops if not find_match(op, others)]] *)
Definition mismatch_records (ops others : list ids) : list ids :=
  List.filter (fun op => negb (find_match op others)) ops.

(** The figures [main] computes and prints. *)
Record report := Report {
  mismatch_records_csv : list ids;
  mismatches_csv : nat;
  mismatch_records_results : list ids;
  mismatches_results : nat;
  total_mismatches : nat
}.

Definition main (csv_ops results_ops : list ids) : report :=
  let mismatch_records_csv := mismatch_records csv_ops results_ops in
  let mismatches_csv := length mismatch_records_csv in
  let mismatch_records_results := mismatch_records results_ops csv_ops in
  let mismatches_results := length mismatch_records_results in
  let total_mismatches := (mismatches_csv + mismatches_results)%nat in
  Report mismatch_records_csv mismatches_csv
         mismatch_records_results mismatches_results total_mismatches.

End Reconcile.

(* ===================================================================== *)
(** ** Python outcomes                                                    *)
(* ===================================================================== *)

Module Py.

(** The exceptions the scripts can meet. *)
Inductive exn :=
| ValueError (msg : string)
| HTTPError (status_code : Z)          (* [response.raise_for_status()] *)
| RequestException (msg : string)      (* network failure in [requests.get] *)
| APIError (msg : string).             (* the record store rejects a query *)

(** A call either returns or raises. *)
Inductive result (A : Type) :=
| Ok (a : A)
| Raise (e : exn).
Arguments Ok {A} a.
Arguments Raise {A} e.

(** One pass through the body of a [while True:] loop. *)
Inductive step (S R : Type) :=
| Continue (s : S)      (* falls off the end of the body *)
| Break (r : R)         (* [break], then the [return] after the loop *)
| Throw (e : exn).      (* an exception leaves the function *)
Arguments Continue {S R} s.
Arguments Break {S R} r.
Arguments Throw {S R} e.

(** How a function call ends; [OutOfFuel] stands for a loop that is
    still running after the allotted number of iterations. *)
Inductive outcome (R : Type) :=
| Returned (r : R)
| Raised (e : exn)
| OutOfFuel.
Arguments Returned {R} r.
Arguments Raised {R} e.
Arguments OutOfFuel {R}.

(** [while True: body], with the requests each pass sends to the
    outside collected in order. *)
Fixpoint while_true {S R Req : Type} (body : S -> list Req * step S R)
         (fuel : nat) (s : S) : list Req * outcome R :=
  match fuel with
  | O => ([], OutOfFuel)
  | Datatypes.S fuel' =>
      let '(sent, st) := body s in
      match st with
      | Continue s' =>
          let '(log, o) := while_true body fuel' s' in (sent ++ log, o)
      | Break r => (sent, Returned r)
      | Throw e => (sent, Raised e)
      end
  end.

(** Whether a pass through the body left the loop by [break]. *)
Definition breaks {S R Req : Type} (pass : list Req * step S R) : bool :=
  match snd pass with Break _ => true | _ => false end.

(** Whether it went on to another pass. *)
Definition continues {S R Req : Type} (pass : list Req * step S R) : bool :=
  match snd pass with Continue _ => true | _ => false end.

(** A run stops at its first failed request: a request of the log
    that failed with [e] is the last one sent, every request before it
    succeeded, and the call ended by raising [e]. *)
Definition aborts_at_failure {Req R : Type} (failure : Req -> option exn)
           (run : list Req * outcome R) : Prop :=
  forall rq e, In rq (fst run) -> failure rq = Some e ->
    snd run = Raised e
    /\ exists sent_before, fst run = sent_before ++ [rq]
                          /\ Forall (fun r => failure r = None) sent_before.

(** Truthiness of an optional list / optional string argument: [None]
    and the empty value are both falsy. *)
Definition truthy_list {A : Type} (o : option (list A)) : bool :=
  match o with Some (_ :: _) => true | _ => false end.

Definition truthy_str (o : option string) : bool :=
  match o with Some (String _ _) => true | _ => false end.

(** The value of a truthy optional list, [[]] otherwise. *)
Definition items {A : Type} (o : option (list A)) : list A := default [] o.

(** Truthiness of a plain list. *)
Definition nonempty {A : Type} (l : list A) : bool :=
  match l with [] => false | _ => true end.

(** [if b: q = f(q)] *)
Definition when {Q : Type} (b : bool) (f : Q -> Q) (q : Q) : Q :=
  if b then f q else q.

(** [if o is not None: q = f(q, o)] *)
Definition when_some {A Q : Type} (o : option A) (f : A -> Q -> Q) (q : Q) : Q :=
  match o with Some x => f x q | None => q end.

(** Statements in sequence: [q |> f |> g] runs [f], then [g]. *)
Notation "q |> f" := (f q) (at level 50, left associativity, only parsing).

(** [for x in xs: q = f(q, x)] *)
Definition for_each {A Q : Type} (xs : list A) (f : A -> Q -> Q) (q : Q) : Q :=
  fold_left (fun q x => f x q) xs q.

End Py.

(* ===================================================================== *)
(** ** The record store: query builder and a list-backed store            *)
(* ===================================================================== *)

Module Postgrest.
Import Py.

(** A scalar held in a column or passed as a filter argument. *)
Inductive value :=
| VNull
| VStr (s : string)
| VInt (n : Z)
| VBool (b : bool).

#[global] Instance value_eq_dec : EqDecision value.
Proof. solve_decision. Defined.

(** A row is a dict from column name to value; a missing column reads
    as null. *)
Abbreviation row := (gmap string value).

Definition get (r : row) (col : string) : value := default VNull (r !! col).

(** The predicates the builder can attach to a query.  [FOr] is the
    comma-joined condition text handed to [or_], kept structured. *)
Inductive cond :=
| FEq (col : string) (v : value)
| FNeq (col : string) (v : value)
| FGt (col : string) (v : value)
| FGte (col : string) (v : value)
| FLte (col : string) (v : value)
| FIn (col : string) (vs : list value)
| FOr (alts : list cond)
| FTextSearch (col : string) (query : string).

Record query := Query {
  q_table : string;
  q_columns : string;
  q_filters : list cond;          (* in the order they were attached *)
  q_range : option (Z * Z)        (* [range(start, end)], both inclusive *)
}.

Definition from_ (table : string) : query := Query table "" [] None.
Definition select (columns : string) (q : query) : query :=
  Query (q_table q) columns (q_filters q) (q_range q).
Definition add (c : cond) (q : query) : query :=
  Query (q_table q) (q_columns q) (q_filters q ++ [c]) (q_range q).
Definition eq (col : string) (v : value) := add (FEq col v).
Definition neq (col : string) (v : value) := add (FNeq col v).
Definition gt (col : string) (v : value) := add (FGt col v).
Definition gte (col : string) (v : value) := add (FGte col v).
Definition lte (col : string) (v : value) := add (FLte col v).
Definition in_ (col : string) (vs : list value) := add (FIn col vs).
Definition or_ (alts : list cond) := add (FOr alts).
Definition text_search (col : string) (text : string) := add (FTextSearch col text).
Definition range (start stop : Z) (q : query) : query :=
  Query (q_table q) (q_columns q) (q_filters q) (Some (start, stop)).

(** The constraints a builder step attaches, read off an empty query. *)
Definition added (f : query -> query) : list cond := q_filters (f (from_ "")).

(** [f] leaves table, columns and range alone and appends the same
    constraints to whatever query it is given. *)
Definition appends (f : query -> query) : Prop :=
  forall q, f q = Query (q_table q) (q_columns q) (q_filters q ++ added f) (q_range q).

(** *** Evaluating a query against tables held as lists

    Comparisons follow SQL: a predicate on a null column is unknown,
    and a row is returned only when every predicate is true. *)

Definition compare_values (a b : value) : option comparison :=
  match a, b with
  | VInt x, VInt y => Some (Z.compare x y)
  | VStr x, VStr y => Some (String.compare x y)
  | VBool x, VBool y => Some (Bool.compare x y)
  | _, _ => None
  end.

Definition is_null (v : value) : bool :=
  match v with VNull => true | _ => false end.

Section Eval.
(** Full-text match of a search text against a column value, as the
    store implements it. *)
Variable fts : string -> value -> bool.

Fixpoint holds (r : row) (c : cond) : bool :=
  match c with
  | FEq col v => negb (is_null (get r col)) && bool_decide (get r col = v)
  | FNeq col v => negb (is_null (get r col)) && negb (is_null v)
                  && negb (bool_decide (get r col = v))
  | FGt col v => match compare_values (get r col) v with
                 | Some Gt => true | _ => false end
  | FGte col v => match compare_values (get r col) v with
                  | Some Gt | Some Eq => true | _ => false end
  | FLte col v => match compare_values (get r col) v with
                  | Some Lt | Some Eq => true | _ => false end
  | FIn col vs => negb (is_null (get r col)) && bool_decide (get r col ∈ vs)
  | FOr alts => existsb (holds r) alts
  | FTextSearch col text => fts text (get r col)
  end.

Definition matches (q : query) (r : row) : bool :=
  forallb (holds r) (q_filters q).

(** The rows of a table that satisfy every one of [cs], in table order. *)
Definition satisfying (cs : list cond) (rows : list row) : list row :=
  List.filter (fun r => forallb (holds r) cs) rows.

(** The rows [start .. stop] of a result, in order. *)
Definition window (rng : option (Z * Z)) (rows : list row) : list row :=
  match rng with
  | None => rows
  | Some (start, stop) =>
      take (Z.to_nat (stop - start + 1)) (drop (Z.to_nat start) rows)
  end.

(** [execute()] on a store whose tables are the lists [tables]. *)
Definition run (tables : string -> list row) (q : query) : list row :=
  window (q_range q) (List.filter (matches q) (tables (q_table q))).

Definition table_store (tables : string -> list row) (q : query) : result (list row) :=
  Ok (run tables q).
End Eval.

End Postgrest.

(* ===================================================================== *)
(** ** award_table/award_table_filter.py                                  *)
(* ===================================================================== *)

Module Awards.
Import Py Postgrest.

(** The [AwardsQuery] dataclass; every field defaults to [None].
    Amounts are held as integers. *)
Record AwardsQuery := {
  INCLUDE_RECIPIENT_UEI : option (list string);
  EXCLUDE_RECIPIENT_UEI : option (list string);
  POTENTIAL_END_DATE_START : option string;
  POTENTIAL_END_DATE_END : option string;
  INCLUDE_NAICS : option (list string);
  EXCLUDE_NAICS : option (list string);
  INCLUDE_PSC : option (list string);
  EXCLUDE_PSC : option (list string);
  INCLUDE_SET_ASIDE_IDS : option (list string);
  EXCLUDE_SET_ASIDE_IDS : option (list string);
  INCLUDE_ORGANIZATION_KEYS : option (list string);
  EXCLUDE_ORGANIZATION_KEYS : option (list string);
  INCLUDE_EXTENT_COMPETED : option (list string);
  EXCLUDE_EXTENT_COMPETED : option (list string);
  AMOUNT_OBLIGATED_MINIMUM : option Z;
  AMOUNT_OBLIGATED_MAXIMUM : option Z;
  KEYWORD_QUERY : option string
}.

(** [AwardsQuery()] *)
Definition unset : AwardsQuery :=
  {| INCLUDE_RECIPIENT_UEI := None; EXCLUDE_RECIPIENT_UEI := None;
     POTENTIAL_END_DATE_START := None; POTENTIAL_END_DATE_END := None;
     INCLUDE_NAICS := None; EXCLUDE_NAICS := None;
     INCLUDE_PSC := None; EXCLUDE_PSC := None;
     INCLUDE_SET_ASIDE_IDS := None; EXCLUDE_SET_ASIDE_IDS := None;
     INCLUDE_ORGANIZATION_KEYS := None; EXCLUDE_ORGANIZATION_KEYS := None;
     INCLUDE_EXTENT_COMPETED := None; EXCLUDE_EXTENT_COMPETED := None;
     AMOUNT_OBLIGATED_MINIMUM := None; AMOUNT_OBLIGATED_MAXIMUM := None;
     KEYWORD_QUERY := None |}.

(** Truthiness of a column value, as [org.get("fpds_code")] is tested. *)
Definition truthy_value (v : value) : bool :=
  match v with
  | VNull => false
  | VStr s => negb (bool_decide (s = ""))
  | VInt n => negb (n =? 0)
  | VBool b => b
  end.

(** [if keys: q = q.in_(col, keys)] *)
Definition include_in (col : string) (keys : option (list string)) : query -> query :=
  when (truthy_list keys) (in_ col (VStr <$> items keys)).

(** [if keys: for k in keys: q = q.neq(col, k)] *)
Definition exclude_each (col : string) (keys : option (list string)) : query -> query :=
  when (truthy_list keys) (for_each (items keys) (fun k => neq col (VStr k))).

(** The body of the [while True:] loop up to [query.execute()]: the
    query for the page at [offset], one line per [if] of the source. *)
Definition page_query (aq : AwardsQuery)
           (fpds_codes_include fpds_codes_exclude : list value)
           (offset limit : Z) : query :=
  from_ "awards" |> select "*"
  |> when (truthy_list (INCLUDE_RECIPIENT_UEI aq))
       (let uei_values := VStr <$> items (INCLUDE_RECIPIENT_UEI aq) in
        or_ [FIn "recipient_uei" uei_values; FIn "parent_recipient_uei" uei_values])
  |> when (truthy_list (EXCLUDE_RECIPIENT_UEI aq))
       (for_each (items (EXCLUDE_RECIPIENT_UEI aq))
          (fun uei q => q |> neq "recipient_uei" (VStr uei)
                          |> neq "parent_recipient_uei" (VStr uei)))
  |> when (truthy_str (POTENTIAL_END_DATE_START aq))
       (gte "period_of_performance_potential_end_date"
            (VStr (default "" (POTENTIAL_END_DATE_START aq))))
  |> when (truthy_str (POTENTIAL_END_DATE_END aq))
       (lte "period_of_performance_potential_end_date"
            (VStr (default "" (POTENTIAL_END_DATE_END aq))))
  |> include_in "naics" (INCLUDE_NAICS aq)
  |> exclude_each "naics" (EXCLUDE_NAICS aq)
  |> include_in "product_or_service_code" (INCLUDE_PSC aq)
  |> exclude_each "product_or_service_code" (EXCLUDE_PSC aq)
  |> include_in "type_set_aside" (INCLUDE_SET_ASIDE_IDS aq)
  |> exclude_each "type_set_aside" (EXCLUDE_SET_ASIDE_IDS aq)
  |> when (nonempty fpds_codes_include)
       (in_ "funding_agency_subtier_agency_code" fpds_codes_include)
  |> when (nonempty fpds_codes_exclude)
       (for_each fpds_codes_exclude (neq "funding_agency_subtier_agency_code"))
  |> include_in "extent_competed_description" (INCLUDE_EXTENT_COMPETED aq)
  |> exclude_each "extent_competed_description" (EXCLUDE_EXTENT_COMPETED aq)
  |> when_some (AMOUNT_OBLIGATED_MINIMUM aq)
       (fun amount => gte "total_obligation" (VInt amount))
  |> when_some (AMOUNT_OBLIGATED_MAXIMUM aq)
       (fun amount => lte "total_obligation" (VInt amount))
  |> range offset (offset + limit - 1)
  |> when (truthy_str (KEYWORD_QUERY aq))
       (text_search "description" (default "" (KEYWORD_QUERY aq))).

Definition limit : Z := 1000.

(** The constraints the loop body attaches to each page's query. *)
Definition constraints (aq : AwardsQuery) (fi fe : list value) : list cond :=
  q_filters (page_query aq fi fe 0 limit).

Section Fetch.
(** The client: what [execute()] answers to a query. *)
Variable supabase : query -> result (list row).

(** The lookup that turns organization keys into fpds codes; it
    sends a request only when the key list is truthy. *)
Definition organizations_query (keys : list string) : query :=
  in_ "organization_key" (VStr <$> keys) (select "fpds_code" (from_ "organizations")).

Definition fpds_codes_of (data : list row) : list value :=
  match data with
  | [] => []
  | _ => List.map (fun org => get org "fpds_code")
           (List.filter (fun org => truthy_value (get org "fpds_code")) data)
  end.

Definition resolve_fpds_codes (keys : option (list string))
  : list query * result (list value) :=
  if truthy_list keys then
    let q := organizations_query (items keys) in
    match supabase q with
    | Raise e => ([q], Raise e)
    | Ok data => ([q], Ok (fpds_codes_of data))
    end
  else ([], Ok []).

(** Loop state: [offset] and the accumulator [all_awards]. *)
Definition body (aq : AwardsQuery) (fi fe : list value) (limit : Z)
           (s : Z * list row) : list query * step (Z * list row) (list row) :=
  let '(offset, all_awards) := s in
  let query := page_query aq fi fe offset limit in
  match supabase query with
  | Raise e => ([query], Throw e)
  | Ok [] => ([query], Break all_awards)
  | Ok data => ([query], Continue (offset + limit, all_awards ++ data))
  end.

(** The function with its batch size as an argument. *)
Definition fetch_awards (limit : Z) (aq : AwardsQuery) (fuel : nat)
  : list query * outcome (list row) :=
  let '(log1, r1) := resolve_fpds_codes (INCLUDE_ORGANIZATION_KEYS aq) in
  match r1 with
  | Raise e => (log1, Raised e)
  | Ok fpds_codes_include =>
      let '(log2, r2) := resolve_fpds_codes (EXCLUDE_ORGANIZATION_KEYS aq) in
      match r2 with
      | Raise e => (log1 ++ log2, Raised e)
      | Ok fpds_codes_exclude =>
          let '(log3, o) :=
            while_true (body aq fpds_codes_include fpds_codes_exclude limit)
                       fuel (0, []) in
          (log1 ++ log2 ++ log3, o)
      end
  end.

Definition get_filtered_awards (aq : AwardsQuery) (fuel : nat)
  : list query * outcome (list row) :=
  fetch_awards limit aq fuel.

(** How a query to the store fails, if it does. *)
Definition failure (q : query) : option exn :=
  match supabase q with Raise e => Some e | Ok _ => None end.

(** The fpds codes a key list resolves to ([[]] when the lookup raises). *)
Definition resolved (keys : option (list string)) : list value :=
  match snd (resolve_fpds_codes keys) with Ok codes => codes | Raise _ => [] end.
End Fetch.

(** [aq] with one field put back to [None]. *)
Definition without_include_organization_keys (aq : AwardsQuery) : AwardsQuery :=
  {| INCLUDE_RECIPIENT_UEI := INCLUDE_RECIPIENT_UEI aq;
     EXCLUDE_RECIPIENT_UEI := EXCLUDE_RECIPIENT_UEI aq;
     POTENTIAL_END_DATE_START := POTENTIAL_END_DATE_START aq;
     POTENTIAL_END_DATE_END := POTENTIAL_END_DATE_END aq;
     INCLUDE_NAICS := INCLUDE_NAICS aq; EXCLUDE_NAICS := EXCLUDE_NAICS aq;
     INCLUDE_PSC := INCLUDE_PSC aq; EXCLUDE_PSC := EXCLUDE_PSC aq;
     INCLUDE_SET_ASIDE_IDS := INCLUDE_SET_ASIDE_IDS aq;
     EXCLUDE_SET_ASIDE_IDS := EXCLUDE_SET_ASIDE_IDS aq;
     INCLUDE_ORGANIZATION_KEYS := None;
     EXCLUDE_ORGANIZATION_KEYS := EXCLUDE_ORGANIZATION_KEYS aq;
     INCLUDE_EXTENT_COMPETED := INCLUDE_EXTENT_COMPETED aq;
     EXCLUDE_EXTENT_COMPETED := EXCLUDE_EXTENT_COMPETED aq;
     AMOUNT_OBLIGATED_MINIMUM := AMOUNT_OBLIGATED_MINIMUM aq;
     AMOUNT_OBLIGATED_MAXIMUM := AMOUNT_OBLIGATED_MAXIMUM aq;
     KEYWORD_QUERY := KEYWORD_QUERY aq |}.

Definition without_exclude_organization_keys (aq : AwardsQuery) : AwardsQuery :=
  {| INCLUDE_RECIPIENT_UEI := INCLUDE_RECIPIENT_UEI aq;
     EXCLUDE_RECIPIENT_UEI := EXCLUDE_RECIPIENT_UEI aq;
     POTENTIAL_END_DATE_START := POTENTIAL_END_DATE_START aq;
     POTENTIAL_END_DATE_END := POTENTIAL_END_DATE_END aq;
     INCLUDE_NAICS := INCLUDE_NAICS aq; EXCLUDE_NAICS := EXCLUDE_NAICS aq;
     INCLUDE_PSC := INCLUDE_PSC aq; EXCLUDE_PSC := EXCLUDE_PSC aq;
     INCLUDE_SET_ASIDE_IDS := INCLUDE_SET_ASIDE_IDS aq;
     EXCLUDE_SET_ASIDE_IDS := EXCLUDE_SET_ASIDE_IDS aq;
     INCLUDE_ORGANIZATION_KEYS := INCLUDE_ORGANIZATION_KEYS aq;
     EXCLUDE_ORGANIZATION_KEYS := None;
     INCLUDE_EXTENT_COMPETED := INCLUDE_EXTENT_COMPETED aq;
     EXCLUDE_EXTENT_COMPETED := EXCLUDE_EXTENT_COMPETED aq;
     AMOUNT_OBLIGATED_MINIMUM := AMOUNT_OBLIGATED_MINIMUM aq;
     AMOUNT_OBLIGATED_MAXIMUM := AMOUNT_OBLIGATED_MAXIMUM aq;
     KEYWORD_QUERY := KEYWORD_QUERY aq |}.

Definition with_naics (inc exc : option (list string)) (aq : AwardsQuery) : AwardsQuery :=
  {| INCLUDE_RECIPIENT_UEI := INCLUDE_RECIPIENT_UEI aq;
     EXCLUDE_RECIPIENT_UEI := EXCLUDE_RECIPIENT_UEI aq;
     POTENTIAL_END_DATE_START := POTENTIAL_END_DATE_START aq;
     POTENTIAL_END_DATE_END := POTENTIAL_END_DATE_END aq;
     INCLUDE_NAICS := inc; EXCLUDE_NAICS := exc;
     INCLUDE_PSC := INCLUDE_PSC aq; EXCLUDE_PSC := EXCLUDE_PSC aq;
     INCLUDE_SET_ASIDE_IDS := INCLUDE_SET_ASIDE_IDS aq;
     EXCLUDE_SET_ASIDE_IDS := EXCLUDE_SET_ASIDE_IDS aq;
     INCLUDE_ORGANIZATION_KEYS := INCLUDE_ORGANIZATION_KEYS aq;
     EXCLUDE_ORGANIZATION_KEYS := EXCLUDE_ORGANIZATION_KEYS aq;
     INCLUDE_EXTENT_COMPETED := INCLUDE_EXTENT_COMPETED aq;
     EXCLUDE_EXTENT_COMPETED := EXCLUDE_EXTENT_COMPETED aq;
     AMOUNT_OBLIGATED_MINIMUM := AMOUNT_OBLIGATED_MINIMUM aq;
     AMOUNT_OBLIGATED_MAXIMUM := AMOUNT_OBLIGATED_MAXIMUM aq;
     KEYWORD_QUERY := KEYWORD_QUERY aq |}.

Definition with_psc (inc exc : option (list string)) (aq : AwardsQuery) : AwardsQuery :=
  {| INCLUDE_RECIPIENT_UEI := INCLUDE_RECIPIENT_UEI aq;
     EXCLUDE_RECIPIENT_UEI := EXCLUDE_RECIPIENT_UEI aq;
     POTENTIAL_END_DATE_START := POTENTIAL_END_DATE_START aq;
     POTENTIAL_END_DATE_END := POTENTIAL_END_DATE_END aq;
     INCLUDE_NAICS := INCLUDE_NAICS aq; EXCLUDE_NAICS := EXCLUDE_NAICS aq;
     INCLUDE_PSC := inc; EXCLUDE_PSC := exc;
     INCLUDE_SET_ASIDE_IDS := INCLUDE_SET_ASIDE_IDS aq;
     EXCLUDE_SET_ASIDE_IDS := EXCLUDE_SET_ASIDE_IDS aq;
     INCLUDE_ORGANIZATION_KEYS := INCLUDE_ORGANIZATION_KEYS aq;
     EXCLUDE_ORGANIZATION_KEYS := EXCLUDE_ORGANIZATION_KEYS aq;
     INCLUDE_EXTENT_COMPETED := INCLUDE_EXTENT_COMPETED aq;
     EXCLUDE_EXTENT_COMPETED := EXCLUDE_EXTENT_COMPETED aq;
     AMOUNT_OBLIGATED_MINIMUM := AMOUNT_OBLIGATED_MINIMUM aq;
     AMOUNT_OBLIGATED_MAXIMUM := AMOUNT_OBLIGATED_MAXIMUM aq;
     KEYWORD_QUERY := KEYWORD_QUERY aq |}.

(** The rows the store holds for [aq]: the awards that satisfy every
    constraint of the translation, in table order. *)
Definition result_set (fts : string -> value -> bool) (tables : string -> list row)
           (aq : AwardsQuery) : list row :=
  let store := table_store fts tables in
  satisfying fts
    (constraints aq (resolved store (INCLUDE_ORGANIZATION_KEYS aq))
                    (resolved store (EXCLUDE_ORGANIZATION_KEYS aq)))
    (tables "awards").

End Awards.

(* ===================================================================== *)
(** ** The contracts API: testing.py and highergov_api.py                 *)
(* ===================================================================== *)

Module HigherGov.
Import Py Postgrest.

(** A query parameter value. *)
Inductive pval :=
| PStr (s : string)
| PInt (n : Z).

(** The [params] dict, keys in insertion order. *)
Abbreviation params := (list (string * pval)).

(** [{k: v for k, v in params.items() if v is not None}] *)
Definition remove_none (p : list (string * option pval)) : params :=
  omap (fun kv => match snd kv with Some v => Some (fst kv, v) | None => None end) p.

(** The parsed JSON body together with the HTTP status. *)
Record response := Response {
  status_code : Z;
  results : option (list row);      (* the ['results'] key, when present *)
  links_next : option string        (* [links.next], when present *)
}.

(** [response.raise_for_status()]: 4xx and 5xx raise. *)
Definition raise_for_status (r : response) : result unit :=
  if (400 <=? status_code r) && (status_code r <? 600)
  then Raise (HTTPError (status_code r)) else Ok tt.

(** A date argument is either already text or a [date] object, held
    here by what its [isoformat()] gives. *)
Inductive date_arg :=
| Text (s : string)
| DateObj (isoformat : string).

Definition to_text (d : date_arg) : string :=
  match d with Text s => s | DateObj iso => iso end.

Record awards_args := {
  a_api_key : string;
  a_award_id : option string;
  a_awardee_key : option Z;
  a_awardee_key_parent : option Z;
  a_awardee_uei : option string;
  a_awardee_uei_parent : option string;
  a_awarding_agency_key : option Z;
  a_funding_agency_key : option Z;
  a_last_modified_date : option date_arg;
  a_naics_code : option string;
  a_ordering : option string;
  a_page_size : Z;
  a_parent_award_id : option string;
  a_psc_code : option string;
  a_search_id : option string;
  a_vehicle_key : option Z
}.

Record opportunities_args := {
  o_api_key : string;
  o_agency_key : option Z;
  o_captured_date : option date_arg;
  o_opp_key : option string;
  o_ordering : option string;
  o_page_size : Z;
  o_posted_date : option date_arg;
  o_search_id : option string;
  o_source_id : option string;
  o_source_type : option string;
  o_version_key : option string
}.

Definition awards_params (a : awards_args) (page_number : Z) : params :=
  remove_none
    [ ("api_key", Some (PStr (a_api_key a)));
      ("award_id", PStr <$> a_award_id a);
      ("awardee_key", PInt <$> a_awardee_key a);
      ("awardee_key_parent", PInt <$> a_awardee_key_parent a);
      ("awardee_uei", PStr <$> a_awardee_uei a);
      ("awardee_uei_parent", PStr <$> a_awardee_uei_parent a);
      ("awarding_agency_key", PInt <$> a_awarding_agency_key a);
      ("funding_agency_key", PInt <$> a_funding_agency_key a);
      ("last_modified_date", (fun d => PStr (to_text d)) <$> a_last_modified_date a);
      ("naics_code", PStr <$> a_naics_code a);
      ("ordering", PStr <$> a_ordering a);
      ("page_number", Some (PInt page_number));
      ("page_size", Some (PInt (a_page_size a)));
      ("parent_award_id", PStr <$> a_parent_award_id a);
      ("psc_code", PStr <$> a_psc_code a);
      ("search_id", PStr <$> a_search_id a);
      ("vehicle_key", PInt <$> a_vehicle_key a) ].

Definition opportunities_params (o : opportunities_args) (page_number : Z) : params :=
  remove_none
    [ ("api_key", Some (PStr (o_api_key o)));
      ("agency_key", PInt <$> o_agency_key o);
      ("captured_date", (fun d => PStr (to_text d)) <$> o_captured_date o);
      ("opp_key", PStr <$> o_opp_key o);
      ("ordering", PStr <$> o_ordering o);
      ("page_number", Some (PInt page_number));
      ("page_size", Some (PInt (o_page_size o)));
      ("posted_date", (fun d => PStr (to_text d)) <$> o_posted_date o);
      ("search_id", PStr <$> o_search_id o);
      ("source_id", PStr <$> o_source_id o);
      ("source_type", PStr <$> o_source_type o);
      ("version_key", PStr <$> o_version_key o) ].

Definition contract_url := "https://www.highergov.com/api-external/contract/".
Definition opportunity_url := "https://www.highergov.com/api-external/opportunity/".

(** A request as it leaves the program. *)
Abbreviation request := (string * params)%type.

Section Client.
(** [requests.get(url, params=params)]: a response, or a network error. *)
Variable requests_get : string -> params -> result response.

(** How a request fails, if it does: a network error, or a 4xx/5xx
    status turned into an exception by [raise_for_status]. *)
Definition failure (rq : request) : option exn :=
  match requests_get (fst rq) (snd rq) with
  | Raise e => Some e
  | Ok response =>
      match raise_for_status response with Raise e => Some e | Ok _ => None end
  end.

(** The loop body the two [highergov_get_all_*] functions share:
    request the page, raise on a bad status, extend the accumulator,
    [break] on a short page, otherwise move to the next page. *)
Definition page_body (url : string) (mk_params : Z -> params) (page_size : Z)
           (s : Z * list row) : list request * step (Z * list row) (list row) :=
  let '(page_number, all_records) := s in
  let params := mk_params page_number in
  match requests_get url params with
  | Raise e => ([(url, params)], Throw e)
  | Ok response =>
      match raise_for_status response with
      | Raise e => ([(url, params)], Throw e)
      | Ok _ =>
          let records := default [] (results response) in
          let all_records := all_records ++ records in
          if Z.of_nat (length records) <? page_size
          then ([(url, params)], Break all_records)
          else ([(url, params)], Continue (page_number + 1, all_records))
      end
  end.

Definition highergov_get_all_awards (a : awards_args) (fuel : nat)
  : list request * outcome (list row) :=
  if bool_decide (a_api_key a = "") then
    ([], Raised (ValueError "API key is required"))
  else if a_page_size a >? 100 then
    ([], Raised (ValueError "page_size cannot exceed 100"))
  else
    while_true (page_body contract_url (awards_params a) (a_page_size a))
               fuel (1, []).

Definition highergov_get_all_opportunities (o : opportunities_args) (fuel : nat)
  : list request * outcome (list row) :=
  if bool_decide (o_api_key o = "") then
    ([], Raised (ValueError "API key is required"))
  else if o_page_size o >? 100 then
    ([], Raised (ValueError "page_size cannot exceed 100"))
  else
    while_true (page_body opportunity_url (opportunities_params o) (o_page_size o))
               fuel (1, []).

(** *** highergov_api.py *)

Definition DEFAULT_PAGE_SIZE : Z := 25.
Definition DEFAULT_MAX_PAGE_NUMBER : Z := 1.
Definition BASE_URL := "https://www.highergov.com".

Definition call_endpoint (endpoint : string) (p : list (string * option pval))
  : request * result response :=
  let url := BASE_URL +:+ endpoint in
  let clean_params := remove_none p in
  (url, clean_params,
   match requests_get url clean_params with
   | Raise e => Raise e
   | Ok response =>
       match raise_for_status response with
       | Raise e => Raise e
       | Ok _ => Ok response
       end
   end).

(** [get_opportunities] as [get_all_opportunities_for_searchid]
    calls it: the other keyword arguments keep their [None]. *)
Definition get_opportunities (api_key search_id : string) (page_number page_size : Z)
  : request * result response :=
  call_endpoint "/api-external/opportunity/"
    [ ("api_key", Some (PStr api_key));
      ("agency_key", None);
      ("captured_date", None);
      ("opp_key", None);
      ("ordering", None);
      ("page_number", Some (PInt page_number));
      ("page_size", Some (PInt page_size));
      ("posted_date", None);
      ("search_id", Some (PStr search_id));
      ("source_id", None);
      ("source_type", None);
      ("version_key", None) ].

Definition searchid_body (api_key search_id : string) (max_page_number page_size : Z)
           (s : Z * list row) : list request * step (Z * list row) (list row) :=
  let '(page_number, all_opportunities) := s in
  let '(rq, r) := get_opportunities api_key search_id page_number page_size in
  match r with
  | Raise e => ([rq], Throw e)
  | Ok resp =>
      match default [] (results resp) with
      | [] => ([rq], Break all_opportunities)
      | res =>
          let all_opportunities := all_opportunities ++ res in
          let next_link := links_next resp in
          if negb (truthy_str next_link) || (page_number >=? max_page_number)
          then ([rq], Break all_opportunities)
          else ([rq], Continue (page_number + 1, all_opportunities))
      end
  end.

Definition get_all_opportunities_for_searchid
           (api_key search_id : string) (max_page_number page_size : Z) (fuel : nat)
  : list request * outcome (list row) :=
  while_true (searchid_body api_key search_id max_page_number page_size) fuel (1, []).
End Client.

(** *** An API that serves a fixed list of records page by page

    Page [n] of size [p] holds the records [(n-1)*p .. n*p - 1]; a
    page past the end is empty; [links.next] is present while records
    remain. *)
Definition param_int (k : string) (p : params) : Z :=
  match List.find (fun kv => bool_decide (fst kv = k)) p with
  | Some (_, PInt n) => n
  | _ => 0
  end.

Definition page_of (data : list row) (page_number page_size : Z) : list row :=
  take (Z.to_nat page_size) (drop (Z.to_nat ((page_number - 1) * page_size)) data).

Definition paged_api (data : list row) (url : string) (p : params) : result response :=
  let page_number := param_int "page_number" p in
  let page_size := param_int "page_size" p in
  Ok {| status_code := 200;
        results := Some (page_of data page_number page_size);
        links_next :=
          if page_number * page_size <? Z.of_nat (length data)
          then Some "next" else None |}.

End HigherGov.

(* ===================================================================== *)
(** ** notices_table/table_filter_Lawrence.py                             *)
(* ===================================================================== *)

Module Notices.
Import Py Postgrest.

(** Sequencing of calls that may raise. *)
#[global] Instance result_bind : MBind result :=
  fun A B k r => match r with Ok a => k a | Raise e => Raise e end.

(** The keyword arguments of [get_filtered_notices] with their
    defaults: [active=True], every other one [None]. *)
Record notices_args := {
  active : bool;
  include_naics : option (list string);
  exclude_naics : option (list string);
  include_solicitation_types : option (list string);
  exclude_solicitation_types : option (list string);
  include_psc : option (list string);
  exclude_psc : option (list string);
  include_set_aside_ids : option (list string);
  exclude_set_aside_ids : option (list string);
  include_organization_keys : option (list string);
  exclude_organization_keys : option (list string);
  keyword_query : option string
}.

(** [get_filtered_notices(supabase)]: nothing passed. *)
Definition defaults : notices_args :=
  {| active := true;
     include_naics := None; exclude_naics := None;
     include_solicitation_types := None; exclude_solicitation_types := None;
     include_psc := None; exclude_psc := None;
     include_set_aside_ids := None; exclude_set_aside_ids := None;
     include_organization_keys := None; exclude_organization_keys := None;
     keyword_query := None |}.

(** Every optional argument left at [None]; [active] is a plain
    [bool] and is not part of this. *)
Definition optional_unset (a : notices_args) : Prop :=
  include_naics a = None /\ exclude_naics a = None
  /\ include_solicitation_types a = None /\ exclude_solicitation_types a = None
  /\ include_psc a = None /\ exclude_psc a = None
  /\ include_set_aside_ids a = None /\ exclude_set_aside_ids a = None
  /\ include_organization_keys a = None /\ exclude_organization_keys a = None
  /\ keyword_query a = None.

(** The text given to [select], its white space put on one line. *)
Definition notices_columns : string :=
  "*, naics_details:naics!naics_id(*), psc_details:psc!psc_id(*), setasides_details:setasides!set_aside_id(*), solicitations_details:solicitations!solicitation_id(*), addresses_details:addresses!organization_address_key(*), organization_details:organizations!Notices_organization_key_fkey(*), organization_level_1_details:organizations!Notices_organization_level_1_key_fkey(*), organization_level_2_details:organizations!Notices_organization_level_2_key_fkey(*), organization_level_3_details:organizations!Notices_organization_level_3_key_fkey(*), organization_level_4_details:organizations!Notices_organization_level_4_key_fkey(*), organization_level_5_details:organizations!Notices_organization_level_5_key_fkey(*), organization_level_6_details:organizations!Notices_organization_level_6_key_fkey(*), organization_level_7_details:organizations!Notices_organization_level_7_key_fkey(*), solicitation_type_details:solicitation_types!type(*)".

(** The four id lists are rebound to their [int] conversions inside
    the loop, so they travel in the loop state next to [offset] and
    the accumulator; [tick] counts the readings of the clock. *)
Record state := State {
  offset : Z;
  all_notices : list row;
  st_include_set_aside_ids : option (list value);
  st_exclude_set_aside_ids : option (list value);
  st_include_organization_keys : option (list value);
  st_exclude_organization_keys : option (list value);
  tick : nat
}.

(** The four id lists of a state are all [None]. *)
Definition lists_unset (s : state) : Prop :=
  st_include_set_aside_ids s = None /\ st_exclude_set_aside_ids s = None
  /\ st_include_organization_keys s = None /\ st_exclude_organization_keys s = None.

Definition limit : Z := 1000.

Section Fetch.
Variable supabase : query -> result (list row).
(** [datetime.now(timezone.utc).isoformat()] at its n-th reading. *)
Variable utcnow : nat -> string.
(** [int(x)] on text: the number, or nothing when [int] raises. *)
Variable int_of_str : string -> option Z.

Definition int_ (v : value) : result Z :=
  match v with
  | VInt n => Ok n
  | VBool b => Ok (if b then 1 else 0)
  | VStr s => match int_of_str s with
              | Some n => Ok n
              | None => Raise (ValueError "invalid literal for int() with base 10")
              end
  | VNull => Raise (ValueError "int() argument must be a string or a number")
  end.

(** [[int(x) for x in xs]] *)
Fixpoint ints (xs : list value) : result (list value) :=
  match xs with
  | [] => Ok []
  | x :: rest => n ← int_ x; ns ← ints rest; Ok (VInt n :: ns)
  end.

(** [if xs: xs = [int(x) for x in xs]] *)
Definition rebind_ints (xs : option (list value)) : result (option (list value)) :=
  if truthy_list xs then ns ← ints (items xs); Ok (Some ns) else Ok xs.

Definition organization_columns : list string :=
  [ "organization_key"; "organization_level_1_key"; "organization_level_2_key";
    "organization_level_3_key"; "organization_level_4_key"; "organization_level_5_key";
    "organization_level_6_key"; "organization_level_7_key" ].

Definition strs (o : option (list string)) : list value := VStr <$> items o.

(** The loop body up to [query.execute()]. *)
Definition page_query (a : notices_args) (s : state) : result (query * state) :=
  let query := select notices_columns (from_ "notices") in
  let '(query, tick') :=
    if active a then
      let query := eq "latest" (VBool true) query in
      let current_time := utcnow (tick s) in
      (gt "solicitation_response_deadline" (VStr current_time) query, S (tick s))
    else (query, tick s) in
  let query := if truthy_list (include_naics a)
               then in_ "naics" (strs (include_naics a)) query else query in
  let query := if truthy_list (exclude_naics a)
               then for_each (strs (exclude_naics a)) (neq "naics") query else query in
  let query := if truthy_list (include_solicitation_types a)
               then in_ "type" (strs (include_solicitation_types a)) query else query in
  let query := if truthy_list (exclude_solicitation_types a)
               then for_each (strs (exclude_solicitation_types a)) (neq "type") query
               else query in
  let query := if truthy_list (include_psc a)
               then in_ "psc" (strs (include_psc a)) query else query in
  let query := if truthy_list (exclude_psc a)
               then for_each (strs (exclude_psc a)) (neq "psc") query else query in
  inc_sa ← rebind_ints (st_include_set_aside_ids s);
  let query := if truthy_list inc_sa
               then in_ "set_aside_id" (items inc_sa) query else query in
  exc_sa ← rebind_ints (st_exclude_set_aside_ids s);
  let query := if truthy_list exc_sa
               then for_each (items exc_sa) (neq "set_aside_id") query else query in
  inc_org ← rebind_ints (st_include_organization_keys s);
  let query :=
    if truthy_list inc_org then
      let conditions :=
        List.flat_map (fun key => List.map (fun col => FEq col key) organization_columns)
                      (items inc_org) in
      or_ conditions query
    else query in
  exc_org ← rebind_ints (st_exclude_organization_keys s);
  let query := if truthy_list exc_org
               then for_each (items exc_org) (neq "organization_key") query else query in
  let query := range (offset s) (offset s + limit - 1) query in
  let query := if truthy_str (keyword_query a)
               then text_search "opportunity_text" (default "" (keyword_query a)) query
               else query in
  Ok (query, State (offset s) (all_notices s) inc_sa exc_sa inc_org exc_org tick').

Definition body (a : notices_args) (s : state) : list query * step state (list row) :=
  match page_query a s with
  | Raise e => ([], Throw e)
  | Ok (query, s) =>
      match supabase query with
      | Raise e => ([query], Throw e)
      | Ok [] => ([query], Break (all_notices s))
      | Ok data =>
          ([query],
           Continue (State (offset s + limit) (all_notices s ++ data)
                           (st_include_set_aside_ids s) (st_exclude_set_aside_ids s)
                           (st_include_organization_keys s) (st_exclude_organization_keys s)
                           (tick s)))
      end
  end.

(** The arguments as passed: the id lists still hold text. *)
Definition as_passed (o : option (list string)) : option (list value) :=
  match o with Some xs => Some (List.map VStr xs) | None => None end.

Definition initial (a : notices_args) : state :=
  State 0 [] (as_passed (include_set_aside_ids a))
        (as_passed (exclude_set_aside_ids a))
        (as_passed (include_organization_keys a))
        (as_passed (exclude_organization_keys a)) 0.

Definition get_filtered_notices (a : notices_args) (fuel : nat)
  : list query * outcome (list row) :=
  while_true (body a) fuel (initial a).
End Fetch.

End Notices.

(* ===================================================================== *)
(** ** testing.py: the re-check inside get_filtered_opportunities         *)
(* ===================================================================== *)

Module Opportunities.
Import Py Postgrest.

(** [notice.get(col) in codes] *)
Definition code_in (notice : row) (col : string) (codes : option (list string)) : bool :=
  bool_decide (get notice col ∈ (VStr <$> items codes)).

(** The block under "Verify that the notices actually match our
    NAICS/PSC criteria": with a truthy code list the answer of the
    store is filtered once more on the client. *)
Definition verified_notices (naics_codes psc_codes : option (list string))
           (data : list row) : list row :=
  if truthy_list naics_codes || truthy_list psc_codes then
    List.filter
      (fun notice =>
         let naics_match := negb (truthy_list naics_codes) || code_in notice "naics" naics_codes in
         let psc_match := negb (truthy_list psc_codes) || code_in notice "psc" psc_codes in
         naics_match && psc_match)
      data
  else data.

End Opportunities.

(* ===================================================================== *)
(** ** Sample data                                                        *)
(* ===================================================================== *)

Module Samples.
Import Py Postgrest.

Definition award (piid naics psc : string) : row :=
  {[ "piid" := VStr piid; "naics" := VStr naics;
     "product_or_service_code" := VStr psc ]}.

Definition a1 : row := award "A-1" "541511" "R425".
Definition a2 : row := award "A-2" "541512" "D302".
Definition a3 : row := award "A-3" "111110" "R425".

Definition notice (id : string) (latest : bool) : row :=
  {[ "notice_id" := VStr id; "latest" := VBool latest;
     "solicitation_response_deadline" := VStr "2030-01-01T00:00:00+00:00" ]}.

Definition n1 : row := notice "N-1" true.
Definition n2 : row := notice "N-2" false.

(** A store with three awards, two notices and no organization. *)
Definition tables (name : string) : list row :=
  if bool_decide (name = "awards") then [a1; a2; a3]
  else if bool_decide (name = "notices") then [n1; n2]
  else [].

Definition no_fts (text : string) (v : value) : bool := false.

Definition store : query -> result (list row) := table_store no_fts tables.

Definition clock (n : nat) : string := "2025-03-17T18:48:13+00:00".

Definition no_int (s : string) : option Z := None.

Definition awards_args (page_size : Z) : HigherGov.awards_args :=
  {| HigherGov.a_api_key := "key";
     HigherGov.a_award_id := None; HigherGov.a_awardee_key := None;
     HigherGov.a_awardee_key_parent := None; HigherGov.a_awardee_uei := None;
     HigherGov.a_awardee_uei_parent := None; HigherGov.a_awarding_agency_key := None;
     HigherGov.a_funding_agency_key := None; HigherGov.a_last_modified_date := None;
     HigherGov.a_naics_code := Some "541511"; HigherGov.a_ordering := None;
     HigherGov.a_page_size := page_size;
     HigherGov.a_parent_award_id := None; HigherGov.a_psc_code := None;
     HigherGov.a_search_id := None; HigherGov.a_vehicle_key := None |}.

Definition opportunities_args (page_size : Z) : HigherGov.opportunities_args :=
  {| HigherGov.o_api_key := "key";
     HigherGov.o_agency_key := None; HigherGov.o_captured_date := None;
     HigherGov.o_opp_key := None; HigherGov.o_ordering := None;
     HigherGov.o_page_size := page_size;
     HigherGov.o_posted_date := None; HigherGov.o_search_id := Some "I1sN";
     HigherGov.o_source_id := None; HigherGov.o_source_type := None;
     HigherGov.o_version_key := None |}.

(** An awards query naming an organization the store does not know. *)
Definition unknown_organization : Awards.AwardsQuery :=
  {| Awards.INCLUDE_RECIPIENT_UEI := None; Awards.EXCLUDE_RECIPIENT_UEI := None;
     Awards.POTENTIAL_END_DATE_START := None; Awards.POTENTIAL_END_DATE_END := None;
     Awards.INCLUDE_NAICS := None; Awards.EXCLUDE_NAICS := None;
     Awards.INCLUDE_PSC := None; Awards.EXCLUDE_PSC := None;
     Awards.INCLUDE_SET_ASIDE_IDS := None; Awards.EXCLUDE_SET_ASIDE_IDS := None;
     Awards.INCLUDE_ORGANIZATION_KEYS := Some ["100000000"];
     Awards.EXCLUDE_ORGANIZATION_KEYS := None;
     Awards.INCLUDE_EXTENT_COMPETED := None; Awards.EXCLUDE_EXTENT_COMPETED := None;
     Awards.AMOUNT_OBLIGATED_MINIMUM := None; Awards.AMOUNT_OBLIGATED_MAXIMUM := None;
     Awards.KEYWORD_QUERY := None |}.

(** An API whose every page is empty. *)
Definition empty_api (url : string) (p : HigherGov.params) : result HigherGov.response :=
  Ok (HigherGov.Response 200 (Some []) None).

(** An API that always serves the same full page of one record and
    says that more follow. *)
Definition endless_api (url : string) (p : HigherGov.params) : result HigherGov.response :=
  Ok (HigherGov.Response 200 (Some [a1]) (Some "next")).

(** An API that serves [a1; a2] on page 1 and answers 500 after. *)
Definition failing_api (url : string) (p : HigherGov.params) : result HigherGov.response :=
  if HigherGov.param_int "page_number" p =? 1
  then Ok (HigherGov.Response 200 (Some [a1; a2]) (Some "next"))
  else Ok (HigherGov.Response 500 None None).

(** A store that answers the first page and fails on the second. *)
Definition failing_store (q : query) : result (list row) :=
  match q_range q with
  | Some (0, _) => Ok [a1; a2]
  | _ => Raise (APIError "upstream request timeout")
  end.

End Samples.

(* ===================================================================== *)
(** ** What a run received                                                *)
(* ===================================================================== *)

Module Transcript.
Import Py Postgrest HigherGov.

(** The records a request brought back: the ['results'] of its
    response, nothing when the request failed. *)
Definition records_of (requests_get : string -> params -> result response)
           (rq : request) : list row :=
  match requests_get (fst rq) (snd rq) with
  | Ok resp => default [] (results resp)
  | Raise _ => []
  end.

(** The rows a query brought back from the store. *)
Definition rows_of (supabase : query -> result (list row)) (q : query) : list row :=
  match supabase q with Ok data => data | Raise _ => [] end.

(** The page numbers [first, first + 1, ...], [count] of them. *)
Definition pages_from (first : Z) (count : nat) : list Z :=
  List.map (fun k => first + Z.of_nat k) (seq 0 count).

End Transcript.

(* ===================================================================== *)
(** ** More sample data                                                   *)
(* ===================================================================== *)

Module MoreSamples.
Import Py Postgrest.

(** Awards with recipients, an end date, an amount and a funding
    agency; [b2] has no parent recipient. *)
Definition b1 : row :=
  {[ "piid" := VStr "B-1"; "recipient_uei" := VStr "U1";
     "parent_recipient_uei" := VStr "P1";
     "period_of_performance_potential_end_date" := VStr "2026-01-01";
     "total_obligation" := VInt 500000;
     "funding_agency_subtier_agency_code" := VStr "97AS" ]}.

Definition b2 : row :=
  {[ "piid" := VStr "B-2"; "recipient_uei" := VStr "U2";
     "period_of_performance_potential_end_date" := VStr "2027-06-01";
     "total_obligation" := VInt 100;
     "funding_agency_subtier_agency_code" := VStr "1700" ]}.

Definition b3 : row :=
  {[ "piid" := VStr "B-3"; "recipient_uei" := VStr "U3";
     "parent_recipient_uei" := VStr "U1";
     "period_of_performance_potential_end_date" := VStr "2025-01-01";
     "total_obligation" := VInt 0;
     "funding_agency_subtier_agency_code" := VStr "97AS" ]}.

(** One organization with an fpds code, one without. *)
Definition o1 : row :=
  {[ "organization_key" := VStr "300000201"; "fpds_code" := VStr "97AS" ]}.
Definition o2 : row :=
  {[ "organization_key" := VStr "300000202" ]}.

Definition tables (name : string) : list row :=
  if bool_decide (name = "awards") then [b1; b2; b3]
  else if bool_decide (name = "organizations") then [o1; o2]
  else [].

Definition base : Awards.AwardsQuery := Awards.unset.

Definition include_recipient (L : list string) : Awards.AwardsQuery :=
  {| Awards.INCLUDE_RECIPIENT_UEI := Some L; Awards.EXCLUDE_RECIPIENT_UEI := None;
     Awards.POTENTIAL_END_DATE_START := None; Awards.POTENTIAL_END_DATE_END := None;
     Awards.INCLUDE_NAICS := None; Awards.EXCLUDE_NAICS := None;
     Awards.INCLUDE_PSC := None; Awards.EXCLUDE_PSC := None;
     Awards.INCLUDE_SET_ASIDE_IDS := None; Awards.EXCLUDE_SET_ASIDE_IDS := None;
     Awards.INCLUDE_ORGANIZATION_KEYS := None; Awards.EXCLUDE_ORGANIZATION_KEYS := None;
     Awards.INCLUDE_EXTENT_COMPETED := None; Awards.EXCLUDE_EXTENT_COMPETED := None;
     Awards.AMOUNT_OBLIGATED_MINIMUM := None; Awards.AMOUNT_OBLIGATED_MAXIMUM := None;
     Awards.KEYWORD_QUERY := None |}.

Definition exclude_recipient (E : list string) : Awards.AwardsQuery :=
  {| Awards.INCLUDE_RECIPIENT_UEI := None; Awards.EXCLUDE_RECIPIENT_UEI := Some E;
     Awards.POTENTIAL_END_DATE_START := None; Awards.POTENTIAL_END_DATE_END := None;
     Awards.INCLUDE_NAICS := None; Awards.EXCLUDE_NAICS := None;
     Awards.INCLUDE_PSC := None; Awards.EXCLUDE_PSC := None;
     Awards.INCLUDE_SET_ASIDE_IDS := None; Awards.EXCLUDE_SET_ASIDE_IDS := None;
     Awards.INCLUDE_ORGANIZATION_KEYS := None; Awards.EXCLUDE_ORGANIZATION_KEYS := None;
     Awards.INCLUDE_EXTENT_COMPETED := None; Awards.EXCLUDE_EXTENT_COMPETED := None;
     Awards.AMOUNT_OBLIGATED_MINIMUM := None; Awards.AMOUNT_OBLIGATED_MAXIMUM := None;
     Awards.KEYWORD_QUERY := None |}.


Definition bounded (start : option string) (minimum : option Z) : Awards.AwardsQuery :=
  {| Awards.INCLUDE_RECIPIENT_UEI := None; Awards.EXCLUDE_RECIPIENT_UEI := None;
     Awards.POTENTIAL_END_DATE_START := start; Awards.POTENTIAL_END_DATE_END := None;
     Awards.INCLUDE_NAICS := None; Awards.EXCLUDE_NAICS := None;
     Awards.INCLUDE_PSC := None; Awards.EXCLUDE_PSC := None;
     Awards.INCLUDE_SET_ASIDE_IDS := None; Awards.EXCLUDE_SET_ASIDE_IDS := None;
     Awards.INCLUDE_ORGANIZATION_KEYS := None; Awards.EXCLUDE_ORGANIZATION_KEYS := None;
     Awards.INCLUDE_EXTENT_COMPETED := None; Awards.EXCLUDE_EXTENT_COMPETED := None;
     Awards.AMOUNT_OBLIGATED_MINIMUM := minimum; Awards.AMOUNT_OBLIGATED_MAXIMUM := None;
     Awards.KEYWORD_QUERY := None |}.

Definition include_organization (keys : list string) : Awards.AwardsQuery :=
  {| Awards.INCLUDE_RECIPIENT_UEI := None; Awards.EXCLUDE_RECIPIENT_UEI := None;
     Awards.POTENTIAL_END_DATE_START := None; Awards.POTENTIAL_END_DATE_END := None;
     Awards.INCLUDE_NAICS := None; Awards.EXCLUDE_NAICS := None;
     Awards.INCLUDE_PSC := None; Awards.EXCLUDE_PSC := None;
     Awards.INCLUDE_SET_ASIDE_IDS := None; Awards.EXCLUDE_SET_ASIDE_IDS := None;
     Awards.INCLUDE_ORGANIZATION_KEYS := Some keys; Awards.EXCLUDE_ORGANIZATION_KEYS := None;
     Awards.INCLUDE_EXTENT_COMPETED := None; Awards.EXCLUDE_EXTENT_COMPETED := None;
     Awards.AMOUNT_OBLIGATED_MINIMUM := None; Awards.AMOUNT_OBLIGATED_MAXIMUM := None;
     Awards.KEYWORD_QUERY := None |}.

End MoreSamples.

(* ===================================================================== *)
(** ** table_filter_Lawrence.py: the query of a page in the default mode  *)
(* ===================================================================== *)

Module NoticesPages.
Import Py Postgrest.

(** The query of pass [k] (counted from 0) when only [active] is set:
    the deadline is compared with the clock reading of that pass. *)
Definition active_page (utcnow : nat -> string) (k : nat) : query :=
  Query "notices" Notices.notices_columns
        [FEq "latest" (VBool true);
         FGt "solicitation_response_deadline" (VStr (utcnow k))]
        (Some (Z.of_nat k * Notices.limit, Z.of_nat k * Notices.limit + Notices.limit - 1)).

(** Some id of one of the four id lists is not a number for [int]. *)
Definition has_bad_id (int_of_str : string -> option Z) (a : Notices.notices_args) : Prop :=
  exists xs x,
    (Notices.include_set_aside_ids a = Some xs
     \/ Notices.exclude_set_aside_ids a = Some xs
     \/ Notices.include_organization_keys a = Some xs
     \/ Notices.exclude_organization_keys a = Some xs)
    /\ In x xs /\ int_of_str x = None.

Definition invalid_literal : exn :=
  ValueError "invalid literal for int() with base 10".

(** Arguments with one set-aside id to include, nothing else. *)
Definition only_set_aside (id : string) : Notices.notices_args :=
  {| Notices.active := true;
     Notices.include_naics := None; Notices.exclude_naics := None;
     Notices.include_solicitation_types := None;
     Notices.exclude_solicitation_types := None;
     Notices.include_psc := None; Notices.exclude_psc := None;
     Notices.include_set_aside_ids := Some [id];
     Notices.exclude_set_aside_ids := None;
     Notices.include_organization_keys := None;
     Notices.exclude_organization_keys := None;
     Notices.keyword_query := None |}.

End NoticesPages.

(* ===================================================================== *)
(** ** testing.py: nested records, dotted paths and flattening            *)
(* ===================================================================== *)

Module Json.
Import Stdlib.Strings.Ascii Py Postgrest.

(** A decoded JSON value: a scalar ([None], text, number, bool), a
    list, or a dict with its keys in insertion order. *)
Inductive json :=
| Leaf (v : value)
| Arr (items : list json)
| Obj (fields : list (string * json)).

(** Induction that reaches the values of a dict. *)
Fixpoint json_dict_ind (P : json -> Prop)
         (HLeaf : forall v, P (Leaf v))
         (HArr : forall items, P (Arr items))
         (HObj : forall fields, Forall (fun kv => P (snd kv)) fields -> P (Obj fields))
         (j : json) : P j :=
  match j with
  | Leaf v => HLeaf v
  | Arr items => HArr items
  | Obj fields =>
      HObj fields
           ((fix all (fs : list (string * json)) : Forall (fun kv => P (snd kv)) fs :=
               match fs with
               | [] => @List.Forall_nil _ _
               | kv :: rest =>
                   @List.Forall_cons _ _ kv rest
                                     (json_dict_ind P HLeaf HArr HObj (snd kv)) (all rest)
               end) fields)
  end.

Definition is_dict (j : json) : bool :=
  match j with Obj _ => true | _ => false end.

(** [d[key]] on a dict; nothing stands for [KeyError]. *)
Fixpoint lookup (key : string) (fields : list (string * json)) : option json :=
  match fields with
  | [] => None
  | (k, v) :: rest => if String.eqb k key then Some v else lookup key rest
  end.

(** [obj[key]] with a text key: only a dict can answer; a list, text,
    number or [None] raises [TypeError]. *)
Definition index (obj : json) (key : string) : option json :=
  match obj with
  | Obj fields => lookup key fields
  | _ => None
  end.

(** [s.split(sep)] for a one-character separator. *)
Fixpoint split (sep : Ascii.ascii) (s : string) : list string :=
  match s with
  | EmptyString => [EmptyString]
  | String c rest =>
      if Ascii.eqb c sep then EmptyString :: split sep rest
      else match split sep rest with
           | h :: t => String c h :: t
           | [] => [String c EmptyString]
           end
  end.

(** [for key in keys: obj = obj[key]], stopped by the first exception. *)
Fixpoint walk (keys : list string) (obj : json) : option json :=
  match keys with
  | [] => Some obj
  | key :: rest =>
      match index obj key with
      | Some v => walk rest v
      | None => None
      end
  end.

(** [get_nested_value(obj, field)]: the [try] turns [KeyError] and
    [TypeError] into [None]. *)
Definition get_nested_value (obj : json) (field : string) : json :=
  default (Leaf VNull) (walk (split "."%char field) obj).

(** [d[k] = v] on an insertion-ordered dict. *)
Fixpoint dict_set (k : string) (v : json) (d : list (string * json))
  : list (string * json) :=
  match d with
  | [] => [(k, v)]
  | (k', v') :: rest =>
      if String.eqb k' k then (k', v) :: rest else (k', v') :: dict_set k v rest
  end.

(** [dict(items)] *)
Definition dict (items : list (string * json)) : list (string * json) :=
  fold_left (fun d kv => dict_set (fst kv) (snd kv) d) items [].

(** [f"{parent_key}.{k}" if parent_key else k] *)
Definition new_key (parent_key k : string) : string :=
  match parent_key with
  | EmptyString => k
  | _ => parent_key +:+ "." +:+ k
  end.

(** [_flatten_dict(d, parent_key)] on the dict [Obj d]; the function
    is only ever called on dicts. *)
Fixpoint flatten (j : json) (parent_key : string) : list (string * json) :=
  match j with
  | Obj d =>
      dict ((fix items (d : list (string * json)) : list (string * json) :=
               match d with
               | [] => []
               | (k, v) :: rest =>
                   (match v with
                    | Obj _ => flatten v (new_key parent_key k)
                    | _ => [(new_key parent_key k, v)]
                    end) ++ items rest
               end) d)
  | _ => []
  end.

(** The items [_flatten_dict] collects before [dict(items)]. *)
Fixpoint items_of (parent_key : string) (d : list (string * json))
  : list (string * json) :=
  match d with
  | [] => []
  | (k, v) :: rest =>
      (match v with
       | Obj _ => flatten v (new_key parent_key k)
       | _ => [(new_key parent_key k, v)]
       end) ++ items_of parent_key rest
  end.

Definition flatten_dict (d : list (string * json)) (parent_key : string)
  : list (string * json) :=
  flatten (Obj d) parent_key.

(** A key that is not empty and holds no dot. *)
Fixpoint dotless (s : string) : bool :=
  match s with
  | EmptyString => true
  | String c rest => negb (Ascii.eqb c "."%char) && dotless rest
  end.

Definition plain (k : string) : Prop := k <> "" /\ dotless k = true.

(** Every dict, at every depth below dicts, has distinct plain keys. *)
Inductive well_keyed : json -> Prop :=
| wk_leaf v : well_keyed (Leaf v)
| wk_arr items : well_keyed (Arr items)
| wk_obj fields :
    NoDup (List.map fst fields) ->
    Forall (fun kv => plain (fst kv) /\ well_keyed (snd kv)) fields ->
    well_keyed (Obj fields).

(** [".".join(keys)] *)
Fixpoint join (keys : list string) : string :=
  match keys with
  | [] => ""
  | [k] => k
  | k :: rest => k +:+ "." +:+ join rest
  end.

(** An award as the contracts API returns it, nested. *)
Definition sample_award : json :=
  Obj [ ("award_id", Leaf (VStr "15M10224PA4700443"));
        ("awardee", Obj [ ("clean_name", Leaf (VStr "Acme"));
                          ("uei", Leaf (VStr "SMNWM6HN79X5")) ]);
        ("transactions", Arr [ Obj [ ("action_date", Leaf (VStr "2024-09-30")) ] ]) ].

End Json.

(* ===================================================================== *)
(** ** award_table_filter.py: the text of the recipient filter           *)
(* ===================================================================== *)

Module RecipientText.
Import Stdlib.Strings.Ascii.

(** [",".join(values)] *)
Fixpoint join_commas (values : list string) : string :=
  match values with
  | [] => ""
  | [v] => v
  | v :: rest => v +:+ "," +:+ join_commas rest
  end.

(** Line 62: the list is joined by commas; line 63 splices the result
    between the parentheses of both [in.(...)] lists of the text handed
    to [or_]. *)
Definition uei_values (INCLUDE_RECIPIENT_UEI : list string) : string :=
  join_commas INCLUDE_RECIPIENT_UEI.




End RecipientText.

(* ===================================================================== *)
(** ** results_compre_Lawrence.py and schema_retrevie.py: the loaders     *)
(* ===================================================================== *)

Module Loaders.
Import Reconcile.

(** A CSV row, or a JSON object, whose identifier fields hold text or
    [None]: a key is absent, or bound to [None], or bound to a string. *)
Abbreviation fields := (gmap string (option string)).

(** What a JSON object holds under a key that should hold a list of
    objects: nothing (no such key), [null], or the list. *)
Inductive listing :=
| Absent
| Null
| Listing (entries : list fields).

(** A record of the results file. *)
Record record := Record_ {
  columns : fields;
  history : listing           (* [record["history"]] *)
}.

(** A loader returns, or raises [TypeError]. *)
Inductive loaded (A : Type) :=
| Loaded (a : A)
| TypeError (msg : string).
Arguments Loaded {A} a.
Arguments TypeError {A} msg.

(** [for hist in None] *)
Definition not_iterable : string := "'NoneType' object is not iterable".

(** The header of the first CSV column when the file starts with a
    byte order mark: the three bytes of U+FEFF, then the name. *)
Definition bom : string :=
  String (Ascii.ascii_of_nat 239)
         (String (Ascii.ascii_of_nat 187)
                 (String (Ascii.ascii_of_nat 191) EmptyString)).

(** [if k in row and row[k]: ids.add(row[k])] *)
Definition add_truthy (row : fields) (k : string) (s : ids) : ids :=
  match row !! k with
  | Some (Some text) => if bool_decide (text = "") then s else s ∪ {[ text ]}
  | _ => s
  end.

(** results_compre_Lawrence.py, [load_csv_opportunities]: the set of
    one row, then the list for the rows of the reader. *)
Definition csv_ids (row : fields) : ids :=
  add_truthy row (bom +:+ "Notice ID")
    (add_truthy row "Solicitation Title"
       (add_truthy row "Solicitation ID" ∅)).

Definition load_csv_opportunities (rows : list fields) : list ids :=
  List.map csv_ids rows.

(** results_compre_Lawrence.py, [load_results_opportunities] *)
Definition results_ids (rec : record) : loaded ids :=
  let s := add_truthy (columns rec) "title"
             (add_truthy (columns rec) "notice_id"
                (add_truthy (columns rec) "solicitation_id" ∅)) in
  match history rec with
  | Absent => Loaded s
  | Null => TypeError not_iterable
  | Listing entries =>
      Loaded (fold_left (fun s hist => add_truthy hist "solicitationNumber" s) entries s)
  end.

Fixpoint load_results_opportunities (data : list record) : loaded (list ids) :=
  match data with
  | [] => Loaded []
  | rec :: rest =>
      match results_ids rec with
      | TypeError msg => TypeError msg
      | Loaded s =>
          match load_results_opportunities rest with
          | TypeError msg => TypeError msg
          | Loaded l => Loaded (s :: l)
          end
      end
  end.

(** results_compre_Lawrence.py, [main], from the contents of the two
    files to the report. *)
Definition main (rows : list fields) (data : list record) : loaded report :=
  let csv_ops := load_csv_opportunities rows in
  match load_results_opportunities data with
  | TypeError msg => TypeError msg
  | Loaded results_ops => Loaded (Reconcile.main csv_ops results_ops)
  end.

End Loaders.

Module Schema.
Import Loaders.

(** The sets of schema_retrevie.py hold whatever the key is bound to,
    [None] included. *)
Abbreviation ids := (gset (option string)).

Definition truthy (s : ids) : bool := bool_decide (s ≠ ∅).

(** [if k in record: ids.add(record[k])] *)
Definition add_key (rec : fields) (k : string) (s : ids) : ids :=
  match rec !! k with
  | Some v => s ∪ {[ v ]}
  | None => s
  end.

(** The decoded HigherGov file: a dict (with what it holds under
    ["results"]), a list of records, or any other JSON value. *)
Inductive payload :=
| Wrapped (results : listing)
| Listed (records : list fields)
| Other.

(** Lines 14-19; iterating over [None] raises at line 21. *)
Definition records_of (data : payload) : loaded (list fields) :=
  match data with
  | Wrapped Absent => Loaded []          (* [data.get("results", [])] *)
  | Wrapped Null => TypeError not_iterable
  | Wrapped (Listing records) => Loaded records
  | Listed records => Loaded records
  | Other => Loaded []
  end.

Definition highergov_ids (rec : fields) : ids :=
  add_key rec "source_id_version" (add_key rec "source_id" ∅).

Definition load_highergov_opportunities (data : payload) : loaded (list ids) :=
  match records_of data with
  | TypeError msg => TypeError msg
  | Loaded records => Loaded (List.map highergov_ids records)
  end.

Definition results_ids (rec : record) : loaded ids :=
  let s := add_key (columns rec) "solicitation_id" ∅ in
  match history rec with
  | Absent => Loaded s
  | Null => TypeError not_iterable
  | Listing entries =>
      Loaded (fold_left (fun s hist => add_key hist "solicitationNumber" s) entries s)
  end.

Fixpoint load_results_opportunities (data : list record) : loaded (list ids) :=
  match data with
  | [] => Loaded []
  | rec :: rest =>
      match results_ids rec with
      | TypeError msg => TypeError msg
      | Loaded s =>
          match load_results_opportunities rest with
          | TypeError msg => TypeError msg
          | Loaded l => Loaded (s :: l)
          end
      end
  end.

Fixpoint find_match (opportunity : ids) (other_opportunities : list ids) : bool :=
  match other_opportunities with
  | [] => false
  | other :: rest =>
      if truthy (opportunity ∩ other) then true
      else find_match opportunity rest
  end.

Record report := Report {
  mismatch_records_highergov : list ids;
  mismatches_highergov : nat;
  mismatch_records_results : list ids;
  mismatches_results : nat;
  total_mismatches : nat
}.

Definition main (highergov_file : payload) (results_file : list record)
  : loaded report :=
  match load_highergov_opportunities highergov_file with
  | TypeError msg => TypeError msg
  | Loaded highergov_ops =>
      match load_results_opportunities results_file with
      | TypeError msg => TypeError msg
      | Loaded results_ops =>
          let mismatch_records_highergov :=
            List.filter (fun op => negb (find_match op results_ops)) highergov_ops in
          let mismatches_highergov := length mismatch_records_highergov in
          let mismatch_records_results :=
            List.filter (fun op => negb (find_match op highergov_ops)) results_ops in
          let mismatches_results := length mismatch_records_results in
          let total_mismatches := (mismatches_highergov + mismatches_results)%nat in
          Loaded (Report mismatch_records_highergov mismatches_highergov
                         mismatch_records_results mismatches_results total_mismatches)
      end
  end.

End Schema.


(* ===================================================================== *)
(** * Properties                                                          *)
(* ===================================================================== *)

(** ** Reconciliation *)

Module ReconcileFacts.
Import Reconcile.

Lemma truthy_spec (s : gset string) : truthy s = true <-> s ≠ ∅.
Proof. unfold truthy. apply bool_decide_eq_true. Qed.

Lemma truthy_inter (a b : gset string) :
  truthy (a ∩ b) = true <-> exists x, x ∈ a /\ x ∈ b.
Proof.
  rewrite truthy_spec. split.
  - intros Hne. apply set_choose_L in Hne as [x Hx].
    exists x. set_solver.
  - intros [x [Ha Hb]]. set_solver.
Qed.

Lemma find_match_true (op : gset string) (others : list (gset string)) :
  find_match op others = true <->
  exists other, In other others /\ op ∩ other ≠ ∅.
Proof.
  induction others as [|o rest IH]; simpl.
  - split; [discriminate | intros [? [[] _]]].
  - destruct (truthy (op ∩ o)) eqn:E.
    + split; [intros _ | reflexivity].
      exists o. split; [now left | now apply truthy_spec].
    + rewrite IH. split.
      * intros [x [Hin Hx]]. exists x. split; [now right | assumption].
      * intros [x [[->|Hin] Hx]].
        -- apply truthy_spec in Hx. congruence.
        -- exists x. now split.
Qed.

Lemma find_match_false (op : gset string) (others : list (gset string)) :
  find_match op others = false <->
  forall other, In other others -> op ∩ other = ∅.
Proof.
  split.
  - intros Hf other Hin.
    destruct (decide (op ∩ other = ∅)) as [|Hne]; [assumption|].
    assert (find_match op others = true) by (apply find_match_true; eauto).
    congruence.
  - intros Hall. destruct (find_match op others) eqn:E; [|reflexivity].
    apply find_match_true in E as [other [Hin Hne]].
    now specialize (Hall _ Hin).
Qed.


Lemma find_match_self (op : gset string) (ops : list (gset string)) :
  In op ops -> op ≠ ∅ -> find_match op ops = true.
Proof.
  intros Hin Hne. apply find_match_true. exists op. split; [assumption|].
  now rewrite (idemp_L (∩) op).
Qed.

Lemma mismatch_records_spec (ops others : list (gset string)) :
  mismatch_records ops others =
  filter (fun op => Forall (fun other => op ∩ other = ∅) others) ops.
Proof.
  unfold mismatch_records.
  induction ops as [|op ops IH]; [reflexivity|].
  simpl. rewrite filter_cons, IH.
  destruct (find_match op others) eqn:E; simpl.
  - rewrite decide_False; [reflexivity|].
    rewrite Forall_forall. intros Hall.
    apply find_match_true in E as [other [Hin Hne]].
    apply Hne, Hall. now apply list_elem_of_In.
  - rewrite decide_True; [reflexivity|].
    rewrite Forall_forall. intros other Hin.
    eapply find_match_false; [eassumption|]. now apply list_elem_of_In.
Qed.

Lemma mismatch_records_In (ops others : list (gset string)) (op : gset string) :
  In op (mismatch_records ops others) <->
  In op ops /\ find_match op others = false.
Proof.
  unfold mismatch_records. rewrite filter_In.
  now rewrite negb_true_iff.
Qed.

Lemma mismatch_records_self (ops : list (gset string)) :
  (forall op, In op ops -> op ≠ ∅) -> mismatch_records ops ops = [].
Proof.
  intros Hne.
  destruct (mismatch_records ops ops) as [|op rest] eqn:E; [reflexivity|].
  assert (Hin : In op (mismatch_records ops ops)) by (rewrite E; now left).
  apply mismatch_records_In in Hin as [Hin Hf].
  rewrite find_match_self in Hf; [discriminate|assumption|auto].
Qed.

End ReconcileFacts.

Section ReconciliationClaims.
Import Reconcile ReconcileFacts.

(** C2. A record is matched exactly when some record of the other
    collection shares an identifier with it; the unmatched records of
    each side are exactly its records without such a counterpart, in
    their original order; and on A = [{X1}, {X2}], B = [{X1, Y1}] the
    report is unmatched-in-A = [{X2}], unmatched-in-B = [], one
    mismatch in total. *)
Theorem C2_matched_iff_shared_identifier :
  (forall (r : gset string) (B : list (gset string)),
      find_match r B = true <-> exists b, In b B /\ r ∩ b ≠ ∅)
  /\ (forall A B : list (gset string),
        mismatch_records_csv (main A B) =
          filter (fun r => Forall (fun b => r ∩ b = ∅) B) A
        /\ mismatch_records_results (main A B) =
          filter (fun r => Forall (fun a => r ∩ a = ∅) A) B
        /\ total_mismatches (main A B) =
          (length (mismatch_records_csv (main A B))
           + length (mismatch_records_results (main A B)))%nat)
  /\ main [ {["X1"]}; {["X2"]} ] [ {["X1"; "Y1"]} ]
      = Report [ {["X2"]} ] 1 [] 0 1.
Proof.
  split; [exact find_match_true|]. split.
  - intros A B. unfold main. simpl.
    now rewrite !mismatch_records_spec.
  - vm_compute. reflexivity.
Qed.

(** C7 fails on a collection that holds a record without identifiers:
    reconciled against itself, [∅] is unmatched on both sides. *)
Lemma C7_empty_identity_unmatched_against_itself :
  ~ (forall A : list (gset string),
        mismatch_records_csv (main A A) = []
        /\ mismatch_records_results (main A A) = []
        /\ total_mismatches (main A A) = 0%nat).
Proof.
  intros H. destruct (H [∅]) as [_ [_ Htotal]].
  vm_compute in Htotal. discriminate.
Qed.

(** C7 (amended). For every collection whose records all have a
    non-empty identity set, reconciling it against an identical copy
    leaves both unmatched lists empty and reports zero mismatches. *)
Theorem C7_identical_collections_no_mismatch (A : list (gset string)) :
  (forall r, In r A -> r ≠ ∅) ->
  main A A = Report [] 0 [] 0 0.
Proof.
  intros Hne. unfold main.
  now rewrite mismatch_records_self.
Qed.

Lemma C7_identical_collections_witness :
  main [ {["X1"]}; {["X2"; "Y2"]} ] [ {["X1"]}; {["X2"; "Y2"]} ] = Report [] 0 [] 0 0.
Proof.
  apply (C7_identical_collections_no_mismatch [ {["X1"]}; {["X2"; "Y2"]} ]).
  intros r [<-|[<-|[]]]; vm_compute; discriminate.
Defined.

End ReconciliationClaims.

(** ** Loops *)

Module PyFacts.
Import Py.

Section WhileTrue.
Context {S R Req : Type}.
Variable body : S -> list Req * step S R.

Lemma while_true_break (fuel : nat) (s : S) (sent : list Req) (r : R) :
  body s = (sent, Break r) ->
  while_true body (Datatypes.S fuel) s = (sent, Returned r).
Proof. intros E. simpl. now rewrite E. Qed.

Lemma while_true_throw (fuel : nat) (s : S) (sent : list Req) (e : exn) :
  body s = (sent, Throw e) ->
  while_true body (Datatypes.S fuel) s = (sent, Raised e).
Proof. intros E. simpl. now rewrite E. Qed.

Lemma while_true_continue (fuel : nat) (s s' : S) (sent : list Req) :
  body s = (sent, Continue s') ->
  while_true body (Datatypes.S fuel) s =
  (sent ++ fst (while_true body fuel s'), snd (while_true body fuel s')).
Proof.
  intros E. simpl. rewrite E.
  now destruct (while_true body fuel s').
Qed.

(** More fuel never changes a run that has ended. *)
Lemma while_true_more_fuel (n m : nat) (s : S) :
  snd (while_true body n s) <> OutOfFuel -> (n <= m)%nat ->
  while_true body m s = while_true body n s.
Proof.
  revert m s. induction n as [|n IH]; intros m s Hend Hle.
  - now contradict Hend.
  - destruct m as [|m]; [lia|].
    simpl in *. destruct (body s) as [sent [s'| r | e]]; try reflexivity.
    destruct (while_true body n s') as [log o] eqn:E.
    rewrite (IH m s'); [now rewrite E | now rewrite E | lia].
Qed.

(** A loop whose body never breaks or throws is still running after
    any number of passes. *)
Lemma while_true_forever (P : S -> Prop) (fuel : nat) (s : S) :
  (forall s, P s -> exists sent s', body s = (sent, Continue s') /\ P s') ->
  P s -> snd (while_true body fuel s) = OutOfFuel.
Proof.
  intros Hstep. revert s. induction fuel as [|n IH]; intros s Hs; [reflexivity|].
  destruct (Hstep s Hs) as [sent [s' [E Hs']]].
  rewrite (while_true_continue _ _ _ _ E). simpl. now apply IH.
Qed.

(** A loop whose body never breaks cannot return. *)
Lemma while_true_no_break (P : S -> Prop) (fuel : nat) (s : S) :
  (forall s, P s -> forall sent r, body s <> (sent, Break r)) ->
  (forall s sent s', P s -> body s = (sent, Continue s') -> P s') ->
  P s -> forall r, snd (while_true body fuel s) <> Returned r.
Proof.
  intros Hnb Hinv. revert s. induction fuel as [|n IH]; intros s Hs r; [discriminate|].
  simpl. destruct (body s) as [sent [s'| r' | e]] eqn:E.
  - specialize (IH s' (Hinv _ _ _ Hs E) r).
    destruct (while_true body n s'); exact IH.
  - now contradict E; apply Hnb.
  - discriminate.
Qed.
End WhileTrue.

End PyFacts.

(** ** Walking a fixed list page by page *)

Module Paging.
Import Py PyFacts.

Lemma snd_while_true_continue {S R Req : Type} (body : S -> list Req * step S R)
      (fuel : nat) (s s' : S) :
  snd (body s) = Continue s' ->
  snd (while_true body (Datatypes.S fuel) s) = snd (while_true body fuel s').
Proof.
  intros E. destruct (body s) as [sent st] eqn:Eb. simpl in E. subst st.
  now rewrite (while_true_continue _ _ _ _ _ Eb).
Qed.

Lemma snd_while_true_break {S R Req : Type} (body : S -> list Req * step S R)
      (fuel : nat) (s : S) (r : R) :
  snd (body s) = Break r ->
  snd (while_true body (Datatypes.S fuel) s) = Returned r.
Proof.
  intros E. destruct (body s) as [sent st] eqn:Eb. simpl in E. subst st.
  now rewrite (while_true_break _ _ _ _ _ Eb).
Qed.

(** The range-offset protocol: stop at the first empty page. *)
Section EmptyPage.
Context {A S Req : Type}.
Variable body : S -> list Req * step S (list A).
Variable off : S -> Z.
Variable acc : S -> list A.
Variable rows : list A.
Variable lim : Z.
Variable P : S -> Prop.
Hypothesis lim_pos : 1 <= lim.
Hypothesis body_spec : forall s, P s -> 0 <= off s ->
  match take (Z.to_nat lim) (drop (Z.to_nat (off s)) rows) with
  | [] => snd (body s) = Break (acc s)
  | data => exists s', snd (body s) = Continue s' /\ P s'
                       /\ off s' = off s + lim /\ acc s' = acc s ++ data
  end.

Lemma empty_page_loop (fuel : nat) (s : S) :
  P s -> 0 <= off s ->
  (length (drop (Z.to_nat (off s)) rows) < fuel)%nat ->
  snd (while_true body fuel s) = Returned (acc s ++ drop (Z.to_nat (off s)) rows).
Proof.
  revert s. induction fuel as [|fuel IH]; intros s Hs Hoff Hlen; [lia|].
  specialize (body_spec s Hs Hoff).
  set (d := drop (Z.to_nat (off s)) rows) in *.
  destruct (take (Z.to_nat lim) d) as [|x page] eqn:Epage.
  - rewrite (snd_while_true_break _ _ _ _ body_spec).
    apply take_nil_inv in Epage as [Hz | ->]; [lia|].
    now rewrite app_nil_r.
  - destruct body_spec as [s' [Eb [Hs' [Hoff' Hacc']]]].
    rewrite (snd_while_true_continue _ _ _ _ Eb).
    assert (Hd : drop (Z.to_nat (off s')) rows = drop (Z.to_nat lim) d).
    { unfold d. rewrite drop_drop, Hoff'. f_equal. lia. }
    rewrite IH; [| assumption | lia |].
    + rewrite Hacc', Hd, <- Epage, <- app_assoc. now rewrite take_drop.
    + rewrite Hd, length_drop.
      assert (length d <> 0)%nat by (destruct d; [now rewrite take_nil in Epage | discriminate]).
      lia.
Qed.
End EmptyPage.

(** The page-number protocol: stop at the first short page. *)
Section ShortPage.
Context {A Req : Type}.
Variable body : Z * list A -> list Req * step (Z * list A) (list A).
Variable data : list A.
Variable page_size : Z.
Hypothesis page_size_pos : 1 <= page_size.
Hypothesis body_spec : forall page_number acc, 1 <= page_number ->
  snd (body (page_number, acc)) =
  let records :=
    take (Z.to_nat page_size) (drop (Z.to_nat ((page_number - 1) * page_size)) data) in
  if Z.of_nat (length records) <? page_size
  then Break (acc ++ records)
  else Continue (page_number + 1, acc ++ records).

Lemma short_page_loop (fuel : nat) (page_number : Z) (acc : list A) :
  1 <= page_number ->
  (length (drop (Z.to_nat ((page_number - 1) * page_size)) data) < fuel)%nat ->
  snd (while_true body fuel (page_number, acc)) =
  Returned (acc ++ drop (Z.to_nat ((page_number - 1) * page_size)) data).
Proof.
  revert page_number acc.
  induction fuel as [|fuel IH]; intros n acc Hn Hlen; [lia|].
  specialize (body_spec n acc Hn). simpl in body_spec.
  set (d := drop (Z.to_nat ((n - 1) * page_size)) data) in *.
  destruct (Z.of_nat (length (take (Z.to_nat page_size) d)) <? page_size) eqn:Eshort.
  - rewrite (snd_while_true_break _ _ _ _ body_spec).
    apply Z.ltb_lt in Eshort. rewrite length_take in Eshort.
    rewrite take_ge; [reflexivity | lia].
  - rewrite (snd_while_true_continue _ _ _ _ body_spec).
    apply Z.ltb_ge in Eshort. rewrite length_take in Eshort.
    assert (Hd : drop (Z.to_nat ((n + 1 - 1) * page_size)) data
                 = drop (Z.to_nat page_size) d).
    { unfold d. rewrite drop_drop. f_equal. nia. }
    rewrite IH; [| lia |].
    + rewrite Hd, <- app_assoc. now rewrite take_drop.
    + rewrite Hd, length_drop. lia.
Qed.
End ShortPage.

End Paging.

(** ** The query builder *)

Module PostgrestFacts.
Import Py Postgrest.

Lemma q_filters_for_each {A : Type} (xs : list A) (f : A -> cond) (q : query) :
  q_filters (for_each xs (fun x => add (f x)) q) = q_filters q ++ List.map f xs.
Proof.
  unfold for_each. revert q.
  induction xs as [|x xs IH]; intros q; simpl; [now rewrite app_nil_r|].
  rewrite IH. simpl. now rewrite <- app_assoc.
Qed.

(** The answer of the list-backed store: the satisfying rows of the
    table, cut to the query's range. *)
Lemma run_spec (fts : string -> value -> bool) (tables : string -> list row) (q : query) :
  run fts tables q = window (q_range q) (satisfying fts (q_filters q) (tables (q_table q))).
Proof. reflexivity. Qed.

Lemma window_page (rows : list row) (offset lim : Z) :
  window (Some (offset, offset + lim - 1)) rows
  = take (Z.to_nat lim) (drop (Z.to_nat offset) rows).
Proof. unfold window. do 2 f_equal. lia. Qed.

Lemma satisfying_In (fts : string -> value -> bool) (cs : list cond)
      (rows : list row) (r : row) :
  In r (satisfying fts cs rows) <-> In r rows /\ forall c, In c cs -> holds fts r c = true.
Proof.
  unfold satisfying. rewrite filter_In, forallb_forall. reflexivity.
Qed.

Lemma satisfying_app (fts : string -> value -> bool) (cs ds : list cond) (rows : list row) :
  satisfying fts (cs ++ ds) rows = satisfying fts ds (satisfying fts cs rows).
Proof.
  unfold satisfying. induction rows as [|r rows IH]; simpl; [reflexivity|].
  rewrite forallb_app.
  destruct (forallb (holds fts r) cs); simpl; [|exact IH].
  destruct (forallb (holds fts r) ds); simpl; now rewrite IH.
Qed.

Lemma satisfying_nil (fts : string -> value -> bool) (rows : list row) :
  satisfying fts [] rows = rows.
Proof.
  unfold satisfying. induction rows as [|r rows IH]; simpl in *; congruence.
Qed.

Lemma satisfying_idle (fts : string -> value -> bool) (cs : list cond) (rows : list row) :
  (forall r c, In r rows -> In c cs -> holds fts r c = true) ->
  satisfying fts cs rows = rows.
Proof.
  intros H. unfold satisfying.
  induction rows as [|r rows IH]; simpl; [reflexivity|].
  replace (forallb (holds fts r) cs) with true.
  - rewrite IH; [reflexivity|]. intros r' c Hr Hc. apply H; [now right | assumption].
  - symmetry. apply forallb_forall. intros c Hc. apply H; [now left | assumption].
Qed.

End PostgrestFacts.

(** ** Builder steps that only attach constraints *)

Module Steps.
Import Py Postgrest PostgrestFacts.

Lemma appends_add (c : cond) : appends (add c).
Proof. intros q. reflexivity. Qed.

Lemma appends_id : appends (fun q => q).
Proof. intros [t c f r]. unfold added. simpl. now rewrite app_nil_r. Qed.

Lemma appends_compose (f g : query -> query) :
  appends f -> appends g ->
  appends (fun q => g (f q)) /\ added (fun q => g (f q)) = added f ++ added g.
Proof.
  intros Hf Hg.
  assert (E : added (fun q => g (f q)) = added f ++ added g).
  { unfold added at 1. rewrite Hg, Hf. reflexivity. }
  split; [|exact E].
  intros q. rewrite E, Hg, Hf. simpl. now rewrite app_assoc.
Qed.

Lemma appends_when (b : bool) (f : query -> query) :
  appends f -> appends (when b f).
Proof.
  intros Hf. destruct b; [exact Hf | exact appends_id].
Qed.

Lemma appends_when_some {A : Type} (o : option A) (f : A -> query -> query) :
  (forall x, appends (f x)) -> appends (when_some o f).
Proof.
  intros Hf. destruct o; [apply Hf | exact appends_id].
Qed.

Lemma appends_for_each {A : Type} (xs : list A) (f : A -> query -> query) :
  (forall x, appends (f x)) -> appends (for_each xs f).
Proof.
  intros Hf. induction xs as [|x xs IH]; [exact appends_id|].
  change (for_each (x :: xs) f) with (fun q => for_each xs f (f x q)).
  now apply appends_compose.
Qed.

Lemma q_filters_step (f : query -> query) (q : query) :
  appends f -> q_filters (f q) = q_filters q ++ added f.
Proof. intros Hf. now rewrite Hf. Qed.

Lemma q_table_step (f : query -> query) (q : query) :
  appends f -> q_table (f q) = q_table q.
Proof. intros Hf. now rewrite Hf. Qed.

Lemma q_range_step (f : query -> query) (q : query) :
  appends f -> q_range (f q) = q_range q.
Proof. intros Hf. now rewrite Hf. Qed.

Lemma added_when_true (f : query -> query) : added (when true f) = added f.
Proof. reflexivity. Qed.

Lemma added_when_false (f : query -> query) : added (when false f) = [].
Proof. reflexivity. Qed.

Lemma added_for_each_add {A : Type} (xs : list A) (f : A -> cond) :
  added (for_each xs (fun x => add (f x))) = List.map f xs.
Proof. unfold added. now rewrite q_filters_for_each. Qed.

Lemma appends_add2 (c1 c2 : cond) : appends (fun q => add c2 (add c1 q)).
Proof.
  intros q. unfold added, add. simpl. f_equal.
  now rewrite <- app_assoc.
Qed.

Lemma q_filters_range (a b : Z) (q : query) : q_filters (range a b q) = q_filters q.
Proof. reflexivity. Qed.

Lemma q_table_range (a b : Z) (q : query) : q_table (range a b q) = q_table q.
Proof. reflexivity. Qed.

Lemma q_columns_step (f : query -> query) (q : query) :
  appends f -> q_columns (f q) = q_columns q.
Proof. intros Hf. now rewrite Hf. Qed.

Lemma q_columns_range (a b : Z) (q : query) : q_columns (range a b q) = q_columns q.
Proof. reflexivity. Qed.

Lemma query_eq (q : query) (t c : string) (f : list cond) (r : option (Z * Z)) :
  q_table q = t -> q_columns q = c -> q_filters q = f -> q_range q = r ->
  q = Query t c f r.
Proof. destruct q; simpl; congruence. Qed.

(** Discharges [appends f] for the steps the scripts are made of. *)
Ltac solve_appends :=
  repeat first
    [ apply appends_when
    | apply appends_when_some; intros
    | apply appends_for_each; intros
    | apply appends_add2
    | apply appends_add
    | progress (cbv zeta; unfold eq, neq, gt, gte, lte, in_, or_, text_search) ].

(** Peels the steps off a projection of a built query, outermost first. *)
Ltac peel :=
  repeat first
    [ rewrite q_filters_step by solve_appends
    | rewrite q_filters_range
    | rewrite q_table_step by solve_appends
    | rewrite q_table_range
    | rewrite q_columns_step by solve_appends
    | rewrite q_columns_range ].

End Steps.

(** ** award_table_filter.py: what the translation attaches *)

Module AwardsFacts.
Import Py Postgrest PostgrestFacts Steps Awards.

Lemma appends_include_in (col : string) (keys : option (list string)) :
  appends (include_in col keys).
Proof. unfold include_in. solve_appends. Qed.

Lemma appends_exclude_each (col : string) (keys : option (list string)) :
  appends (exclude_each col keys).
Proof. unfold exclude_each. solve_appends. Qed.

Lemma added_include_in (col : string) (keys : option (list string)) :
  added (include_in col keys) =
  if truthy_list keys then [FIn col (VStr <$> items keys)] else [].
Proof. unfold include_in. now destruct (truthy_list keys). Qed.

Lemma added_exclude_each (col : string) (keys : option (list string)) :
  added (exclude_each col keys) =
  if truthy_list keys then List.map (fun k => FNeq col (VStr k)) (items keys) else [].
Proof.
  unfold exclude_each. destruct (truthy_list keys); [|reflexivity].
  rewrite added_when_true. apply (added_for_each_add _ (fun k => FNeq col (VStr k))).
Qed.

(** The constraints, field by field in the order of the source. *)
Lemma q_filters_page_query (aq : AwardsQuery) (fi fe : list value) (offset lim : Z) :
  q_filters (page_query aq fi fe offset lim) =
  added (when (truthy_list (INCLUDE_RECIPIENT_UEI aq))
           (or_ [FIn "recipient_uei" (VStr <$> items (INCLUDE_RECIPIENT_UEI aq));
                 FIn "parent_recipient_uei" (VStr <$> items (INCLUDE_RECIPIENT_UEI aq))]))
  ++ added (when (truthy_list (EXCLUDE_RECIPIENT_UEI aq))
              (for_each (items (EXCLUDE_RECIPIENT_UEI aq))
                 (fun uei q => neq "parent_recipient_uei" (VStr uei)
                                   (neq "recipient_uei" (VStr uei) q))))
  ++ added (when (truthy_str (POTENTIAL_END_DATE_START aq))
              (gte "period_of_performance_potential_end_date"
                   (VStr (default "" (POTENTIAL_END_DATE_START aq)))))
  ++ added (when (truthy_str (POTENTIAL_END_DATE_END aq))
              (lte "period_of_performance_potential_end_date"
                   (VStr (default "" (POTENTIAL_END_DATE_END aq)))))
  ++ added (include_in "naics" (INCLUDE_NAICS aq))
  ++ added (exclude_each "naics" (EXCLUDE_NAICS aq))
  ++ added (include_in "product_or_service_code" (INCLUDE_PSC aq))
  ++ added (exclude_each "product_or_service_code" (EXCLUDE_PSC aq))
  ++ added (include_in "type_set_aside" (INCLUDE_SET_ASIDE_IDS aq))
  ++ added (exclude_each "type_set_aside" (EXCLUDE_SET_ASIDE_IDS aq))
  ++ added (when (nonempty fi) (in_ "funding_agency_subtier_agency_code" fi))
  ++ added (when (nonempty fe)
              (for_each fe (neq "funding_agency_subtier_agency_code")))
  ++ added (include_in "extent_competed_description" (INCLUDE_EXTENT_COMPETED aq))
  ++ added (exclude_each "extent_competed_description" (EXCLUDE_EXTENT_COMPETED aq))
  ++ added (when_some (AMOUNT_OBLIGATED_MINIMUM aq)
              (fun amount => gte "total_obligation" (VInt amount)))
  ++ added (when_some (AMOUNT_OBLIGATED_MAXIMUM aq)
              (fun amount => lte "total_obligation" (VInt amount)))
  ++ added (when (truthy_str (KEYWORD_QUERY aq))
              (text_search "description" (default "" (KEYWORD_QUERY aq)))).
Proof.
  unfold page_query.
  repeat first
    [ rewrite q_filters_step by first [ apply appends_include_in
                                      | apply appends_exclude_each
                                      | solve_appends ]
    | rewrite q_filters_range ].
  simpl (q_filters _). rewrite app_nil_l.
  repeat rewrite <- app_assoc. reflexivity.
Qed.

(** Table, columns, constraints and range of the query for one page;
    the constraints are the same on every page. *)
Lemma page_query_shape (aq : AwardsQuery) (fi fe : list value) (offset lim : Z) :
  page_query aq fi fe offset lim =
  Query "awards" "*" (constraints aq fi fe) (Some (offset, offset + lim - 1)).
Proof.
  apply query_eq.
  - unfold page_query, include_in, exclude_each. peel. reflexivity.
  - unfold page_query, include_in, exclude_each. peel. reflexivity.
  - unfold constraints. now rewrite !q_filters_page_query.
  - unfold page_query. rewrite q_range_step by solve_appends. reflexivity.
Qed.

Section ListStore.
Variable fts : string -> value -> bool.
Variable tables : string -> list row.
Let store := table_store fts tables.

Lemma resolve_on_store (keys : option (list string)) :
  snd (resolve_fpds_codes store keys) = Ok (resolved store keys).
Proof.
  unfold resolved, resolve_fpds_codes, store, table_store.
  now destruct (truthy_list keys).
Qed.

Lemma body_on_store (aq : AwardsQuery) (fi fe : list value) (lim : Z)
      (offset : Z) (acc : list row) :
  snd (body store aq fi fe lim (offset, acc)) =
  match take (Z.to_nat lim)
             (drop (Z.to_nat offset)
                   (satisfying fts (constraints aq fi fe) (tables "awards"))) with
  | [] => Break acc
  | data => Continue (offset + lim, acc ++ data)
  end.
Proof.
  unfold body, store, table_store.
  rewrite run_spec, page_query_shape. simpl q_range. simpl q_filters. simpl q_table.
  rewrite window_page.
  now destruct (take _ _).
Qed.

(** With enough fuel the loop returns the whole result set. *)
Lemma fetch_awards_on_store (aq : AwardsQuery) (lim : Z) (fuel : nat) :
  1 <= lim ->
  (length (result_set fts tables aq) < fuel)%nat ->
  snd (fetch_awards store lim aq fuel) = Returned (result_set fts tables aq).
Proof.
  intros Hlim Hfuel. unfold fetch_awards.
  pose proof (resolve_on_store (INCLUDE_ORGANIZATION_KEYS aq)) as E1.
  pose proof (resolve_on_store (EXCLUDE_ORGANIZATION_KEYS aq)) as E2.
  destruct (resolve_fpds_codes store (INCLUDE_ORGANIZATION_KEYS aq)) as [log1 r1].
  destruct (resolve_fpds_codes store (EXCLUDE_ORGANIZATION_KEYS aq)) as [log2 r2].
  simpl in E1, E2. subst r1 r2.
  set (fi := resolved store (INCLUDE_ORGANIZATION_KEYS aq)) in *.
  set (fe := resolved store (EXCLUDE_ORGANIZATION_KEYS aq)) in *.
  pose proof (Paging.empty_page_loop (body store aq fi fe lim) fst snd
                (result_set fts tables aq) lim (fun _ => True) Hlim) as Hloop.
  destruct (while_true (body store aq fi fe lim) fuel (0, [])) as [log3 o] eqn:Ew.
  simpl. change o with (snd (log3, o)). rewrite <- Ew.
  rewrite Hloop; [reflexivity | | exact I | simpl; lia | exact Hfuel].
  - intros [offset acc] _ Hoff. cbn [fst snd] in *.
    pose proof (body_on_store aq fi fe lim offset acc) as Eb.
    change (satisfying fts (constraints aq fi fe) (tables "awards"))
      with (result_set fts tables aq) in Eb.
    destruct (take _ _) as [|g l]; [exact Eb|].
    exists (offset + lim, acc ++ g :: l). now repeat split.
Qed.

Lemma length_result_set (aq : AwardsQuery) :
  (length (result_set fts tables aq) <= length (tables "awards"))%nat.
Proof. unfold result_set, satisfying. apply filter_length_le. Qed.
End ListStore.

End AwardsFacts.

(** ** Failing requests *)

Module AbortFacts.
Import Py PyFacts.

Section Abort.
Context {S R Req : Type}.
Variable body : S -> list Req * step S R.
Variable failure : Req -> option exn.

(** Each pass either raises before sending anything, or sends one
    request and throws exactly when that request failed. *)
Hypothesis one_request : forall s,
  (fst (body s) = [] /\ exists e, snd (body s) = Throw e)
  \/ (exists rq, fst (body s) = [rq]
                 /\ match failure rq with
                    | Some e => snd (body s) = Throw e
                    | None => forall e, snd (body s) <> Throw e
                    end).

Lemma while_true_aborts (fuel : nat) (s : S) :
  aborts_at_failure failure (while_true body fuel s).
Proof.
  revert s. induction fuel as [|fuel IH]; intros s rq e Hin Hfail; [destruct Hin|].
  simpl in *.
  destruct (one_request s) as [[Hnil [e0 Hthrow]] | [rq0 [Hone Hrq0]]];
    destruct (body s) as [sent st]; simpl in *; subst sent.
  - subst st. destruct Hin.
  - destruct (failure rq0) as [e0|] eqn:E0.
    + subst st. simpl in *. destruct Hin as [->|[]].
      assert (e0 = e) by congruence. subst e0.
      split; [reflexivity|]. exists []. now split.
    + destruct st as [s'| r | e1].
      * specialize (IH s'). destruct (while_true body fuel s') as [log o].
        simpl in *. destruct Hin as [->|Hin]; [congruence|].
        destruct (IH rq e Hin Hfail) as [Ho [pre [Hlog Hpre]]]. simpl in *.
        split; [exact Ho|]. exists (rq0 :: pre). split.
        -- now rewrite Hlog.
        -- now constructor.
      * simpl in *. destruct Hin as [->|[]]. congruence.
      * exfalso. exact (Hrq0 e1 eq_refl).
Qed.
End Abort.

(** Requests that succeeded ahead of a run do not change the picture. *)
Lemma aborts_after_successes {R Req : Type} (failure : Req -> option exn)
      (pre log : list Req) (o : outcome R) :
  Forall (fun r => failure r = None) pre ->
  aborts_at_failure failure (log, o) ->
  aborts_at_failure failure (pre ++ log, o).
Proof.
  intros Hpre Hrun rq e Hin Hfail. simpl in *.
  apply in_app_or in Hin as [Hin | Hin].
  - rewrite Forall_forall in Hpre. apply list_elem_of_In in Hin.
    specialize (Hpre _ Hin). congruence.
  - destruct (Hrun rq e Hin Hfail) as [Ho [before [Hlog Hbefore]]]. simpl in *.
    split; [exact Ho|]. exists (pre ++ before). split.
    + now rewrite Hlog, app_assoc.
    + now apply Forall_app.
Qed.

Lemma aborts_single {R Req : Type} (failure : Req -> option exn) (rq : Req) (e : exn) :
  failure rq = Some e -> aborts_at_failure failure ([rq], @Raised R e).
Proof.
  intros Hf rq' e' [<-|[]] Hf'. simpl.
  split; [congruence|]. exists []. now split.
Qed.

Lemma aborts_nothing_sent {R Req : Type} (failure : Req -> option exn) (o : outcome R) :
  aborts_at_failure failure ([], o).
Proof. intros rq e []. Qed.

End AbortFacts.

(** ** testing.py and highergov_api.py: the page-number loops *)

Module HigherGovFacts.
Import Py PyFacts Postgrest HigherGov.

Lemma param_int_skip (k k' : string) (o : option pval) (rest : list (string * option pval)) :
  k' <> k ->
  param_int k (remove_none ((k', o) :: rest)) = param_int k (remove_none rest).
Proof.
  intros Hne. destruct o as [v|]; [|reflexivity].
  unfold param_int, remove_none. simpl.
  now rewrite bool_decide_false.
Qed.

Lemma param_int_hit (k : string) (n : Z) (rest : list (string * option pval)) :
  param_int k (remove_none ((k, Some (PInt n)) :: rest)) = n.
Proof.
  unfold param_int, remove_none. simpl.
  now rewrite bool_decide_true.
Qed.

Ltac find_param :=
  repeat (rewrite param_int_skip by discriminate); apply param_int_hit.

Lemma awards_page_number (a : awards_args) (n : Z) :
  param_int "page_number" (awards_params a n) = n.
Proof. unfold awards_params. find_param. Qed.

Lemma awards_page_size (a : awards_args) (n : Z) :
  param_int "page_size" (awards_params a n) = a_page_size a.
Proof. unfold awards_params. find_param. Qed.

Lemma opportunities_page_number (o : opportunities_args) (n : Z) :
  param_int "page_number" (opportunities_params o n) = n.
Proof. unfold opportunities_params. find_param. Qed.

Lemma opportunities_page_size (o : opportunities_args) (n : Z) :
  param_int "page_size" (opportunities_params o n) = o_page_size o.
Proof. unfold opportunities_params. find_param. Qed.

(** *** One pass of the shared body *)

Section Body.
Variable requests_get : string -> params -> result response.
Variable url : string.
Variable mk_params : Z -> params.
Variable page_size : Z.

Lemma page_body_sends (s : Z * list row) :
  fst (page_body requests_get url mk_params page_size s) = [(url, mk_params (fst s))].
Proof.
  destruct s as [n acc]. unfold page_body. simpl.
  destruct (requests_get url (mk_params n)) as [resp|e]; [|reflexivity].
  destruct (raise_for_status resp); [|reflexivity].
  now destruct (_ <? _).
Qed.

(** On a successful response the pass breaks exactly on a short
    page and goes on exactly on a full one. *)
Lemma page_body_on_success (n : Z) (acc : list row) (resp : response) :
  requests_get url (mk_params n) = Ok resp ->
  raise_for_status resp = Ok tt ->
  snd (page_body requests_get url mk_params page_size (n, acc)) =
  let records := default [] (results resp) in
  if Z.of_nat (length records) <? page_size
  then Break (acc ++ records)
  else Continue (n + 1, acc ++ records).
Proof.
  intros Hget Hstatus. unfold page_body. rewrite Hget, Hstatus. simpl.
  now destruct (_ <? _).
Qed.

Lemma page_body_on_failure (n : Z) (acc : list row) (e : exn) :
  failure requests_get (url, mk_params n) = Some e ->
  snd (page_body requests_get url mk_params page_size (n, acc)) = Throw e.
Proof.
  unfold failure, page_body. simpl.
  destruct (requests_get url (mk_params n)) as [resp|e0];
    [|intros H; simpl; congruence].
  destruct (raise_for_status resp); [discriminate | intros H; simpl; congruence].
Qed.

Lemma page_body_one_request (s : Z * list row) :
  exists rq, fst (page_body requests_get url mk_params page_size s) = [rq]
             /\ match failure requests_get rq with
                | Some e => snd (page_body requests_get url mk_params page_size s) = Throw e
                | None => forall e,
                    snd (page_body requests_get url mk_params page_size s) <> Throw e
                end.
Proof.
  exists (url, mk_params (fst s)). split; [apply page_body_sends|].
  destruct s as [n acc]. simpl fst.
  destruct (failure requests_get (url, mk_params n)) as [e|] eqn:Ef.
  - now apply page_body_on_failure.
  - unfold failure in Ef. simpl in Ef. unfold page_body.
    destruct (requests_get url (mk_params n)) as [resp|e0]; [|discriminate].
    destruct (raise_for_status resp); [|discriminate].
    intros e. simpl. now destruct (_ <? _).
Qed.

(** With [page_size <= 0] no pass can break. *)
Lemma page_body_never_breaks (s : Z * list row) (sent : list request) (r : list row) :
  page_size <= 0 ->
  page_body requests_get url mk_params page_size s <> (sent, Break r).
Proof.
  intros Hps. destruct s as [n acc]. unfold page_body.
  destruct (requests_get url (mk_params n)) as [resp|e]; [|discriminate].
  destruct (raise_for_status resp); [|discriminate]. simpl.
  destruct (_ <? _) eqn:E; [|discriminate].
  apply Z.ltb_lt in E. lia.
Qed.

(** Once some page comes back short, the loop is over by then. *)
Lemma page_loop_ends (d : nat) (n : Z) (acc : list row) (resp : response) :
  requests_get url (mk_params (n + Z.of_nat d)) = Ok resp ->
  Z.of_nat (length (default [] (results resp))) < page_size ->
  snd (while_true (page_body requests_get url mk_params page_size) (S d) (n, acc))
  <> OutOfFuel.
Proof.
  revert n acc. induction d as [|d IH]; intros n acc Hget Hshort.
  - replace (n + Z.of_nat 0) with n in Hget by lia.
    simpl. unfold page_body. rewrite Hget.
    destruct (raise_for_status resp); [|discriminate]. simpl.
    apply Z.ltb_lt in Hshort. now rewrite Hshort.
  - replace (n + Z.of_nat (S d)) with ((n + 1) + Z.of_nat d) in Hget by lia.
    specialize (IH (n + 1)).
    change (while_true ?b (S (S d)) ?s) with
      (let '(sent, st) := b s in
       match st with
       | Continue s' =>
           let '(log, o) := while_true b (S d) s' in (sent ++ log, o)
       | Break r => (sent, Returned r)
       | Throw e => (sent, Raised e)
       end).
    unfold page_body at 1.
    destruct (requests_get url (mk_params n)) as [resp0|e0]; [|discriminate].
    destruct (raise_for_status resp0); [|discriminate].
    cbv zeta. destruct (_ <? _); [discriminate|].
    specialize (IH (acc ++ default [] (results resp0)) Hget Hshort).
    destruct (while_true _ (S d) _) as [log o]. exact IH.
Qed.
End Body.

(** *** Against the API that serves a fixed list *)

Lemma raise_for_status_200 (rs : option (list row)) (nx : option string) :
  raise_for_status (Response 200 rs nx) = Ok tt.
Proof. reflexivity. Qed.

Section Served.
Variable data : list row.
Variable url : string.
Variable mk_params : Z -> params.
Variable page_size : Z.
Hypothesis reads_number : forall n, param_int "page_number" (mk_params n) = n.
Hypothesis reads_size : forall n, param_int "page_size" (mk_params n) = page_size.

Lemma page_body_served (n : Z) (acc : list row) :
  snd (page_body (paged_api data) url mk_params page_size (n, acc)) =
  let records :=
    take (Z.to_nat page_size) (drop (Z.to_nat ((n - 1) * page_size)) data) in
  if Z.of_nat (length records) <? page_size
  then Break (acc ++ records)
  else Continue (n + 1, acc ++ records).
Proof.
  rewrite (page_body_on_success (paged_api data) url mk_params page_size n acc
             (Response 200 (Some (page_of data n page_size))
                (if n * page_size <? Z.of_nat (length data) then Some "next" else None))).
  - reflexivity.
  - unfold paged_api. now rewrite reads_number, reads_size.
  - apply raise_for_status_200.
Qed.

Lemma page_loop_served (fuel : nat) :
  1 <= page_size ->
  (length data < fuel)%nat ->
  snd (while_true (page_body (paged_api data) url mk_params page_size) fuel (1, []))
  = Returned data.
Proof.
  intros Hps Hfuel.
  rewrite (Paging.short_page_loop _ data page_size Hps); [reflexivity | | lia | exact Hfuel].
  intros n acc _. apply page_body_served.
Qed.
End Served.

End HigherGovFacts.

(** ** Claims about the paginated fetchers *)

Section PaginationClaims.
Import Py PyFacts Postgrest PostgrestFacts Awards AwardsFacts HigherGov HigherGovFacts.

Lemma awards_on_served_list (data : list row) (a : awards_args) (fuel : nat) :
  a_api_key a <> "" -> 1 <= a_page_size a <= 100 ->
  (length data < fuel)%nat ->
  snd (highergov_get_all_awards (paged_api data) a fuel) = Returned data.
Proof.
  intros Hkey [Hlo Hhi] Hfuel. unfold highergov_get_all_awards.
  rewrite bool_decide_false by assumption.
  replace (a_page_size a >? 100) with false
    by (symmetry; rewrite Z.gtb_ltb; apply Z.ltb_ge; lia).
  apply page_loop_served; try assumption.
  - intros n. apply awards_page_number.
  - intros n. apply awards_page_size.
Qed.

Lemma fetch_awards_enough_fuel (fts : string -> value -> bool)
      (tables : string -> list row) (aq : AwardsQuery) (lim : Z) (fuel : nat) :
  1 <= lim -> (length (tables "awards") < fuel)%nat ->
  snd (fetch_awards (table_store fts tables) lim aq fuel)
  = Returned (result_set fts tables aq).
Proof.
  intros Hlim Hfuel. apply fetch_awards_on_store; [assumption|].
  pose proof (length_result_set fts tables aq). lia.
Qed.

(** C1 as stated fails on the API side: a page size above 100 is
    refused before any page is requested. *)
Lemma C1_page_size_above_100_is_refused :
  ~ (forall (data : list row) (a : awards_args) (fuel : nat),
        a_api_key a <> "" -> 1 <= a_page_size a ->
        (length data < fuel)%nat ->
        snd (highergov_get_all_awards (paged_api data) a fuel) = Returned data).
Proof.
  intros H.
  specialize (H [Samples.a1] (Samples.awards_args 101) 2%nat).
  assert (Hkey : a_api_key (Samples.awards_args 101) <> "") by discriminate.
  specialize (H Hkey ltac:(simpl; lia) ltac:(simpl; lia)).
  vm_compute in H. discriminate.
Qed.

(** C1 (amended). Against data that stays the same between page
    fetches, the range-offset loop of [get_filtered_awards] returns,
    for its batch size of 1000 and for any other batch size of at
    least 1, exactly the rows of the result set, each once and in table
    order; [highergov_get_all_awards] does so for every page size from
    1 to 100.  Hence a page size P and the page size P/2, when that is
    still at least 1, give the same result. *)
Theorem C1_pagination_returns_every_record_once :
  (forall (fts : string -> value -> bool) (tables : string -> list row)
          (aq : AwardsQuery) (fuel : nat),
      (length (tables "awards") < fuel)%nat ->
      snd (get_filtered_awards (table_store fts tables) aq fuel)
      = Returned (result_set fts tables aq)
      /\ forall P, 1 <= P ->
           snd (fetch_awards (table_store fts tables) P aq fuel)
           = Returned (result_set fts tables aq))
  /\ (forall (data : list row) (a : awards_args) (fuel : nat),
        a_api_key a <> "" -> 1 <= a_page_size a <= 100 ->
        (length data < fuel)%nat ->
        snd (highergov_get_all_awards (paged_api data) a fuel) = Returned data)
  /\ (forall (fts : string -> value -> bool) (tables : string -> list row)
             (aq : AwardsQuery) (P : Z) (fuel : nat),
        1 <= P / 2 -> (length (tables "awards") < fuel)%nat ->
        snd (fetch_awards (table_store fts tables) P aq fuel)
        = snd (fetch_awards (table_store fts tables) (P / 2) aq fuel))
  /\ (forall (data : list row) (a a' : awards_args) (fuel : nat),
        a_api_key a <> "" -> a_api_key a' <> "" ->
        a_page_size a <= 100 -> a_page_size a' = a_page_size a / 2 ->
        1 <= a_page_size a' ->
        (length data < fuel)%nat ->
        snd (highergov_get_all_awards (paged_api data) a fuel)
        = snd (highergov_get_all_awards (paged_api data) a' fuel)).
Proof.
  split; [|split; [|split]].
  - intros fts tables aq fuel Hfuel. split.
    + apply fetch_awards_enough_fuel; [unfold limit; lia | assumption].
    + intros P HP. now apply fetch_awards_enough_fuel.
  - exact awards_on_served_list.
  - intros fts tables aq P fuel HP Hfuel.
    assert (1 <= P) by (pose proof (Z.mul_div_le P 2); lia).
    now rewrite !fetch_awards_enough_fuel.
  - intros data a a' fuel Hk Hk' Hhi Hhalf Hlo Hfuel.
    assert (1 <= a_page_size a) by (pose proof (Z.mul_div_le (a_page_size a) 2); lia).
    assert (a_page_size a' <= 100).
    { rewrite Hhalf. apply Z.div_le_upper_bound; lia. }
    rewrite !awards_on_served_list; auto; lia.
Qed.

Lemma C1_pagination_witness :
  snd (highergov_get_all_awards
         (paged_api [Samples.a1; Samples.a2; Samples.a3]) (Samples.awards_args 2) 4)
  = Returned [Samples.a1; Samples.a2; Samples.a3]
  /\ snd (fetch_awards Samples.store 2 unset 4)
     = snd (fetch_awards Samples.store (2 / 2) unset 4).
Proof.
  split.
  - apply (proj1 (proj2 C1_pagination_returns_every_record_once)).
    + discriminate.
    + simpl. lia.
    + simpl. lia.
  - apply (proj1 (proj2 (proj2 C1_pagination_returns_every_record_once))
             Samples.no_fts Samples.tables unset 2 4%nat).
    + reflexivity.
    + simpl. lia.
Defined.

End PaginationClaims.

(** ** One pass of each loop *)

Module BodyFacts.
Import Py PyFacts AbortFacts Postgrest HigherGov HigherGovFacts.

(** *** award_table_filter.py *)

Lemma awards_body_on_answer (supabase : query -> result (list row))
      (aq : Awards.AwardsQuery) (fi fe : list value) (lim offset : Z)
      (acc data : list row) :
  supabase (Awards.page_query aq fi fe offset lim) = Ok data ->
  Awards.body supabase aq fi fe lim (offset, acc) =
  ([Awards.page_query aq fi fe offset lim],
   match data with
   | [] => Break acc
   | _ => Continue (offset + lim, acc ++ data)
   end).
Proof. intros E. unfold Awards.body. rewrite E. now destruct data. Qed.

Lemma awards_body_one_request (supabase : query -> result (list row))
      (aq : Awards.AwardsQuery) (fi fe : list value) (lim : Z) (s : Z * list row) :
  exists rq, fst (Awards.body supabase aq fi fe lim s) = [rq]
             /\ match Awards.failure supabase rq with
                | Some e => snd (Awards.body supabase aq fi fe lim s) = Throw e
                | None => forall e, snd (Awards.body supabase aq fi fe lim s) <> Throw e
                end.
Proof.
  destruct s as [offset acc].
  exists (Awards.page_query aq fi fe offset lim).
  unfold Awards.failure, Awards.body.
  destruct (supabase _) as [[|r data]|e]; simpl; split; try reflexivity; discriminate.
Qed.

Lemma resolve_aborts (supabase : query -> result (list row)) (keys : option (list string)) :
  match snd (Awards.resolve_fpds_codes supabase keys) with
  | Ok _ => Forall (fun q => Awards.failure supabase q = None)
                   (fst (Awards.resolve_fpds_codes supabase keys))
  | Raise e => exists q, fst (Awards.resolve_fpds_codes supabase keys) = [q]
                         /\ Awards.failure supabase q = Some e
  end.
Proof.
  unfold Awards.resolve_fpds_codes, Awards.failure.
  destruct (truthy_list keys); simpl; [|constructor].
  destruct (supabase _) as [data|e] eqn:E; simpl.
  - repeat constructor. now rewrite E.
  - eexists. split; [reflexivity|]. now rewrite E.
Qed.

Lemma fetch_awards_aborts (supabase : query -> result (list row))
      (aq : Awards.AwardsQuery) (lim : Z) (fuel : nat) :
  aborts_at_failure (Awards.failure supabase) (Awards.fetch_awards supabase lim aq fuel).
Proof.
  unfold Awards.fetch_awards.
  pose proof (resolve_aborts supabase (Awards.INCLUDE_ORGANIZATION_KEYS aq)) as H1.
  pose proof (resolve_aborts supabase (Awards.EXCLUDE_ORGANIZATION_KEYS aq)) as H2.
  destruct (Awards.resolve_fpds_codes supabase (Awards.INCLUDE_ORGANIZATION_KEYS aq))
    as [log1 [fi|e1]]; simpl in H1.
  - destruct (Awards.resolve_fpds_codes supabase (Awards.EXCLUDE_ORGANIZATION_KEYS aq))
      as [log2 [fe|e2]]; simpl in H2.
    + pose proof (while_true_aborts (Awards.body supabase aq fi fe lim)
                    (Awards.failure supabase)) as Hloop.
      specialize (Hloop ltac:(intros s; right; apply awards_body_one_request) fuel (0, [])).
      destruct (while_true _ fuel (0, [])) as [log3 o].
      apply aborts_after_successes; [assumption|].
      now apply aborts_after_successes.
    + destruct H2 as [q [-> Hq]].
      apply aborts_after_successes; [assumption|].
      now apply aborts_single.
  - destruct H1 as [q [-> Hq]]. now apply aborts_single.
Qed.

(** *** table_filter_Lawrence.py *)

Lemma notices_body_one_request (supabase : query -> result (list row))
      (utcnow : nat -> string) (int_of_str : string -> option Z)
      (a : Notices.notices_args) (s : Notices.state) :
  (fst (Notices.body supabase utcnow int_of_str a s) = []
   /\ exists e, snd (Notices.body supabase utcnow int_of_str a s) = Throw e)
  \/ (exists rq, fst (Notices.body supabase utcnow int_of_str a s) = [rq]
                 /\ match Awards.failure supabase rq with
                    | Some e => snd (Notices.body supabase utcnow int_of_str a s) = Throw e
                    | None => forall e,
                        snd (Notices.body supabase utcnow int_of_str a s) <> Throw e
                    end).
Proof.
  unfold Notices.body, Awards.failure.
  destruct (Notices.page_query utcnow int_of_str a s) as [[q s']|e].
  - right. exists q.
    destruct (supabase q) as [[|r data]|e]; simpl; split; try reflexivity; discriminate.
  - left. split; [reflexivity|]. now exists e.
Qed.

Lemma notices_body_on_answer (supabase : query -> result (list row))
      (utcnow : nat -> string) (int_of_str : string -> option Z)
      (a : Notices.notices_args) (s s' : Notices.state) (q : query) (data : list row) :
  Notices.page_query utcnow int_of_str a s = Ok (q, s') ->
  supabase q = Ok data ->
  breaks (Notices.body supabase utcnow int_of_str a s) = negb (nonempty data)
  /\ continues (Notices.body supabase utcnow int_of_str a s) = nonempty data.
Proof.
  intros Eq Ed. unfold Notices.body, breaks, continues. rewrite Eq, Ed.
  now destruct data.
Qed.

(** *** highergov_api.py *)

Lemma get_opportunities_request (requests_get : string -> params -> result response)
      (api_key search_id : string) (n page_size : Z) :
  snd (get_opportunities requests_get api_key search_id n page_size) =
  match failure requests_get (fst (get_opportunities requests_get api_key search_id n page_size)) with
  | Some e => Raise e
  | None =>
      match requests_get
              (fst (fst (get_opportunities requests_get api_key search_id n page_size)))
              (snd (fst (get_opportunities requests_get api_key search_id n page_size))) with
      | Ok resp => Ok resp
      | Raise e => Raise e
      end
  end.
Proof.
  unfold get_opportunities, call_endpoint, failure. simpl.
  destruct (requests_get _ _) as [resp|e]; [|reflexivity].
  now destruct (raise_for_status resp).
Qed.

Lemma searchid_body_one_request (requests_get : string -> params -> result response)
      (api_key search_id : string) (max_page_number page_size : Z) (s : Z * list row) :
  exists rq,
    fst (searchid_body requests_get api_key search_id max_page_number page_size s) = [rq]
    /\ match failure requests_get rq with
       | Some e =>
           snd (searchid_body requests_get api_key search_id max_page_number page_size s)
           = Throw e
       | None => forall e,
           snd (searchid_body requests_get api_key search_id max_page_number page_size s)
           <> Throw e
       end.
Proof.
  destruct s as [n acc].
  exists (fst (get_opportunities requests_get api_key search_id n page_size)).
  unfold searchid_body.
  pose proof (get_opportunities_request requests_get api_key search_id n page_size) as E.
  destruct (get_opportunities requests_get api_key search_id n page_size) as [rq r].
  simpl in *. subst r.
  destruct (failure requests_get rq) as [e|] eqn:Ef; [now split|].
  unfold failure in Ef.
  destruct (requests_get rq.1 rq.2) as [resp|e]; [|discriminate].
  destruct (default [] (results resp)) as [|r rs]; [split; [reflexivity | discriminate]|].
  destruct (_ || _); split; try reflexivity; discriminate.
Qed.

(** On a good response the searchid loop stops on an empty page, on a
    missing next link, or at the page cap, whatever the page size. *)
Lemma searchid_body_on_success (requests_get : string -> params -> result response)
      (api_key search_id : string) (max_page_number page_size n : Z) (acc : list row)
      (resp : response) :
  snd (get_opportunities requests_get api_key search_id n page_size) = Ok resp ->
  breaks (searchid_body requests_get api_key search_id max_page_number page_size (n, acc))
  = negb (nonempty (default [] (results resp)))
    || negb (truthy_str (links_next resp))
    || (n >=? max_page_number).
Proof.
  intros E. unfold searchid_body, breaks.
  destruct (get_opportunities requests_get api_key search_id n page_size) as [rq r].
  simpl in E. subst r.
  destruct (default [] (results resp)) as [|r rs]; [reflexivity|].
  simpl. now destruct (_ || _).
Qed.

End BodyFacts.

(** ** Claims about how the loops end *)

Section TerminationClaims.
Import Py PyFacts AbortFacts Postgrest HigherGov HigherGovFacts BodyFacts.

(** C3 as stated fails for the page-number loop of highergov_api.py:
    with the default cap of one page it stops after a full page. *)
Lemma C3_searchid_loop_stops_after_full_page :
  ~ (forall (requests_get : string -> params -> result response)
            (api_key search_id : string) (max_page_number page_size n : Z)
            (acc : list row) (resp : response),
        snd (get_opportunities requests_get api_key search_id n page_size) = Ok resp ->
        (breaks (searchid_body requests_get api_key search_id
                               max_page_number page_size (n, acc)) = true
         <-> Z.of_nat (length (default [] (results resp))) < page_size)).
Proof.
  intros H.
  specialize (H Samples.endless_api "key" "I1sN" DEFAULT_MAX_PAGE_NUMBER 1 1 []
                (Response 200 (Some [Samples.a1]) (Some "next")) eq_refl).
  destruct H as [H _]. specialize (H eq_refl). simpl in H. lia.
Qed.

(** C3 (amended). The loops of [highergov_get_all_awards] and
    [highergov_get_all_opportunities] leave exactly when a page holds
    fewer records than the page size; the range-offset loops of
    [get_filtered_awards] and [get_filtered_notices] leave exactly
    when a page is empty; the page-number loop of
    [get_all_opportunities_for_searchid] leaves on an empty page, on a
    missing next link, or once the page cap is reached. *)
Theorem C3_two_termination_conditions :
  (forall (requests_get : string -> params -> result response) (url : string)
          (mk_params : Z -> params) (page_size n : Z) (acc : list row)
          (resp : response),
      requests_get url (mk_params n) = Ok resp ->
      raise_for_status resp = Ok tt ->
      breaks (page_body requests_get url mk_params page_size (n, acc))
      = (Z.of_nat (length (default [] (results resp))) <? page_size)
      /\ continues (page_body requests_get url mk_params page_size (n, acc))
         = negb (Z.of_nat (length (default [] (results resp))) <? page_size))
  /\ (forall (supabase : query -> result (list row)) (aq : Awards.AwardsQuery)
             (fi fe : list value) (lim offset : Z) (acc data : list row),
        supabase (Awards.page_query aq fi fe offset lim) = Ok data ->
        breaks (Awards.body supabase aq fi fe lim (offset, acc)) = negb (nonempty data)
        /\ continues (Awards.body supabase aq fi fe lim (offset, acc)) = nonempty data)
  /\ (forall (supabase : query -> result (list row)) (utcnow : nat -> string)
             (int_of_str : string -> option Z) (a : Notices.notices_args)
             (s s' : Notices.state) (q : query) (data : list row),
        Notices.page_query utcnow int_of_str a s = Ok (q, s') ->
        supabase q = Ok data ->
        breaks (Notices.body supabase utcnow int_of_str a s) = negb (nonempty data)
        /\ continues (Notices.body supabase utcnow int_of_str a s) = nonempty data)
  /\ (forall (requests_get : string -> params -> result response)
             (api_key search_id : string) (max_page_number page_size n : Z)
             (acc : list row) (resp : response),
        snd (get_opportunities requests_get api_key search_id n page_size) = Ok resp ->
        breaks (searchid_body requests_get api_key search_id
                              max_page_number page_size (n, acc))
        = negb (nonempty (default [] (results resp)))
          || negb (truthy_str (links_next resp))
          || (n >=? max_page_number)).
Proof.
  split; [|split; [|split]].
  - intros requests_get url mk_params page_size n acc resp Hget Hstatus.
    unfold breaks, continues.
    rewrite (page_body_on_success _ _ _ _ _ _ _ Hget Hstatus). simpl.
    now destruct (_ <? _).
  - intros supabase aq fi fe lim offset acc data E.
    rewrite (awards_body_on_answer _ _ _ _ _ _ _ _ E).
    unfold breaks, continues. now destruct data.
  - intros. now apply (notices_body_on_answer supabase utcnow int_of_str a s s' q data).
  - intros. now apply searchid_body_on_success.
Qed.

Lemma C3_termination_witness :
  breaks (page_body Samples.empty_api contract_url
            (awards_params (Samples.awards_args 10)) 10 (1, []))
  = (Z.of_nat (length (default [] (results (Response 200 (Some []) None)))) <? 10)
  /\ continues (page_body Samples.empty_api contract_url
                  (awards_params (Samples.awards_args 10)) 10 (1, []))
     = negb (Z.of_nat (length (default [] (results (Response 200 (Some []) None)))) <? 10).
Proof.
  apply (proj1 C3_two_termination_conditions Samples.empty_api).
  - reflexivity.
  - reflexivity.
Defined.

(** C9. In every paginated fetch a request that fails (network error,
    4xx/5xx status, store error) is the last request the fetch sends:
    all requests before it succeeded, none is sent again, and the call
    ends by raising that very error, so no accumulated list is
    returned. *)
Theorem C9_failed_page_aborts_fetch :
  (forall (requests_get : string -> params -> result response)
          (a : awards_args) (fuel : nat) (rq : request) (e : exn),
      In rq (fst (highergov_get_all_awards requests_get a fuel)) ->
      failure requests_get rq = Some e ->
      snd (highergov_get_all_awards requests_get a fuel) = Raised e
      /\ exists sent_before,
           fst (highergov_get_all_awards requests_get a fuel) = sent_before ++ [rq]
           /\ Forall (fun r => failure requests_get r = None) sent_before)
  /\ (forall (supabase : query -> result (list row))
             (aq : Awards.AwardsQuery) (fuel : nat) (q : query) (e : exn),
        In q (fst (Awards.get_filtered_awards supabase aq fuel)) ->
        Awards.failure supabase q = Some e ->
        snd (Awards.get_filtered_awards supabase aq fuel) = Raised e
        /\ exists sent_before,
             fst (Awards.get_filtered_awards supabase aq fuel) = sent_before ++ [q]
             /\ Forall (fun r => Awards.failure supabase r = None) sent_before)
  /\ (forall (requests_get : string -> params -> result response)
             (o : opportunities_args) (fuel : nat),
        aborts_at_failure (failure requests_get)
                          (highergov_get_all_opportunities requests_get o fuel))
  /\ (forall (requests_get : string -> params -> result response)
             (api_key search_id : string) (max_page_number page_size : Z) (fuel : nat),
        aborts_at_failure (failure requests_get)
          (get_all_opportunities_for_searchid requests_get api_key search_id
                                              max_page_number page_size fuel))
  /\ (forall (supabase : query -> result (list row)) (utcnow : nat -> string)
             (int_of_str : string -> option Z) (a : Notices.notices_args) (fuel : nat),
        aborts_at_failure (Awards.failure supabase)
          (Notices.get_filtered_notices supabase utcnow int_of_str a fuel)).
Proof.
  split; [|split; [|split; [|split]]].
  - intros requests_get a fuel. unfold highergov_get_all_awards.
    destruct (bool_decide _); [intros ? ? []|].
    destruct (_ >? _); [intros ? ? []|].
    apply (while_true_aborts (page_body requests_get contract_url (awards_params a)
                                        (a_page_size a)) (failure requests_get)).
    intros s. right. apply page_body_one_request.
  - intros supabase aq fuel. apply fetch_awards_aborts.
  - intros requests_get o fuel. unfold highergov_get_all_opportunities.
    destruct (bool_decide _); [apply aborts_nothing_sent|].
    destruct (_ >? _); [apply aborts_nothing_sent|].
    apply while_true_aborts.
    intros s. right. apply page_body_one_request.
  - intros. apply while_true_aborts.
    intros s. right. apply searchid_body_one_request.
  - intros. apply while_true_aborts.
    intros s. apply notices_body_one_request.
Qed.

Lemma C9_failed_page_witness :
  (snd (highergov_get_all_awards Samples.failing_api (Samples.awards_args 2) 5)
   = Raised (HTTPError 500)
   /\ exists sent_before,
        fst (highergov_get_all_awards Samples.failing_api (Samples.awards_args 2) 5)
        = sent_before ++ [(contract_url, awards_params (Samples.awards_args 2) 2)]
        /\ Forall (fun r => failure Samples.failing_api r = None) sent_before)
  /\ (snd (Awards.get_filtered_awards Samples.failing_store Awards.unset 5)
      = Raised (APIError "upstream request timeout")
      /\ exists sent_before,
           fst (Awards.get_filtered_awards Samples.failing_store Awards.unset 5)
           = sent_before ++ [Awards.page_query Awards.unset [] [] 1000 1000]
           /\ Forall (fun r => Awards.failure Samples.failing_store r = None) sent_before).
Proof.
  split.
  - apply (proj1 C9_failed_page_aborts_fetch Samples.failing_api (Samples.awards_args 2) 5%nat
                 (contract_url, awards_params (Samples.awards_args 2) 2) (HTTPError 500)).
    + vm_compute. right. left. reflexivity.
    + reflexivity.
  - apply (proj1 (proj2 C9_failed_page_aborts_fetch) Samples.failing_store Awards.unset 5%nat
                 (Awards.page_query Awards.unset [] [] 1000 1000)
                 (APIError "upstream request timeout")).
    + vm_compute. right. left. reflexivity.
    + reflexivity.
Defined.

End TerminationClaims.

Section ShortPageTermination.
Import Py PyFacts Postgrest HigherGov HigherGovFacts.

Variable requests_get : string -> params -> result response.

Lemma page_loop_ends_by (url : string) (mk_params : Z -> params) (page_size k : Z)
      (resp : response) (fuel : nat) :
  1 <= k ->
  requests_get url (mk_params k) = Ok resp ->
  Z.of_nat (length (default [] (results resp))) < page_size ->
  (Z.to_nat k <= fuel)%nat ->
  snd (while_true (page_body requests_get url mk_params page_size) fuel (1, []))
  <> OutOfFuel.
Proof.
  intros Hk Hget Hshort Hfuel.
  assert (Hend : snd (while_true (page_body requests_get url mk_params page_size)
                                 (S (Z.to_nat k - 1)) (1, [])) <> OutOfFuel).
  { apply (page_loop_ends requests_get url mk_params page_size _ 1 [] resp).
    - now replace (1 + Z.of_nat (Z.to_nat k - 1)) with k by lia.
    - assumption. }
  rewrite (while_true_more_fuel _ (S (Z.to_nat k - 1)) fuel); [assumption | assumption | lia].
Qed.

Lemma page_loop_never_returns (url : string) (mk_params : Z -> params) (page_size : Z)
      (fuel : nat) (s : Z * list row) (r : list row) :
  page_size <= 0 ->
  snd (while_true (page_body requests_get url mk_params page_size) fuel s) <> Returned r.
Proof.
  intros Hps.
  apply (while_true_no_break _ (fun _ => True)); [|trivial|trivial].
  intros s0 _ sent r0. now apply page_body_never_breaks.
Qed.

Lemma page_loop_runs_forever (url : string) (mk_params : Z -> params) (page_size : Z)
      (fuel : nat) (s : Z * list row) :
  page_size <= 0 ->
  (forall rq, failure requests_get rq = None) ->
  snd (while_true (page_body requests_get url mk_params page_size) fuel s) = OutOfFuel.
Proof.
  intros Hps Hok.
  apply (while_true_forever _ (fun _ => True)); [|trivial].
  intros [n acc] _.
  specialize (Hok (url, mk_params n)). unfold failure in Hok. simpl in Hok.
  unfold page_body.
  destruct (requests_get url (mk_params n)) as [resp|e]; [|discriminate].
  destruct (raise_for_status resp); [|discriminate]. simpl.
  replace (_ <? page_size) with false by (symmetry; apply Z.ltb_ge; lia).
  eauto.
Qed.
End ShortPageTermination.

Section TerminationClaim.
Import Py PyFacts Postgrest HigherGov HigherGovFacts.

(** C10. For a page size of at least 1, [highergov_get_all_awards] and
    [highergov_get_all_opportunities] end as soon as the API has
    answered some page with fewer records than the page size.  For a
    page size of 0 or less, which the [page_size > 100] check lets
    through, the loop has no way out by [break]: the call never
    returns, and while no request fails it runs for ever, empty pages
    included. *)
Theorem C10_short_page_loop_termination :
  (forall (requests_get : string -> params -> result response) (a : awards_args)
          (k : Z) (resp : response) (fuel : nat),
      1 <= a_page_size a -> 1 <= k ->
      requests_get contract_url (awards_params a k) = Ok resp ->
      Z.of_nat (length (default [] (results resp))) < a_page_size a ->
      (Z.to_nat k <= fuel)%nat ->
      snd (highergov_get_all_awards requests_get a fuel) <> OutOfFuel)
  /\ (forall (requests_get : string -> params -> result response)
             (o : opportunities_args) (k : Z) (resp : response) (fuel : nat),
        1 <= o_page_size o -> 1 <= k ->
        requests_get opportunity_url (opportunities_params o k) = Ok resp ->
        Z.of_nat (length (default [] (results resp))) < o_page_size o ->
        (Z.to_nat k <= fuel)%nat ->
        snd (highergov_get_all_opportunities requests_get o fuel) <> OutOfFuel)
  /\ (forall (requests_get : string -> params -> result response) (a : awards_args)
             (fuel : nat),
        a_api_key a <> "" -> a_page_size a <= 0 ->
        (a_page_size a >? 100) = false
        /\ (forall r, snd (highergov_get_all_awards requests_get a fuel) <> Returned r)
        /\ ((forall rq, failure requests_get rq = None) ->
            snd (highergov_get_all_awards requests_get a fuel) = OutOfFuel))
  /\ (forall (requests_get : string -> params -> result response)
             (o : opportunities_args) (fuel : nat),
        o_api_key o <> "" -> o_page_size o <= 0 ->
        (o_page_size o >? 100) = false
        /\ (forall r, snd (highergov_get_all_opportunities requests_get o fuel) <> Returned r)
        /\ ((forall rq, failure requests_get rq = None) ->
            snd (highergov_get_all_opportunities requests_get o fuel) = OutOfFuel)).
Proof.
  split; [|split; [|split]].
  - intros requests_get a k resp fuel Hps Hk Hget Hshort Hfuel.
    unfold highergov_get_all_awards.
    destruct (bool_decide _); [discriminate|].
    destruct (_ >? _); [discriminate|].
    now apply (page_loop_ends_by requests_get _ _ _ k resp).
  - intros requests_get o k resp fuel Hps Hk Hget Hshort Hfuel.
    unfold highergov_get_all_opportunities.
    destruct (bool_decide _); [discriminate|].
    destruct (_ >? _); [discriminate|].
    now apply (page_loop_ends_by requests_get _ _ _ k resp).
  - intros requests_get a fuel Hkey Hps.
    assert (Hgt : (a_page_size a >? 100) = false)
      by (rewrite Z.gtb_ltb; apply Z.ltb_ge; lia).
    unfold highergov_get_all_awards.
    rewrite bool_decide_false by assumption. rewrite Hgt.
    split; [reflexivity|]. split.
    + intros r. now apply page_loop_never_returns.
    + intros Hok. now apply page_loop_runs_forever.
  - intros requests_get o fuel Hkey Hps.
    assert (Hgt : (o_page_size o >? 100) = false)
      by (rewrite Z.gtb_ltb; apply Z.ltb_ge; lia).
    unfold highergov_get_all_opportunities.
    rewrite bool_decide_false by assumption. rewrite Hgt.
    split; [reflexivity|]. split.
    + intros r. now apply page_loop_never_returns.
    + intros Hok. now apply page_loop_runs_forever.
Qed.

Lemma C10_termination_witness :
  snd (highergov_get_all_awards (paged_api [Samples.a1; Samples.a2; Samples.a3])
                                (Samples.awards_args 2) 2) <> OutOfFuel
  /\ snd (highergov_get_all_awards Samples.empty_api (Samples.awards_args 0) 50)
     = OutOfFuel.
Proof.
  split.
  - apply (proj1 C10_short_page_loop_termination
             (paged_api [Samples.a1; Samples.a2; Samples.a3]) (Samples.awards_args 2)
             2 (Response 200 (Some [Samples.a3]) None) 2%nat).
    + simpl. lia.
    + lia.
    + reflexivity.
    + simpl. lia.
    + simpl. lia.
  - apply (proj1 (proj2 (proj2 C10_short_page_loop_termination))
             Samples.empty_api (Samples.awards_args 0) 50%nat).
    + discriminate.
    + simpl. lia.
    + intros rq. reflexivity.
Defined.

End TerminationClaim.

(** ** table_filter_Lawrence.py with no optional argument *)

Module NoticesFacts.
Import Py PyFacts Postgrest PostgrestFacts Notices.

Section Unset.
Variable utcnow : nat -> string.
Variable int_of_str : string -> option Z.
Variable a : notices_args.
Hypothesis a_unset : optional_unset a.

Lemma initial_lists_unset : lists_unset (initial a).
Proof.
  destruct a_unset as (_ & _ & _ & _ & _ & _ & H1 & H2 & H3 & H4 & _).
  unfold lists_unset, initial. simpl. now rewrite H1, H2, H3, H4.
Qed.

(** The query of one pass: only [active] can attach constraints. *)
Lemma page_query_unset (s : state) :
  lists_unset s ->
  page_query utcnow int_of_str a s =
  Ok (Query "notices" notices_columns
            (if active a
             then [FEq "latest" (VBool true);
                   FGt "solicitation_response_deadline" (VStr (utcnow (tick s)))]
             else [])
            (Some (offset s, offset s + limit - 1)),
      State (offset s) (all_notices s) None None None None
            (if active a then S (tick s) else tick s)).
Proof.
  intros (L1 & L2 & L3 & L4).
  destruct a_unset as (H1 & H2 & H3 & H4 & H5 & H6 & _ & _ & _ & _ & H11).
  unfold page_query. rewrite H1, H2, H3, H4, H5, H6, H11, L1, L2, L3, L4.
  now destruct (active a).
Qed.

Section OnStore.
Variable fts : string -> value -> bool.
Variable tables : string -> list row.
Hypothesis inactive : active a = false.

Lemma body_unset_on_store (s : state) :
  lists_unset s ->
  match take (Z.to_nat limit) (drop (Z.to_nat (offset s)) (tables "notices")) with
  | [] => snd (body (table_store fts tables) utcnow int_of_str a s)
          = Break (all_notices s)
  | data => exists s',
      snd (body (table_store fts tables) utcnow int_of_str a s) = Continue s'
      /\ lists_unset s' /\ offset s' = offset s + limit
      /\ all_notices s' = all_notices s ++ data
  end.
Proof.
  intros Hs. unfold body. rewrite (page_query_unset s Hs), inactive.
  unfold table_store. rewrite run_spec. simpl q_range. simpl q_filters. simpl q_table.
  rewrite satisfying_nil, window_page.
  destruct (take _ _) as [|r data]; [reflexivity|].
  eexists. split; [reflexivity|]. simpl. now repeat split.
Qed.

Lemma get_filtered_notices_unset (fuel : nat) :
  (length (tables "notices") < fuel)%nat ->
  snd (get_filtered_notices (table_store fts tables) utcnow int_of_str a fuel)
  = Returned (tables "notices").
Proof.
  intros Hfuel. unfold get_filtered_notices.
  rewrite (Paging.empty_page_loop _ offset all_notices (tables "notices") limit
             lists_unset).
  - reflexivity.
  - unfold limit. lia.
  - intros s Hs _. now apply body_unset_on_store.
  - apply initial_lists_unset.
  - simpl. lia.
  - exact Hfuel.
Qed.
End OnStore.
End Unset.

End NoticesFacts.

(** ** Claims about the filter translation *)

Section UnsetFilterClaim.
Import Py PyFacts Postgrest PostgrestFacts Awards AwardsFacts.

Lemma result_set_unset (fts : string -> value -> bool) (tables : string -> list row) :
  result_set fts tables unset = tables "awards".
Proof. unfold result_set. apply satisfying_nil. Qed.

(** C4 as stated fails for [get_filtered_notices]: called with no
    optional argument, [active] keeps its default [True] and the
    query carries two constraints, so a notice that is not the latest
    is left out. *)
Lemma C4_notices_default_is_filtered :
  ~ (forall (a : Notices.notices_args) (fts : string -> value -> bool)
            (tables : string -> list row) (utcnow : nat -> string)
            (int_of_str : string -> option Z) (fuel : nat),
        Notices.optional_unset a ->
        (length (tables "notices") < fuel)%nat ->
        snd (Notices.get_filtered_notices (table_store fts tables) utcnow int_of_str a fuel)
        = Returned (tables "notices")).
Proof.
  intros H.
  specialize (H Notices.defaults Samples.no_fts Samples.tables Samples.clock
                Samples.no_int 3%nat).
  assert (Hu : Notices.optional_unset Notices.defaults) by (repeat split).
  specialize (H Hu ltac:(simpl; lia)).
  vm_compute in H. discriminate.
Qed.

(** C4 (amended). With every field of [AwardsQuery] unset the query
    of each page carries no constraint, no organization lookup is
    made, and [get_filtered_awards] returns the whole awards table.
    With every optional argument of [get_filtered_notices] unset and
    [active=False] the same holds for the notices table; with
    [active=True], the default, the constraints are exactly
    [latest = true] and [solicitation_response_deadline > now]. *)
Theorem C4_unset_filters_add_no_constraint :
  (forall offset lim : Z,
      page_query unset [] [] offset lim
      = Query "awards" "*" [] (Some (offset, offset + lim - 1)))
  /\ (forall supabase : query -> result (list row),
        resolve_fpds_codes supabase (INCLUDE_ORGANIZATION_KEYS unset) = ([], Ok [])
        /\ resolve_fpds_codes supabase (EXCLUDE_ORGANIZATION_KEYS unset) = ([], Ok []))
  /\ (forall (fts : string -> value -> bool) (tables : string -> list row) (fuel : nat),
        (length (tables "awards") < fuel)%nat ->
        snd (get_filtered_awards (table_store fts tables) unset fuel)
        = Returned (tables "awards"))
  /\ (forall (a : Notices.notices_args) (utcnow : nat -> string)
             (int_of_str : string -> option Z) (s : Notices.state),
        Notices.optional_unset a -> Notices.lists_unset s ->
        exists q s', Notices.page_query utcnow int_of_str a s = Ok (q, s')
                     /\ q_filters q =
                        if Notices.active a
                        then [FEq "latest" (VBool true);
                              FGt "solicitation_response_deadline"
                                  (VStr (utcnow (Notices.tick s)))]
                        else [])
  /\ (forall (a : Notices.notices_args) (fts : string -> value -> bool)
             (tables : string -> list row) (utcnow : nat -> string)
             (int_of_str : string -> option Z) (fuel : nat),
        Notices.optional_unset a -> Notices.active a = false ->
        (length (tables "notices") < fuel)%nat ->
        snd (Notices.get_filtered_notices (table_store fts tables) utcnow int_of_str a fuel)
        = Returned (tables "notices")).
Proof.
  split; [|split; [|split; [|split]]].
  - reflexivity.
  - intros supabase. split; reflexivity.
  - intros fts tables fuel Hfuel. unfold get_filtered_awards.
    rewrite fetch_awards_on_store.
    + now rewrite result_set_unset.
    + unfold limit. lia.
    + now rewrite result_set_unset.
  - intros a utcnow int_of_str s Ha Hs.
    rewrite (NoticesFacts.page_query_unset utcnow int_of_str a Ha s Hs).
    eexists. eexists. split; reflexivity.
  - intros a fts tables utcnow int_of_str fuel Ha Hinactive Hfuel.
    now apply NoticesFacts.get_filtered_notices_unset.
Qed.

Lemma C4_unset_filters_witness :
  snd (get_filtered_awards Samples.store unset 4)
  = Returned [Samples.a1; Samples.a2; Samples.a3].
Proof.
  apply (proj1 (proj2 (proj2 C4_unset_filters_add_no_constraint))
               Samples.no_fts Samples.tables 4%nat).
  simpl. lia.
Defined.

End UnsetFilterClaim.

(** ** Inclusion and exclusion lists *)

Module ListFilterFacts.
Import Py PyFacts Postgrest PostgrestFacts Steps Awards AwardsFacts.

Lemma holds_in (fts : string -> value -> bool) (r : row) (col : string) (vs : list value) :
  holds fts r (FIn col vs) = true -> In (get r col) vs.
Proof.
  simpl. intros H. apply andb_true_iff in H as [_ H].
  apply bool_decide_eq_true in H. now apply list_elem_of_In.
Qed.

Lemma holds_neq (fts : string -> value -> bool) (r : row) (col : string) (v : value) :
  holds fts r (FNeq col v) = true -> get r col <> v.
Proof.
  simpl. intros H. apply andb_true_iff in H as [_ H].
  apply negb_true_iff, bool_decide_eq_false in H. exact H.
Qed.

(** A text value from [L] differs from every text outside [L], and
    the comparison is never unknown. *)
Lemma holds_neq_outside (fts : string -> value -> bool) (r : row) (col : string)
      (L : list string) (x : string) :
  In (get r col) (VStr <$> L) -> ~ In x L ->
  holds fts r (FNeq col (VStr x)) = true.
Proof.
  intros Hin Hx. apply list_elem_of_In, list_elem_of_fmap in Hin as [l [Hl Hin]].
  simpl. rewrite Hl. simpl.
  apply negb_true_iff, bool_decide_eq_false.
  intros E. injection E as ->. apply Hx. now apply list_elem_of_In.
Qed.

Lemma truthy_some_cons {A : Type} (L : list A) : L <> [] -> truthy_list (Some L) = true.
Proof. now destruct L. Qed.

Lemma in_added_include (col : string) (keys : option (list string)) :
  truthy_list keys = true ->
  In (FIn col (VStr <$> items keys)) (added (include_in col keys)).
Proof. intros H. rewrite added_include_in, H. now left. Qed.

Lemma added_exclude_some (col : string) (E : list string) :
  added (exclude_each col (Some E)) = List.map (fun e => FNeq col (VStr e)) E.
Proof. rewrite added_exclude_each. now destruct E. Qed.

Lemma in_added_exclude (col : string) (E : list string) (e : string) :
  In e E -> In (FNeq col (VStr e)) (added (exclude_each col (Some E))).
Proof.
  intros Hin. rewrite added_exclude_some.
  now apply (in_map (fun e => FNeq col (VStr e))).
Qed.

(** Finds a constraint in the segment of the list that [tac] proves it in. *)
Ltac in_segment tac :=
  solve [ repeat first [ solve [tac]
                       | apply in_or_app; first [ left; solve [tac] | right ] ] ].

Section Fields.
Variables (aq : AwardsQuery) (fi fe : list value).

Lemma naics_include_attached :
  truthy_list (INCLUDE_NAICS aq) = true ->
  In (FIn "naics" (VStr <$> items (INCLUDE_NAICS aq))) (constraints aq fi fe).
Proof.
  intros H. unfold constraints. rewrite q_filters_page_query.
  in_segment ltac:(now apply in_added_include).
Qed.

Lemma psc_include_attached :
  truthy_list (INCLUDE_PSC aq) = true ->
  In (FIn "product_or_service_code" (VStr <$> items (INCLUDE_PSC aq)))
     (constraints aq fi fe).
Proof.
  intros H. unfold constraints. rewrite q_filters_page_query.
  in_segment ltac:(now apply in_added_include).
Qed.

Lemma naics_exclude_attached (E : list string) (e : string) :
  EXCLUDE_NAICS aq = Some E -> In e E ->
  In (FNeq "naics" (VStr e)) (constraints aq fi fe).
Proof.
  intros HE Hin. unfold constraints. rewrite q_filters_page_query, HE.
  in_segment ltac:(now apply in_added_exclude).
Qed.

Lemma psc_exclude_attached (E : list string) (e : string) :
  EXCLUDE_PSC aq = Some E -> In e E ->
  In (FNeq "product_or_service_code" (VStr e)) (constraints aq fi fe).
Proof.
  intros HE Hin. unfold constraints. rewrite q_filters_page_query, HE.
  in_segment ltac:(now apply in_added_exclude).
Qed.
End Fields.

Section OnStore.
Variable fts : string -> value -> bool.
Variable tables : string -> list row.

Lemma result_set_holds (aq : AwardsQuery) (r : row) (c : cond) :
  In r (result_set fts tables aq) ->
  In c (constraints aq (resolved (table_store fts tables) (INCLUDE_ORGANIZATION_KEYS aq))
                       (resolved (table_store fts tables) (EXCLUDE_ORGANIZATION_KEYS aq))) ->
  holds fts r c = true.
Proof.
  unfold result_set. intros Hr Hc.
  apply satisfying_In in Hr as [_ Hall]. now apply Hall.
Qed.

(** An exclusion list disjoint from a non-empty inclusion list on
    the same column changes nothing. *)
Lemma idle_exclusion (col : string) (L E : list string) (rows : list row) :
  L <> [] -> (forall x, In x L -> ~ In x E) ->
  satisfying fts (added (exclude_each col (Some E)))
             (satisfying fts (added (include_in col (Some L))) rows)
  = satisfying fts (added (exclude_each col None))
               (satisfying fts (added (include_in col (Some L))) rows).
Proof.
  intros HL Hdisj.
  change (added (exclude_each col None)) with (@nil cond).
  rewrite satisfying_nil. apply satisfying_idle.
  intros r c Hr Hc.
  apply satisfying_In in Hr as [_ Hr].
  specialize (Hr _ (in_added_include col (Some L) (truthy_some_cons L HL))).
  apply holds_in in Hr. simpl in Hr.
  rewrite added_exclude_some in Hc. apply in_map_iff in Hc as [e [<- He]].
  apply (holds_neq_outside fts r col L e Hr).
  intros HeL. exact (Hdisj e HeL He).
Qed.

Lemma naics_disjoint_exclusion (aq : AwardsQuery) (L E : list string) :
  L <> [] -> (forall x, In x L -> ~ In x E) ->
  result_set fts tables (with_naics (Some L) (Some E) aq)
  = result_set fts tables (with_naics (Some L) None aq).
Proof.
  intros HL Hdisj. unfold result_set, constraints.
  rewrite !q_filters_page_query.
  cbn [with_naics INCLUDE_RECIPIENT_UEI EXCLUDE_RECIPIENT_UEI POTENTIAL_END_DATE_START
       POTENTIAL_END_DATE_END INCLUDE_NAICS EXCLUDE_NAICS INCLUDE_PSC EXCLUDE_PSC
       INCLUDE_SET_ASIDE_IDS EXCLUDE_SET_ASIDE_IDS INCLUDE_ORGANIZATION_KEYS
       EXCLUDE_ORGANIZATION_KEYS INCLUDE_EXTENT_COMPETED EXCLUDE_EXTENT_COMPETED
       AMOUNT_OBLIGATED_MINIMUM AMOUNT_OBLIGATED_MAXIMUM KEYWORD_QUERY].
  rewrite !satisfying_app.
  now rewrite (idle_exclusion "naics" L E _ HL Hdisj).
Qed.

Lemma psc_disjoint_exclusion (aq : AwardsQuery) (L E : list string) :
  L <> [] -> (forall x, In x L -> ~ In x E) ->
  result_set fts tables (with_psc (Some L) (Some E) aq)
  = result_set fts tables (with_psc (Some L) None aq).
Proof.
  intros HL Hdisj. unfold result_set, constraints.
  rewrite !q_filters_page_query.
  cbn [with_psc INCLUDE_RECIPIENT_UEI EXCLUDE_RECIPIENT_UEI POTENTIAL_END_DATE_START
       POTENTIAL_END_DATE_END INCLUDE_NAICS EXCLUDE_NAICS INCLUDE_PSC EXCLUDE_PSC
       INCLUDE_SET_ASIDE_IDS EXCLUDE_SET_ASIDE_IDS INCLUDE_ORGANIZATION_KEYS
       EXCLUDE_ORGANIZATION_KEYS INCLUDE_EXTENT_COMPETED EXCLUDE_EXTENT_COMPETED
       AMOUNT_OBLIGATED_MINIMUM AMOUNT_OBLIGATED_MAXIMUM KEYWORD_QUERY].
  rewrite !satisfying_app.
  now rewrite (idle_exclusion "product_or_service_code" L E _ HL Hdisj).
Qed.
End OnStore.

(** The client-side re-check of testing.py. *)
Lemma verified_notices_naics (naics_codes psc_codes : option (list string))
      (data : list row) (notice : row) :
  truthy_list naics_codes = true ->
  In notice (Opportunities.verified_notices naics_codes psc_codes data) ->
  In notice data /\ In (get notice "naics") (VStr <$> items naics_codes).
Proof.
  intros Ht. unfold Opportunities.verified_notices. rewrite Ht. simpl.
  rewrite filter_In. intros [Hin H]. split; [assumption|].
  apply andb_true_iff in H as [H _].
  unfold Opportunities.code_in in H.
  apply bool_decide_eq_true in H. now apply list_elem_of_In.
Qed.

End ListFilterFacts.

Section ListFilterClaims.
Import Py PyFacts Postgrest PostgrestFacts Steps Awards AwardsFacts ListFilterFacts.

Lemma get_filtered_awards_on_store (fts : string -> value -> bool)
      (tables : string -> list row) (aq : AwardsQuery) (fuel : nat) :
  (length (tables "awards") < fuel)%nat ->
  snd (get_filtered_awards (table_store fts tables) aq fuel)
  = Returned (result_set fts tables aq).
Proof.
  intros Hfuel. unfold get_filtered_awards. apply fetch_awards_on_store.
  - unfold limit. lia.
  - pose proof (length_result_set fts tables aq). lia.
Qed.

(** C5 as stated fails on the empty inclusion list: [if
    aq.INCLUDE_NAICS:] is false for [[]], no constraint is attached,
    and every award comes back although none has its NAICS in [[]]. *)
Lemma C5_empty_inclusion_list_is_ignored :
  ~ (forall (fts : string -> value -> bool) (tables : string -> list row)
            (aq : AwardsQuery) (L : list string) (fuel : nat) (rows : list row),
        INCLUDE_NAICS aq = Some L ->
        snd (get_filtered_awards (table_store fts tables) aq fuel) = Returned rows ->
        forall r, In r rows -> In (get r "naics") (VStr <$> L)).
Proof.
  intros H.
  specialize (H Samples.no_fts Samples.tables (with_naics (Some []) None unset) []
                4%nat [Samples.a1; Samples.a2; Samples.a3] eq_refl).
  assert (E : snd (get_filtered_awards (table_store Samples.no_fts Samples.tables)
                     (with_naics (Some []) None unset) 4)
              = Returned [Samples.a1; Samples.a2; Samples.a3])
    by (vm_compute; reflexivity).
  exact (H E Samples.a1 (or_introl eq_refl)).
Qed.

(** C5 (amended). For every non-empty inclusion list L on NAICS or
    PSC, every award [get_filtered_awards] returns has that column's
    value in L.  For every exclusion list E the translation attaches
    one [neq] per element of E, and no returned award has that
    column's value in E.  With a non-empty L and an E disjoint from
    it on the same column, the result is the one of L alone.  The
    client-side re-check of testing.py keeps only notices whose NAICS
    is in a non-empty list of codes. *)
Theorem C5_inclusion_and_exclusion_lists :
  (forall (fts : string -> value -> bool) (tables : string -> list row)
          (aq : AwardsQuery) (L : list string) (fuel : nat),
      L <> [] -> (length (tables "awards") < fuel)%nat ->
      exists rows,
        snd (get_filtered_awards (table_store fts tables) aq fuel) = Returned rows
        /\ (INCLUDE_NAICS aq = Some L ->
            forall r, In r rows -> In (get r "naics") (VStr <$> L))
        /\ (INCLUDE_PSC aq = Some L ->
            forall r, In r rows -> In (get r "product_or_service_code") (VStr <$> L)))
  /\ (forall (fts : string -> value -> bool) (tables : string -> list row)
             (aq : AwardsQuery) (E : list string) (fuel : nat),
        (length (tables "awards") < fuel)%nat ->
        added (exclude_each "naics" (Some E))
        = List.map (fun e => FNeq "naics" (VStr e)) E
        /\ added (exclude_each "product_or_service_code" (Some E))
           = List.map (fun e => FNeq "product_or_service_code" (VStr e)) E
        /\ exists rows,
             snd (get_filtered_awards (table_store fts tables) aq fuel) = Returned rows
             /\ (EXCLUDE_NAICS aq = Some E ->
                 forall r, In r rows -> ~ In (get r "naics") (VStr <$> E))
             /\ (EXCLUDE_PSC aq = Some E ->
                 forall r, In r rows ->
                   ~ In (get r "product_or_service_code") (VStr <$> E)))
  /\ (forall (fts : string -> value -> bool) (tables : string -> list row)
             (aq : AwardsQuery) (L E : list string) (fuel : nat),
        L <> [] -> (forall x, In x L -> ~ In x E) ->
        (length (tables "awards") < fuel)%nat ->
        snd (get_filtered_awards (table_store fts tables)
               (with_naics (Some L) (Some E) aq) fuel)
        = snd (get_filtered_awards (table_store fts tables)
                 (with_naics (Some L) None aq) fuel)
        /\ snd (get_filtered_awards (table_store fts tables)
                  (with_psc (Some L) (Some E) aq) fuel)
           = snd (get_filtered_awards (table_store fts tables)
                    (with_psc (Some L) None aq) fuel))
  /\ (forall (L : list string) (psc_codes : option (list string))
             (data : list row) (notice : row),
        L <> [] ->
        In notice (Opportunities.verified_notices (Some L) psc_codes data) ->
        In (get notice "naics") (VStr <$> L)).
Proof.
  split; [|split; [|split]].
  - intros fts tables aq L fuel HL Hfuel.
    exists (result_set fts tables aq).
    split; [now apply get_filtered_awards_on_store|]. split.
    + intros HI r Hr. apply (holds_in fts).
      apply (result_set_holds fts tables aq r _ Hr).
      replace L with (items (INCLUDE_NAICS aq)) by now rewrite HI.
      apply naics_include_attached. rewrite HI. now apply truthy_some_cons.
    + intros HI r Hr. apply (holds_in fts).
      apply (result_set_holds fts tables aq r _ Hr).
      replace L with (items (INCLUDE_PSC aq)) by now rewrite HI.
      apply psc_include_attached. rewrite HI. now apply truthy_some_cons.
  - intros fts tables aq E fuel Hfuel.
    split; [apply added_exclude_some|]. split; [apply added_exclude_some|].
    exists (result_set fts tables aq).
    split; [now apply get_filtered_awards_on_store|]. split.
    + intros HE r Hr Hin.
      apply list_elem_of_In, list_elem_of_fmap in Hin as [e [He Hin]].
      apply list_elem_of_In in Hin.
      pose proof (naics_exclude_attached aq
                    (resolved (table_store fts tables) (INCLUDE_ORGANIZATION_KEYS aq))
                    (resolved (table_store fts tables) (EXCLUDE_ORGANIZATION_KEYS aq))
                    E e HE Hin) as Hc.
      apply (result_set_holds fts tables aq r _ Hr), holds_neq in Hc.
      now apply Hc.
    + intros HE r Hr Hin.
      apply list_elem_of_In, list_elem_of_fmap in Hin as [e [He Hin]].
      apply list_elem_of_In in Hin.
      pose proof (psc_exclude_attached aq
                    (resolved (table_store fts tables) (INCLUDE_ORGANIZATION_KEYS aq))
                    (resolved (table_store fts tables) (EXCLUDE_ORGANIZATION_KEYS aq))
                    E e HE Hin) as Hc.
      apply (result_set_holds fts tables aq r _ Hr), holds_neq in Hc.
      now apply Hc.
  - intros fts tables aq L E fuel HL Hdisj Hfuel.
    rewrite !get_filtered_awards_on_store by assumption.
    now rewrite naics_disjoint_exclusion, psc_disjoint_exclusion.
  - intros L psc_codes data notice HL Hin.
    now apply (verified_notices_naics (Some L) psc_codes data notice
                 (truthy_some_cons L HL)).
Qed.

Lemma C5_inclusion_witness :
  snd (get_filtered_awards Samples.store
         (with_naics (Some ["541511"; "541512"]) (Some ["111110"]) unset) 4)
  = snd (get_filtered_awards Samples.store
           (with_naics (Some ["541511"; "541512"]) None unset) 4)
  /\ snd (get_filtered_awards Samples.store
            (with_psc (Some ["541511"; "541512"]) (Some ["111110"]) unset) 4)
     = snd (get_filtered_awards Samples.store
              (with_psc (Some ["541511"; "541512"]) None unset) 4).
Proof.
  apply (proj1 (proj2 (proj2 C5_inclusion_and_exclusion_lists))
               Samples.no_fts Samples.tables unset ["541511"; "541512"] ["111110"] 4%nat).
  - discriminate.
  - intros x [<-|[<-|[]]] [E|[]]; discriminate.
  - simpl. lia.
Defined.

(** C6. When the lookup of the organization keys comes back without
    rows, no organization constraint is attached: the fetch ends as it
    does with that field unset, on any store, and on a list-backed
    store it returns the result set of the query without the field,
    not the empty list. *)
Theorem C6_unresolved_organization_filter_is_dropped :
  (forall (supabase : query -> result (list row)) (aq : AwardsQuery) (fuel : nat),
      supabase (organizations_query (items (INCLUDE_ORGANIZATION_KEYS aq))) = Ok [] ->
      resolved supabase (INCLUDE_ORGANIZATION_KEYS aq) = []
      /\ snd (get_filtered_awards supabase aq fuel)
         = snd (get_filtered_awards supabase (without_include_organization_keys aq) fuel))
  /\ (forall (supabase : query -> result (list row)) (aq : AwardsQuery) (fuel : nat),
        supabase (organizations_query (items (EXCLUDE_ORGANIZATION_KEYS aq))) = Ok [] ->
        resolved supabase (EXCLUDE_ORGANIZATION_KEYS aq) = []
        /\ snd (get_filtered_awards supabase aq fuel)
           = snd (get_filtered_awards supabase (without_exclude_organization_keys aq) fuel))
  /\ (forall (aq : AwardsQuery) (fi fe : list value),
        added (when (nonempty (@nil value))
                 (in_ "funding_agency_subtier_agency_code" [])) = []
        /\ added (when (nonempty (@nil value))
                    (for_each [] (neq "funding_agency_subtier_agency_code"))) = []
        /\ constraints (without_include_organization_keys aq) fi fe = constraints aq fi fe
        /\ constraints (without_exclude_organization_keys aq) fi fe = constraints aq fi fe)
  /\ (forall (fts : string -> value -> bool) (tables : string -> list row)
             (aq : AwardsQuery) (fuel : nat),
        run fts tables (organizations_query (items (INCLUDE_ORGANIZATION_KEYS aq))) = [] ->
        (length (tables "awards") < fuel)%nat ->
        snd (get_filtered_awards (table_store fts tables) aq fuel)
        = Returned (result_set fts tables (without_include_organization_keys aq))).
Proof.
  assert (Hinc : forall supabase aq fuel,
             supabase (organizations_query (items (INCLUDE_ORGANIZATION_KEYS aq))) = Ok [] ->
             resolved supabase (INCLUDE_ORGANIZATION_KEYS aq) = []
             /\ snd (get_filtered_awards supabase aq fuel)
                = snd (get_filtered_awards supabase
                         (without_include_organization_keys aq) fuel)).
  { intros supabase aq fuel Hempty.
    assert (E : resolve_fpds_codes supabase (INCLUDE_ORGANIZATION_KEYS aq)
                = (fst (resolve_fpds_codes supabase (INCLUDE_ORGANIZATION_KEYS aq)), Ok [])).
    { unfold resolve_fpds_codes.
      destruct (truthy_list _); [|reflexivity]. now rewrite Hempty. }
    split; [unfold resolved; now rewrite E|].
    unfold get_filtered_awards, fetch_awards. rewrite E.
    cbn [INCLUDE_ORGANIZATION_KEYS EXCLUDE_ORGANIZATION_KEYS
         without_include_organization_keys].
    change (resolve_fpds_codes supabase None) with (@nil query, @Ok (list value) []).
    cbv iota.
    destruct (resolve_fpds_codes supabase (EXCLUDE_ORGANIZATION_KEYS aq))
      as [log2 [fe|e]]; [|reflexivity].
    change (body supabase (without_include_organization_keys aq) [] fe limit)
      with (body supabase aq [] fe limit).
    now destruct (while_true (body supabase aq [] fe limit) fuel (0, [])). }
  split; [exact Hinc|]. split; [|split].
  - intros supabase aq fuel Hempty.
    assert (E : resolve_fpds_codes supabase (EXCLUDE_ORGANIZATION_KEYS aq)
                = (fst (resolve_fpds_codes supabase (EXCLUDE_ORGANIZATION_KEYS aq)), Ok [])).
    { unfold resolve_fpds_codes.
      destruct (truthy_list _); [|reflexivity]. now rewrite Hempty. }
    split; [unfold resolved; now rewrite E|].
    unfold get_filtered_awards, fetch_awards.
    cbn [INCLUDE_ORGANIZATION_KEYS EXCLUDE_ORGANIZATION_KEYS
         without_exclude_organization_keys].
    destruct (resolve_fpds_codes supabase (INCLUDE_ORGANIZATION_KEYS aq))
      as [log1 [fi|e]]; [|reflexivity].
    rewrite E.
    change (resolve_fpds_codes supabase None) with (@nil query, @Ok (list value) []).
    cbv iota.
    change (body supabase (without_exclude_organization_keys aq) fi [] limit)
      with (body supabase aq fi [] limit).
    now destruct (while_true (body supabase aq fi [] limit) fuel (0, [])).
  - intros aq fi fe. repeat split.
  - intros fts tables aq fuel Hempty Hfuel.
    assert (Hstore : table_store fts tables
                       (organizations_query (items (INCLUDE_ORGANIZATION_KEYS aq))) = Ok [])
      by (unfold table_store; now rewrite Hempty).
    destruct (Hinc (table_store fts tables) aq fuel Hstore) as [_ ->].
    now apply get_filtered_awards_on_store.
Qed.

Lemma C6_unresolved_organization_witness :
  snd (get_filtered_awards Samples.store Samples.unknown_organization 4)
  = Returned (result_set Samples.no_fts Samples.tables
                (without_include_organization_keys Samples.unknown_organization))
  /\ result_set Samples.no_fts Samples.tables
       (without_include_organization_keys Samples.unknown_organization)
     = [Samples.a1; Samples.a2; Samples.a3].
Proof.
  split.
  - apply (proj2 (proj2 (proj2 C6_unresolved_organization_filter_is_dropped))
                 Samples.no_fts Samples.tables Samples.unknown_organization 4%nat).
    + reflexivity.
    + simpl. lia.
  - vm_compute. reflexivity.
Defined.

End ListFilterClaims.

(** * Further properties of the loops *)

Module LoopFacts.
Import Py PyFacts.

Section Unfold.
Context {S R Req : Type}.
Variable body : S -> list Req * step S R.

Lemma while_true_fst (fuel : nat) (s : S) :
  fst (while_true body (Datatypes.S fuel) s) =
  fst (body s) ++ match snd (body s) with
                  | Continue s' => fst (while_true body fuel s')
                  | _ => []
                  end.
Proof.
  simpl. destruct (body s) as [sent [s'|r|e]]; simpl; try now rewrite app_nil_r.
  now destruct (while_true body fuel s').
Qed.

Lemma while_true_snd (fuel : nat) (s : S) :
  snd (while_true body (Datatypes.S fuel) s) =
  match snd (body s) with
  | Continue s' => snd (while_true body fuel s')
  | Break r => Returned r
  | Throw e => Raised e
  end.
Proof.
  simpl. destruct (body s) as [sent [s'|r|e]]; simpl; try reflexivity.
  now destruct (while_true body fuel s').
Qed.
End Unfold.

End LoopFacts.

(** ** testing.py, highergov_api.py: what the page-number loops ask for
       and what they give back *)

Module HigherGovMore.
Import Py PyFacts LoopFacts Postgrest HigherGov HigherGovFacts Transcript.

Lemma pages_from_S (first : Z) (count : nat) :
  pages_from first (S count) = first :: pages_from (first + 1) count.
Proof.
  unfold pages_from. simpl. f_equal; [lia|].
  rewrite <- seq_shift, map_map. apply map_ext. intros k. lia.
Qed.

Section AnyApi.
Variable requests_get : string -> params -> result response.
Variable url : string.
Variable mk_params : Z -> params.
Variable page_size : Z.

Local Abbreviation body := (page_body requests_get url mk_params page_size).

Lemma page_body_next (n : Z) (acc : list row) (s' : Z * list row) :
  snd (body (n, acc)) = Continue s' ->
  s' = (n + 1, acc ++ records_of requests_get (url, mk_params n)).
Proof.
  unfold page_body, records_of. simpl.
  destruct (requests_get url (mk_params n)) as [resp|e]; [|discriminate].
  destruct (raise_for_status resp); [|discriminate]. simpl.
  destruct (_ <? _); [discriminate|]. now intros [= <-].
Qed.

Lemma page_body_last (n : Z) (acc rs : list row) :
  snd (body (n, acc)) = Break rs ->
  rs = acc ++ records_of requests_get (url, mk_params n).
Proof.
  unfold page_body, records_of. simpl.
  destruct (requests_get url (mk_params n)) as [resp|e]; [|discriminate].
  destruct (raise_for_status resp); [|discriminate]. simpl.
  destruct (_ <? _); [|discriminate]. now intros [= <-].
Qed.

(** The requests of a run are those of the pages [n, n+1, ...], each
    once and in this order. *)
Lemma page_loop_pages (fuel : nat) (n : Z) (acc : list row) :
  fst (while_true body fuel (n, acc)) =
  List.map (fun k => (url, mk_params k))
           (pages_from n (length (fst (while_true body fuel (n, acc))))).
Proof.
  revert n acc. induction fuel as [|fuel IH]; intros n acc; [reflexivity|].
  rewrite while_true_fst, page_body_sends. simpl fst.
  destruct (snd (body (n, acc))) as [s'|r|e] eqn:E;
    try (unfold pages_from; simpl; now rewrite Z.add_0_r).
  apply page_body_next in E. subst s'.
  change ([(url, mk_params n)] ++ ?l) with ((url, mk_params n) :: l).
  cbn [length]. rewrite pages_from_S. cbn [List.map]. f_equal. apply IH.
Qed.

(** What a run returns is what its requests brought back, page after
    page: nothing is dropped, repeated or reordered by the loop. *)
Lemma page_loop_concat (fuel : nat) (n : Z) (acc rs : list row) :
  snd (while_true body fuel (n, acc)) = Returned rs ->
  rs = acc ++ flat_map (records_of requests_get) (fst (while_true body fuel (n, acc))).
Proof.
  revert n acc. induction fuel as [|fuel IH]; intros n acc; [discriminate|].
  rewrite while_true_fst, while_true_snd, page_body_sends. simpl fst.
  destruct (snd (body (n, acc))) as [s'|r|e] eqn:E; [| |discriminate].
  - apply page_body_next in E. subst s'. intros H. apply IH in H.
    rewrite H. cbn [app flat_map]. now rewrite <- app_assoc.
  - apply page_body_last in E. intros [= <-]. cbn [app flat_map].
    now rewrite app_nil_r.
Qed.
End AnyApi.

(** *** Against the API that serves a fixed list: how many requests *)

Section ServedCount.
Variable data : list row.
Variable url : string.
Variable mk_params : Z -> params.
Variable page_size : Z.
Hypothesis reads_number : forall n, param_int "page_number" (mk_params n) = n.
Hypothesis reads_size : forall n, param_int "page_size" (mk_params n) = page_size.
Hypothesis page_size_pos : 1 <= page_size.

Lemma page_loop_served_count (fuel : nat) (n : Z) (acc : list row) :
  1 <= n ->
  (length (drop (Z.to_nat ((n - 1) * page_size)) data) < fuel)%nat ->
  length (fst (while_true (page_body (paged_api data) url mk_params page_size)
                          fuel (n, acc)))
  = (length (drop (Z.to_nat ((n - 1) * page_size)) data) / Z.to_nat page_size + 1)%nat.
Proof.
  revert n acc. induction fuel as [|fuel IH]; intros n acc Hn Hlen; [lia|].
  rewrite while_true_fst, page_body_sends.
  rewrite (page_body_served data url mk_params page_size reads_number reads_size).
  cbv zeta.
  set (d := drop (Z.to_nat ((n - 1) * page_size)) data) in *.
  destruct (Z.of_nat (length (take (Z.to_nat page_size) d)) <? page_size) eqn:Eshort.
  - apply Z.ltb_lt in Eshort. rewrite length_take in Eshort.
    rewrite Nat.div_small by lia. reflexivity.
  - apply Z.ltb_ge in Eshort. rewrite length_take in Eshort.
    assert (Hd : drop (Z.to_nat ((n + 1 - 1) * page_size)) data
                 = drop (Z.to_nat page_size) d).
    { unfold d. rewrite drop_drop. f_equal. nia. }
    cbn [fst app length]. rewrite IH; [| lia | rewrite Hd, length_drop; lia].
    rewrite Hd, length_drop.
    replace (length d) with ((length d - Z.to_nat page_size) + 1 * Z.to_nat page_size)%nat
      at 2 by lia.
    rewrite Nat.div_add by lia. lia.
Qed.
End ServedCount.

End HigherGovMore.

(** ** highergov_api.py: the capped loop *)

Module SearchIdFacts.
Import Py PyFacts LoopFacts Postgrest HigherGov HigherGovFacts BodyFacts Transcript.

Section AnyApi.
Variable requests_get : string -> params -> result response.
Variables api_key search_id : string.
Variables max_page_number page_size : Z.

Local Abbreviation body :=
  (searchid_body requests_get api_key search_id max_page_number page_size).

Lemma searchid_sends (s : Z * list row) : length (fst (body s)) = 1%nat.
Proof.
  destruct (searchid_body_one_request requests_get api_key search_id
              max_page_number page_size s) as [rq [E _]].
  now rewrite E.
Qed.

(** The loop goes on to page [n + 1] only below the cap. *)
Lemma searchid_continue (n : Z) (acc : list row) (s' : Z * list row) :
  snd (body (n, acc)) = Continue s' -> n < max_page_number /\ fst s' = n + 1.
Proof.
  unfold searchid_body.
  destruct (get_opportunities requests_get api_key search_id n page_size) as [rq [resp|e]];
    [|discriminate].
  destruct (default [] (results resp)) as [|r rs]; [discriminate|].
  destruct (negb _ || (n >=? max_page_number)) eqn:E; [discriminate|].
  apply orb_false_iff in E as [_ E]. intros [= <-]. split; [|reflexivity].
  rewrite Z.geb_leb in E. apply Z.leb_gt in E. lia.
Qed.

Lemma searchid_requests_bounded (fuel : nat) (n : Z) (acc : list row) :
  (length (fst (while_true body fuel (n, acc))) <= Z.to_nat (max_page_number - n) + 1)%nat.
Proof.
  revert n acc. induction fuel as [|fuel IH]; intros n acc; [simpl; lia|].
  rewrite while_true_fst, length_app, searchid_sends.
  destruct (snd (body (n, acc))) as [[n' acc']|r|e] eqn:E; simpl; try lia.
  apply searchid_continue in E as [Hlt Hn']. simpl in Hn'. subst n'.
  specialize (IH (n + 1) acc'). lia.
Qed.

Lemma searchid_loop_ends (fuel : nat) (n : Z) (acc : list row) :
  (Z.to_nat (max_page_number - n) + 1 <= fuel)%nat ->
  snd (while_true body fuel (n, acc)) <> OutOfFuel.
Proof.
  revert n acc. induction fuel as [|fuel IH]; intros n acc Hfuel; [lia|].
  rewrite while_true_snd.
  destruct (snd (body (n, acc))) as [[n' acc']|r|e] eqn:E; try discriminate.
  apply searchid_continue in E as [Hlt Hn']. simpl in Hn'. subst n'.
  apply IH. lia.
Qed.
End AnyApi.

(** *** Against the API that serves a fixed list *)

Section Served.
Variable data : list row.
Variables api_key search_id : string.
Variables max_page_number page_size : Z.
Hypothesis page_size_pos : 1 <= page_size.

Local Abbreviation served :=
  (searchid_body (paged_api data) api_key search_id max_page_number page_size).

Lemma get_opportunities_served (n : Z) :
  snd (get_opportunities (paged_api data) api_key search_id n page_size)
  = Ok (Response 200 (Some (page_of data n page_size))
                 (if n * page_size <? Z.of_nat (length data) then Some "next" else None)).
Proof. reflexivity. Qed.

Lemma searchid_body_served (n : Z) (acc : list row) :
  snd (served (n, acc)) =
  match page_of data n page_size with
  | [] => Break acc
  | page =>
      if (Z.of_nat (length data) <=? n * page_size) || (n >=? max_page_number)
      then Break (acc ++ page)
      else Continue (n + 1, acc ++ page)
  end.
Proof.
  unfold searchid_body.
  pose proof (get_opportunities_served n) as E.
  destruct (get_opportunities (paged_api data) api_key search_id n page_size) as [rq r].
  simpl in E. subst r. cbn [results links_next default].
  destruct (page_of data n page_size) as [|r rs]; [reflexivity|].
  rewrite Z.leb_antisym.
  now destruct (n * page_size <? Z.of_nat (length data)), (n >=? max_page_number).
Qed.

(** From page [n] on, the loop appends the records of the pages up to
    the cap, or one page when the cap is already behind. *)
Lemma searchid_loop_served (fuel : nat) (n : Z) (acc : list row) :
  1 <= n ->
  (Z.to_nat (max_page_number - n) + 1 <= fuel)%nat ->
  snd (while_true served fuel (n, acc)) =
  Returned (acc ++ take (Z.to_nat (Z.max 1 (max_page_number - n + 1) * page_size))
                        (drop (Z.to_nat ((n - 1) * page_size)) data)).
Proof.
  revert n acc. induction fuel as [|fuel IH]; intros n acc Hn Hfuel; [lia|].
  rewrite while_true_snd, searchid_body_served. unfold page_of.
  set (d := drop (Z.to_nat ((n - 1) * page_size)) data).
  assert (Hlen : length d = (length data - Z.to_nat ((n - 1) * page_size))%nat)
    by (unfold d; apply length_drop).
  destruct (take (Z.to_nat page_size) d) as [|r page] eqn:Epage.
  - apply take_nil_inv in Epage as [Hz | Hd]; [lia|].
    rewrite Hd, take_nil. now rewrite app_nil_r.
  - rewrite <- Epage.
    destruct (Z.of_nat (length data) <=? n * page_size) eqn:Elast.
    + (* no next link: this page is the rest of the data *)
      apply Z.leb_le in Elast. simpl.
      assert (page_size <= Z.max 1 (max_page_number - n + 1) * page_size) by nia.
      rewrite !take_ge; [reflexivity | lia | lia].
    + apply Z.leb_gt in Elast.
      destruct (n >=? max_page_number) eqn:Ecap; simpl.
      * rewrite Z.geb_leb in Ecap. apply Z.leb_le in Ecap.
        do 3 f_equal. lia.
      * rewrite Z.geb_leb in Ecap. apply Z.leb_gt in Ecap.
        rewrite IH by lia.
        replace (drop (Z.to_nat ((n + 1 - 1) * page_size)) data)
          with (drop (Z.to_nat page_size) d)
          by (unfold d; rewrite drop_drop; f_equal; nia).
        rewrite <- app_assoc, take_take_drop. do 3 f_equal. nia.
Qed.
End Served.

End SearchIdFacts.

Section PageNumberLoopProperties.
Import Py PyFacts LoopFacts Postgrest HigherGov HigherGovFacts Transcript
       HigherGovMore SearchIdFacts.

(** X1. Whatever the API answers, when [highergov_get_all_awards] or
    [highergov_get_all_opportunities] returns, it has requested the
    pages 1, 2, ..., n in this order, each once, and the list it returns
    is the concatenation of what those requests brought back. *)
Theorem X1_api_fetch_concatenates_pages_in_order
        (requests_get : string -> params -> result response) :
  (forall (a : awards_args) (fuel : nat) (rs : list row),
      snd (highergov_get_all_awards requests_get a fuel) = Returned rs ->
      exists n,
        fst (highergov_get_all_awards requests_get a fuel)
        = List.map (fun k => (contract_url, awards_params a k)) (pages_from 1 n)
        /\ rs = flat_map (records_of requests_get)
                         (fst (highergov_get_all_awards requests_get a fuel)))
  /\ (forall (o : opportunities_args) (fuel : nat) (rs : list row),
        snd (highergov_get_all_opportunities requests_get o fuel) = Returned rs ->
        exists n,
          fst (highergov_get_all_opportunities requests_get o fuel)
          = List.map (fun k => (opportunity_url, opportunities_params o k)) (pages_from 1 n)
          /\ rs = flat_map (records_of requests_get)
                           (fst (highergov_get_all_opportunities requests_get o fuel))).
Proof.
  split.
  - intros a fuel rs. unfold highergov_get_all_awards.
    destruct (bool_decide _); [discriminate|].
    destruct (_ >? _); [discriminate|].
    intros H. eexists. split; [apply page_loop_pages|].
    now apply (page_loop_concat requests_get _ _ _ fuel 1 []).
  - intros o fuel rs. unfold highergov_get_all_opportunities.
    destruct (bool_decide _); [discriminate|].
    destruct (_ >? _); [discriminate|].
    intros H. eexists. split; [apply page_loop_pages|].
    now apply (page_loop_concat requests_get _ _ _ fuel 1 []).
Qed.

Lemma X1_api_fetch_witness :
  exists n,
    fst (highergov_get_all_awards (paged_api [Samples.a1; Samples.a2; Samples.a3])
                                  (Samples.awards_args 2) 4)
    = List.map (fun k => (contract_url, awards_params (Samples.awards_args 2) k))
               (pages_from 1 n)
    /\ [Samples.a1; Samples.a2; Samples.a3]
       = flat_map (records_of (paged_api [Samples.a1; Samples.a2; Samples.a3]))
                  (fst (highergov_get_all_awards
                          (paged_api [Samples.a1; Samples.a2; Samples.a3])
                          (Samples.awards_args 2) 4)).
Proof.
  apply (proj1 (X1_api_fetch_concatenates_pages_in_order
                  (paged_api [Samples.a1; Samples.a2; Samples.a3]))
               (Samples.awards_args 2) 4%nat).
  vm_compute. reflexivity.
Defined.

(** X2. Against an API that serves a fixed list of records,
    [highergov_get_all_opportunities] with a page size from 1 to 100
    returns the whole list in order, and sends [len / page_size + 1]
    requests: when the length is a multiple of the page size, a last
    request is spent on an empty page. *)
Theorem X2_opportunities_complete_and_request_count
        (data : list row) (o : opportunities_args) (fuel : nat) :
  o_api_key o <> "" -> 1 <= o_page_size o <= 100 ->
  (length data < fuel)%nat ->
  snd (highergov_get_all_opportunities (paged_api data) o fuel) = Returned data
  /\ length (fst (highergov_get_all_opportunities (paged_api data) o fuel))
     = (length data / Z.to_nat (o_page_size o) + 1)%nat.
Proof.
  intros Hkey [Hlo Hhi] Hfuel. unfold highergov_get_all_opportunities.
  rewrite bool_decide_false by assumption.
  replace (o_page_size o >? 100) with false
    by (symmetry; rewrite Z.gtb_ltb; apply Z.ltb_ge; lia).
  split.
  - apply page_loop_served; try assumption.
    + intros n. apply opportunities_page_number.
    + intros n. apply opportunities_page_size.
  - rewrite (page_loop_served_count data opportunity_url (opportunities_params o)
               (o_page_size o)); try assumption; try lia.
    + reflexivity.
    + intros n. apply opportunities_page_number.
    + intros n. apply opportunities_page_size.
Qed.

Lemma X2_opportunities_witness :
  snd (highergov_get_all_opportunities
         (paged_api [Samples.a1; Samples.a2]) (Samples.opportunities_args 2) 3)
  = Returned [Samples.a1; Samples.a2]
  /\ length (fst (highergov_get_all_opportunities
                    (paged_api [Samples.a1; Samples.a2]) (Samples.opportunities_args 2) 3))
     = (length [Samples.a1; Samples.a2] / Z.to_nat 2 + 1)%nat.
Proof.
  apply (X2_opportunities_complete_and_request_count
           [Samples.a1; Samples.a2] (Samples.opportunities_args 2) 3).
  - discriminate.
  - simpl. lia.
  - simpl. lia.
Defined.

(** X3. [get_all_opportunities_for_searchid] is bounded by its page
    cap whatever the API answers: it never sends more than
    [max(1, max_page_number)] requests, and after that many passes it
    has returned or raised. *)
Theorem X3_searchid_loop_is_capped
        (requests_get : string -> params -> result response)
        (api_key search_id : string) (max_page_number page_size : Z) (fuel : nat) :
  (length (fst (get_all_opportunities_for_searchid
                  requests_get api_key search_id max_page_number page_size fuel))
   <= Z.to_nat (Z.max 1 max_page_number))%nat
  /\ ((Z.to_nat (Z.max 1 max_page_number) <= fuel)%nat ->
      snd (get_all_opportunities_for_searchid
             requests_get api_key search_id max_page_number page_size fuel)
      <> OutOfFuel).
Proof.
  unfold get_all_opportunities_for_searchid. split.
  - pose proof (searchid_requests_bounded requests_get api_key search_id
                  max_page_number page_size fuel 1 []). lia.
  - intros Hfuel. apply searchid_loop_ends. lia.
Qed.

Lemma X3_searchid_witness :
  snd (get_all_opportunities_for_searchid Samples.endless_api "key" "I1sN" 3 1 3)
  <> OutOfFuel.
Proof.
  apply (proj2 (X3_searchid_loop_is_capped Samples.endless_api "key" "I1sN" 3 1 3)).
  simpl. lia.
Defined.

(** X4. Against an API that serves a fixed list, with a page size of at
    least 1, [get_all_opportunities_for_searchid] returns the first
    [max(1, max_page_number) * page_size] records of the list and no
    more: with the default cap of one page, only the first page. *)
Theorem X4_searchid_returns_capped_prefix
        (data : list row) (api_key search_id : string)
        (max_page_number page_size : Z) (fuel : nat) :
  1 <= page_size ->
  (Z.to_nat (Z.max 1 max_page_number) <= fuel)%nat ->
  snd (get_all_opportunities_for_searchid
         (paged_api data) api_key search_id max_page_number page_size fuel)
  = Returned (take (Z.to_nat (Z.max 1 max_page_number * page_size)) data)
  /\ snd (get_all_opportunities_for_searchid
            (paged_api data) api_key search_id DEFAULT_MAX_PAGE_NUMBER page_size (S fuel))
     = Returned (take (Z.to_nat page_size) data).
Proof.
  intros Hps Hfuel. unfold get_all_opportunities_for_searchid. split.
  - rewrite searchid_loop_served; [| assumption | lia | lia].
    simpl. rewrite drop_0. do 3 f_equal. lia.
  - rewrite searchid_loop_served; [| assumption | lia | unfold DEFAULT_MAX_PAGE_NUMBER; lia].
    simpl. rewrite drop_0. do 2 f_equal. unfold DEFAULT_MAX_PAGE_NUMBER. lia.
Qed.

Lemma X4_searchid_prefix_witness :
  snd (get_all_opportunities_for_searchid
         (paged_api [Samples.a1; Samples.a2; Samples.a3]) "key" "I1sN" 1 2 1)
  = Returned (take (Z.to_nat (Z.max 1 1 * 2)) [Samples.a1; Samples.a2; Samples.a3])
  /\ snd (get_all_opportunities_for_searchid
            (paged_api [Samples.a1; Samples.a2; Samples.a3]) "key" "I1sN"
            DEFAULT_MAX_PAGE_NUMBER 2 2)
     = Returned (take (Z.to_nat 2) [Samples.a1; Samples.a2; Samples.a3]).
Proof.
  apply (X4_searchid_returns_capped_prefix
           [Samples.a1; Samples.a2; Samples.a3] "key" "I1sN" 1 2 1).
  - lia.
  - simpl. lia.
Defined.

End PageNumberLoopProperties.

(* ===================================================================== *)
(** ** testing.py: dotted paths and flattening                            *)
(* ===================================================================== *)

Module JsonFacts.
Import Stdlib.Strings.Ascii Py Postgrest Json.

Lemma append_nil (b : string) : "" +:+ b = b.
Proof. reflexivity. Qed.

Lemma append_cons (x : ascii) (a b : string) : String x a +:+ b = String x (a +:+ b).
Proof. reflexivity. Qed.

Lemma append_assoc (a b c : string) : (a +:+ b) +:+ c = a +:+ (b +:+ c).
Proof.
  induction a as [|x a IH]; [reflexivity|].
  now rewrite !append_cons, IH.
Qed.

Lemma append_nonempty (a b : string) : a <> "" -> a +:+ b <> "".
Proof. destruct a; [congruence | rewrite append_cons; discriminate]. Qed.

Lemma new_key_under (p k : string) : p <> "" -> new_key p k = p +:+ "." +:+ k.
Proof. destruct p; [congruence | reflexivity]. Qed.

Lemma split_nonempty (sep : ascii) (s : string) : split sep s <> [].
Proof.
  destruct s as [|c rest]; simpl; [discriminate|].
  destruct (Ascii.eqb c sep); [discriminate|].
  destruct (split sep rest); discriminate.
Qed.

Lemma split_app (sep : ascii) (p q : string) :
  split sep (p +:+ String sep q) = split sep p ++ split sep q.
Proof.
  induction p as [|c p IH]; [rewrite append_nil | rewrite append_cons]; simpl.
  - now rewrite Ascii.eqb_refl.
  - destruct (Ascii.eqb c sep); [now rewrite IH|].
    rewrite IH. pose proof (split_nonempty sep p) as Hne.
    destruct (split sep p) as [|h t]; [congruence | reflexivity].
Qed.

Lemma walk_app (l1 l2 : list string) (obj : json) :
  walk (l1 ++ l2) obj =
  match walk l1 obj with Some o => walk l2 o | None => None end.
Proof.
  revert obj; induction l1 as [|k l1 IH]; intros obj; simpl; [reflexivity|].
  destruct (index obj k); [apply IH | reflexivity].
Qed.

Lemma walk_not_dict (l : list string) (o : json) :
  is_dict o = false -> l <> [] -> walk l o = None.
Proof.
  intros Ho Hl. destruct l as [|k l]; [congruence|].
  destruct o; simpl in *; congruence.
Qed.

Lemma get_nested_value_app (obj : json) (p q : string) :
  get_nested_value obj (p +:+ "." +:+ q) =
  get_nested_value (get_nested_value obj p) q.
Proof.
  unfold get_nested_value. change ("." +:+ q) with (String "." q).
  rewrite split_app, walk_app.
  destruct (walk (split "." p) obj) as [o|]; simpl; [reflexivity|].
  now rewrite (walk_not_dict (split "." q) (Leaf VNull) eq_refl (split_nonempty _ _)).
Qed.

Lemma get_nested_value_not_dict (o : json) (q : string) :
  is_dict o = false -> get_nested_value o q = Leaf VNull.
Proof.
  intros Ho. unfold get_nested_value.
  now rewrite (walk_not_dict _ o Ho (split_nonempty _ _)).
Qed.

Lemma flatten_items (d : list (string * json)) (p : string) :
  flatten (Obj d) p = dict (items_of p d).
Proof.
  simpl. f_equal. induction d as [|[k v] rest IH]; [reflexivity|].
  simpl. now rewrite IH.
Qed.

Lemma In_dict_set (kv : string * json) (k : string) (v : json) d :
  In kv (dict_set k v d) -> In kv d \/ kv = (k, v).
Proof.
  induction d as [|[k' v'] rest IH]; simpl.
  - intros [<-|[]]; now right.
  - destruct (String.eqb_spec k' k) as [->|Hne]; simpl.
    + intros [<-|H]; [now right | left; now right].
    + intros [<-|H]; [left; now left|].
      destruct (IH H) as [H'|H']; [left; now right | now right].
Qed.

Lemma In_fold_dict_set (kv : string * json) items acc :
  In kv (fold_left (fun d e => dict_set (fst e) (snd e) d) items acc) ->
  In kv acc \/ In kv items.
Proof.
  revert acc; induction items as [|[k v] items IH]; intros acc; simpl.
  - now left.
  - intros H. destruct (IH _ H) as [H'|H']; [|right; now right].
    destruct (In_dict_set _ _ _ _ H') as [Hacc | ->]; [now left | right; now left].
Qed.

Lemma In_dict (kv : string * json) items : In kv (dict items) -> In kv items.
Proof.
  intros H. destruct (In_fold_dict_set _ _ _ H) as [[]|H']; exact H'.
Qed.

Lemma In_items (p k : string) (x : json) d :
  In (k, x) (items_of p d) ->
  exists k0 v0, In (k0, v0) d /\
    (if is_dict v0 then In (k, x) (flatten v0 (new_key p k0))
     else k = new_key p k0 /\ x = v0).
Proof.
  induction d as [|[k0 v0] rest IH]; simpl; [intros []|].
  intros H. apply in_app_or in H as [H|H].
  - exists k0, v0. split; [now left|].
    destruct v0; simpl in *;
      try (destruct H as [H|[]]; inversion H; now split).
    exact H.
  - destruct (IH H) as (k1 & v1 & Hin & Hc).
    exists k1, v1. split; [now right | exact Hc].
Qed.

Lemma lookup_NoDup (k0 : string) (v0 : json) d :
  NoDup (List.map fst d) -> In (k0, v0) d -> lookup k0 d = Some v0.
Proof.
  induction d as [|[k v] rest IH]; simpl; [intros _ []|].
  intros Hnd [Heq|Hin].
  - inversion Heq; subst. now rewrite String.eqb_refl.
  - apply NoDup_cons in Hnd as [Hk Hnd].
    destruct (String.eqb_spec k k0) as [->|Hne]; [|now apply IH].
    exfalso. apply Hk. apply list_elem_of_In.
    apply (in_map fst) in Hin. exact Hin.
Qed.

Lemma split_dotless (k : string) : dotless k = true -> split "." k = [k].
Proof.
  induction k as [|c k IH]; simpl; [reflexivity|].
  intros H. apply andb_prop in H as [Hc Hk].
  apply negb_true_iff in Hc. rewrite Hc, (IH Hk). reflexivity.
Qed.

Lemma split_join (path : list string) :
  Forall plain path -> path <> [] -> split "." (join path) = path.
Proof.
  induction path as [|k path IH]; [congruence|].
  intros Hall _. apply Forall_cons in Hall as [[_ Hk] Hall].
  destruct path as [|k' path]; [now apply split_dotless|].
  change (join (k :: k' :: path)) with (k +:+ String "." (join (k' :: path))).
  rewrite split_app, (split_dotless k Hk), (IH Hall); [reflexivity | discriminate].
Qed.

Lemma new_key_nested (p k0 s : string) :
  k0 <> "" -> new_key (new_key p k0) s = new_key p (k0 +:+ "." +:+ s).
Proof.
  intros Hk. destruct (decide (p = "")) as [->|Hp]; simpl.
  - now apply new_key_under.
  - rewrite (new_key_under p k0 Hp), (new_key_under p _ Hp).
    rewrite new_key_under by now apply append_nonempty.
    now rewrite !append_assoc.
Qed.

(** Every item of the flattened dict is a leaf reached by a path of
    keys, and its key is that path joined by dots under the parent. *)
Lemma flatten_path (j : json) :
  forall p k x,
    well_keyed j -> In (k, x) (flatten j p) ->
    exists path, path <> [] /\ Forall plain path /\
                 k = new_key p (join path) /\
                 walk path j = Some x /\ is_dict x = false.
Proof.
  induction j as [v|items|d IH] using json_dict_ind; intros p k x Hwk Hin;
    try (simpl in Hin; contradiction).
  rewrite flatten_items in Hin. apply In_dict, In_items in Hin.
  destruct Hin as (k0 & v0 & Hd & Hc).
  inversion Hwk as [| |d' Hnd Hall]; subst.
  rewrite Forall_forall in Hall, IH.
  apply list_elem_of_In in Hd as Hd'.
  destruct (Hall _ Hd') as [Hplain Hwk0]. simpl in Hplain, Hwk0.
  pose proof (lookup_NoDup _ _ _ Hnd Hd) as Hlk.
  destruct (is_dict v0) eqn:Hv0.
  - destruct (IH _ Hd' _ _ _ Hwk0 Hc) as (path & Hne & Hpl & Hk & Hw & Hx).
    exists (k0 :: path). repeat split.
    + discriminate.
    + now apply Forall_cons.
    + rewrite Hk. destruct path as [|k1 path]; [congruence|].
      apply new_key_nested, Hplain.
    + simpl. now rewrite Hlk.
    + exact Hx.
  - destruct Hc as [-> ->]. exists [k0]. repeat split.
    + discriminate.
    + now apply Forall_singleton.
    + simpl. now rewrite Hlk.
    + exact Hv0.
Qed.

Lemma flatten_leaf (j : json) :
  forall p k x, In (k, x) (flatten j p) -> is_dict x = false.
Proof.
  induction j as [v|items|d IH] using json_dict_ind; intros p k x Hin;
    try (simpl in Hin; contradiction).
  rewrite flatten_items in Hin. apply In_dict, In_items in Hin.
  destruct Hin as (k0 & v0 & Hd & Hc).
  rewrite Forall_forall in IH. apply list_elem_of_In in Hd.
  destruct (is_dict v0) eqn:Hv0.
  - exact (IH _ Hd _ _ _ Hc).
  - destruct Hc as [_ ->]. exact Hv0.
Qed.

Lemma flatten_prefix (j : json) :
  forall p k x, p <> "" -> In (k, x) (flatten j p) ->
                exists rest, k = p +:+ "." +:+ rest.
Proof.
  induction j as [v|items|d IH] using json_dict_ind; intros p k x Hp Hin;
    try (simpl in Hin; contradiction).
  rewrite flatten_items in Hin. apply In_dict, In_items in Hin.
  destruct Hin as (k0 & v0 & Hd & Hc).
  rewrite Forall_forall in IH. apply list_elem_of_In in Hd.
  pose proof (new_key_under p k0 Hp) as Hnk.
  destruct (is_dict v0) eqn:Hv0.
  - destruct (IH _ Hd (new_key p k0) k x) as [rest Hrest]; [|exact Hc|].
    + rewrite Hnk. now apply append_nonempty.
    + exists (k0 +:+ "." +:+ rest). rewrite Hrest, Hnk.
      rewrite !append_assoc. reflexivity.
  - destruct Hc as [-> _]. exists k0. exact Hnk.
Qed.

End JsonFacts.

Section NestedRecordProperties.
Import Py Postgrest Json JsonFacts.

(** X11 (testing.py, get_nested_value): dotted paths compose.  Looking
    up [p.q] gives what looking up [q] gives in the value found at
    [p], for every object and every pair of paths; a failure on the
    way ([None]) stays [None]. *)
Theorem X11_dotted_paths_compose (obj : json) (p q : string) :
  get_nested_value obj (p +:+ "." +:+ q) =
  get_nested_value (get_nested_value obj p) q.
Proof. apply get_nested_value_app. Qed.

(** X12 (testing.py, get_nested_value): a path continues through dicts
    only.  When the value at [p] is a list, text, number or [None],
    every longer path [p.q] gives [None]: a list is never entered, not
    even by an index such as [transactions.0.action_date]. *)
Theorem X12_no_path_through_a_list (obj : json) (p q : string) :
  is_dict (get_nested_value obj p) = false ->
  get_nested_value obj (p +:+ "." +:+ q) = Leaf VNull.
Proof.
  intros H. rewrite get_nested_value_app. now apply get_nested_value_not_dict.
Qed.

Lemma X12_no_path_witness :
  get_nested_value sample_award "transactions" =
    Arr [ Obj [ ("action_date", Leaf (VStr "2024-09-30")) ] ] /\
  get_nested_value sample_award ("transactions" +:+ "." +:+ "0.action_date") =
    Leaf VNull.
Proof.
  split; [reflexivity|].
  apply (X12_no_path_through_a_list sample_award "transactions" "0.action_date").
  reflexivity.
Defined.

(** X13 (testing.py, _flatten_dict and get_nested_value): round trip.
    When the keys of a nested dict are distinct at each level, not
    empty and free of dots, every entry [(k, x)] of the flattened dict
    is found again in the nested one: [get_nested_value(d, k)] is [x]. *)
Theorem X13_flatten_then_lookup (d : list (string * json)) (k : string) (x : json) :
  well_keyed (Obj d) ->
  In (k, x) (flatten_dict d "") ->
  get_nested_value (Obj d) k = x.
Proof.
  intros Hwk Hin.
  destruct (flatten_path (Obj d) "" k x Hwk Hin) as (path & Hne & Hpl & Hk & Hw & _).
  simpl in Hk. subst k. unfold get_nested_value.
  rewrite (split_join path Hpl Hne), Hw. reflexivity.
Qed.

Lemma X13_flatten_witness :
  get_nested_value
    (Obj [ ("award_id", Leaf (VStr "15M10224PA4700443"));
           ("awardee", Obj [ ("clean_name", Leaf (VStr "Acme"));
                             ("uei", Leaf (VStr "SMNWM6HN79X5")) ]) ])
    "awardee.uei" = Leaf (VStr "SMNWM6HN79X5").
Proof.
  apply X13_flatten_then_lookup.
  - repeat first [ apply (bool_decide_unpack _); vm_compute; reflexivity
                 | constructor ].
  - vm_compute. right; right; left; reflexivity.
Defined.

(** X14 (testing.py, _flatten_dict): the flattened dict holds no dict
    as a value, and under a non-empty parent key every key starts with
    [parent.]; so the fields of a nested record are all reported under
    the name of the field that holds them. *)
Theorem X14_flattened_keys_carry_the_parent
        (d : list (string * json)) (parent_key k : string) (x : json) :
  parent_key <> "" ->
  In (k, x) (flatten_dict d parent_key) ->
  is_dict x = false /\ exists rest, k = parent_key +:+ "." +:+ rest.
Proof.
  intros Hp Hin. split.
  - exact (flatten_leaf (Obj d) parent_key k x Hin).
  - exact (flatten_prefix (Obj d) parent_key k x Hp Hin).
Qed.

Lemma X14_flattened_keys_witness :
  is_dict (Leaf (VStr "SMNWM6HN79X5")) = false /\
  exists rest, "awardee.uei" = "awardee" +:+ "." +:+ rest.
Proof.
  apply (X14_flattened_keys_carry_the_parent
           [ ("clean_name", Leaf (VStr "Acme")); ("uei", Leaf (VStr "SMNWM6HN79X5")) ]
           "awardee" "awardee.uei" (Leaf (VStr "SMNWM6HN79X5"))).
  - discriminate.
  - vm_compute. right; left; reflexivity.
Defined.

End NestedRecordProperties.

(** ** award_table_filter.py: the requests of a fetch, and the other
       filters *)

Module AwardsMore.
Import Py PyFacts LoopFacts Postgrest PostgrestFacts Steps Awards AwardsFacts
       ListFilterFacts.

Lemma body_sends (supabase : query -> result (list row)) (aq : AwardsQuery)
      (fi fe : list value) (lim : Z) (s : Z * list row) :
  fst (body supabase aq fi fe lim s) = [page_query aq fi fe (fst s) lim].
Proof.
  destruct s as [offset acc]. unfold body.
  now destruct (supabase _) as [[|r data]|e].
Qed.

(** Pages needed for [m] rows in batches of [l], counted as the loop
    counts them: one request per non-empty page and one for the empty
    page that ends the loop. *)
Lemma pages_step (m l : nat) :
  (1 <= l)%nat -> (1 <= m)%nat ->
  (((m - l) + l - 1) / l + 1 + 1 = (m + l - 1) / l + 1)%nat.
Proof.
  intros Hl Hm.
  replace (m + l - 1)%nat with ((m - 1) + 1 * l)%nat by lia.
  rewrite Nat.div_add by lia.
  destruct (le_lt_dec l m) as [Hle|Hlt].
  - replace (m - l + l - 1)%nat with (m - 1)%nat by lia. lia.
  - replace (m - l + l - 1)%nat with (l - 1)%nat by lia.
    rewrite !Nat.div_small by lia. lia.
Qed.

Section ListStore.
Variable fts : string -> value -> bool.
Variable tables : string -> list row.
Local Abbreviation store := (table_store fts tables).

Lemma awards_loop_count (aq : AwardsQuery) (fi fe : list value) (lim : Z)
      (fuel : nat) (offset : Z) (acc : list row) :
  1 <= lim -> 0 <= offset ->
  (length (drop (Z.to_nat offset) (satisfying fts (constraints aq fi fe) (tables "awards")))
   < fuel)%nat ->
  length (fst (while_true (body store aq fi fe lim) fuel (offset, acc)))
  = ((length (drop (Z.to_nat offset)
                   (satisfying fts (constraints aq fi fe) (tables "awards")))
      + Z.to_nat lim - 1) / Z.to_nat lim + 1)%nat.
Proof.
  intros Hlim. revert offset acc.
  induction fuel as [|fuel IH]; intros offset acc Hoff Hlen; [lia|].
  rewrite while_true_fst, body_sends, body_on_store.
  set (rows := satisfying fts (constraints aq fi fe) (tables "awards")) in *.
  set (d := drop (Z.to_nat offset) rows) in *.
  destruct (take (Z.to_nat lim) d) as [|r page] eqn:Epage.
  - apply take_nil_inv in Epage as [Hz | Hd]; [lia|].
    rewrite Hd. simpl. rewrite Nat.div_small by lia. reflexivity.
  - assert (Hne : (1 <= length d)%nat)
      by (destruct d; [now rewrite take_nil in Epage | simpl; lia]).
    assert (Hd : drop (Z.to_nat (offset + lim)) rows = drop (Z.to_nat lim) d).
    { unfold d. rewrite drop_drop. f_equal. lia. }
    cbn [app length]. rewrite IH; [| lia | rewrite Hd, length_drop; lia].
    rewrite Hd, length_drop.
    pose proof (pages_step (length d) (Z.to_nat lim) ltac:(lia) Hne). lia.
Qed.

Lemma resolve_sends (keys : option (list string)) :
  length (fst (resolve_fpds_codes store keys)) = if truthy_list keys then 1%nat else 0%nat.
Proof. unfold resolve_fpds_codes. now destruct (truthy_list keys). Qed.

Lemma fetch_awards_count (aq : AwardsQuery) (lim : Z) (fuel : nat) :
  1 <= lim ->
  (length (result_set fts tables aq) < fuel)%nat ->
  length (fst (fetch_awards store lim aq fuel))
  = ((if truthy_list (INCLUDE_ORGANIZATION_KEYS aq) then 1 else 0)
     + (if truthy_list (EXCLUDE_ORGANIZATION_KEYS aq) then 1 else 0)
     + ((length (result_set fts tables aq) + Z.to_nat lim - 1) / Z.to_nat lim + 1))%nat.
Proof.
  intros Hlim Hfuel. unfold fetch_awards.
  pose proof (resolve_on_store fts tables (INCLUDE_ORGANIZATION_KEYS aq)) as E1.
  pose proof (resolve_on_store fts tables (EXCLUDE_ORGANIZATION_KEYS aq)) as E2.
  pose proof (resolve_sends (INCLUDE_ORGANIZATION_KEYS aq)) as L1.
  pose proof (resolve_sends (EXCLUDE_ORGANIZATION_KEYS aq)) as L2.
  destruct (resolve_fpds_codes store (INCLUDE_ORGANIZATION_KEYS aq)) as [log1 r1].
  destruct (resolve_fpds_codes store (EXCLUDE_ORGANIZATION_KEYS aq)) as [log2 r2].
  simpl in E1, E2, L1, L2. subst r1 r2.
  pose proof (awards_loop_count aq
                (resolved store (INCLUDE_ORGANIZATION_KEYS aq))
                (resolved store (EXCLUDE_ORGANIZATION_KEYS aq)) lim fuel 0 []
                Hlim ltac:(lia)) as Hcount.
  change (satisfying fts _ (tables "awards")) with (result_set fts tables aq) in Hcount.
  simpl drop in Hcount. specialize (Hcount Hfuel).
  destruct (while_true _ fuel (0, [])) as [log3 o].
  cbn [fst snd] in *. rewrite !length_app, L1, L2, Hcount.
  change (Z.to_nat 0) with 0%nat. rewrite drop_0.
  destruct (truthy_list (INCLUDE_ORGANIZATION_KEYS aq)),
           (truthy_list (EXCLUDE_ORGANIZATION_KEYS aq)); lia.
Qed.
End ListStore.

(** *** The two-column recipient filter *)

Lemma q_filters_for_each_pair {A : Type} (xs : list A) (f g : A -> cond) (q : query) :
  q_filters (for_each xs (fun x q => add (g x) (add (f x) q)) q)
  = q_filters q ++ flat_map (fun x => [f x; g x]) xs.
Proof.
  unfold for_each. revert q.
  induction xs as [|x xs IH]; intros q; simpl; [now rewrite app_nil_r|].
  rewrite IH. simpl. now rewrite <- !app_assoc.
Qed.

Section Fields.
Variables (aq : AwardsQuery) (fi fe : list value).



Lemma date_start_attached (s : string) :
  POTENTIAL_END_DATE_START aq = Some s -> s <> "" ->
  In (FGte "period_of_performance_potential_end_date" (VStr s)) (constraints aq fi fe).
Proof.
  intros H Hs. unfold constraints. rewrite q_filters_page_query, H.
  destruct s; [congruence|]. in_segment ltac:(now left).
Qed.

Lemma date_end_attached (s : string) :
  POTENTIAL_END_DATE_END aq = Some s -> s <> "" ->
  In (FLte "period_of_performance_potential_end_date" (VStr s)) (constraints aq fi fe).
Proof.
  intros H Hs. unfold constraints. rewrite q_filters_page_query, H.
  destruct s; [congruence|]. in_segment ltac:(now left).
Qed.

Lemma amount_minimum_attached (m : Z) :
  AMOUNT_OBLIGATED_MINIMUM aq = Some m ->
  In (FGte "total_obligation" (VInt m)) (constraints aq fi fe).
Proof.
  intros H. unfold constraints. rewrite q_filters_page_query, H.
  in_segment ltac:(now left).
Qed.

Lemma amount_maximum_attached (m : Z) :
  AMOUNT_OBLIGATED_MAXIMUM aq = Some m ->
  In (FLte "total_obligation" (VInt m)) (constraints aq fi fe).
Proof.
  intros H. unfold constraints. rewrite q_filters_page_query, H.
  in_segment ltac:(now left).
Qed.

Lemma organization_include_attached :
  fi <> [] ->
  In (FIn "funding_agency_subtier_agency_code" fi) (constraints aq fi fe).
Proof.
  intros H. unfold constraints. rewrite q_filters_page_query.
  destruct fi; [congruence|]. in_segment ltac:(now left).
Qed.
End Fields.


(** *** The bounds attached to a page query *)

Ltac not_here H :=
  first
    [ rewrite added_include_in in H; destruct (truthy_list _); simpl in H;
      [destruct H as [H|[]]; discriminate | destruct H]
    | rewrite added_exclude_each in H; destruct (truthy_list _);
      [apply in_map_iff in H as (? & H & _); discriminate | destruct H] ].

Section Bounds.
Variables (aq : AwardsQuery) (fi fe : list value).

Lemma in_recipient_exclude (c : cond) :
  In c (added (when (truthy_list (EXCLUDE_RECIPIENT_UEI aq))
                 (for_each (items (EXCLUDE_RECIPIENT_UEI aq))
                    (fun uei q => neq "parent_recipient_uei" (VStr uei)
                                      (neq "recipient_uei" (VStr uei) q))))) ->
  exists col v, c = FNeq col v.
Proof.
  destruct (truthy_list (EXCLUDE_RECIPIENT_UEI aq)); [|intros []].
  rewrite added_when_true. unfold added.
  rewrite (q_filters_for_each_pair _ (fun uei => FNeq "recipient_uei" (VStr uei))
             (fun uei => FNeq "parent_recipient_uei" (VStr uei))).
  simpl. intros H. apply in_flat_map in H as (uei & _ & [<-|[<-|[]]]); eauto.
Qed.

Lemma in_organization_exclude (c : cond) :
  In c (added (when (nonempty fe)
                 (for_each fe (neq "funding_agency_subtier_agency_code")))) ->
  exists col v, c = FNeq col v.
Proof.
  destruct (nonempty fe); [|intros []].
  rewrite added_when_true.
  change (added (for_each fe (neq "funding_agency_subtier_agency_code")))
    with (added (for_each fe
                   (fun v => add (FNeq "funding_agency_subtier_agency_code" v)))).
  rewrite (added_for_each_add fe (fun v => FNeq "funding_agency_subtier_agency_code" v)).
  intros H. apply in_map_iff in H as (v & <- & _). eauto.
Qed.

Lemma lower_bounds_attached (col : string) (v : value) :
  In (FGte col v) (constraints aq fi fe) <->
  (col = "period_of_performance_potential_end_date"
   /\ exists s, POTENTIAL_END_DATE_START aq = Some s /\ s <> "" /\ v = VStr s)
  \/ (col = "total_obligation"
      /\ exists m, AMOUNT_OBLIGATED_MINIMUM aq = Some m /\ v = VInt m).
Proof.
  split.
  - unfold constraints. rewrite q_filters_page_query. intros H.
    repeat match type of H with
           | In _ (_ ++ _) => apply in_app_or in H as [H|H]
           end.
    + destruct (truthy_list (INCLUDE_RECIPIENT_UEI aq)); simpl in H;
        [destruct H as [H|[]]; discriminate | destruct H].
    + apply in_recipient_exclude in H as (? & ? & H). discriminate.
    + destruct (POTENTIAL_END_DATE_START aq) as [[|c s]|] eqn:E; simpl in H;
        try destruct H as [H|[]]; try contradiction.
      inversion H; subst. left. split; [reflexivity|].
      eexists. repeat split. discriminate.
    + destruct (POTENTIAL_END_DATE_END aq) as [[|c s]|]; simpl in H;
        try destruct H as [H|[]]; try contradiction. discriminate.
    + not_here H.
    + not_here H.
    + not_here H.
    + not_here H.
    + not_here H.
    + not_here H.
    + destruct (nonempty fi); simpl in H;
        [destruct H as [H|[]]; discriminate | destruct H].
    + apply in_organization_exclude in H as (? & ? & H). discriminate.
    + not_here H.
    + not_here H.
    + destruct (AMOUNT_OBLIGATED_MINIMUM aq) as [m|] eqn:E; simpl in H;
        [destruct H as [H|[]] | destruct H].
      inversion H; subst. right. split; [reflexivity|]. now exists m.
    + destruct (AMOUNT_OBLIGATED_MAXIMUM aq) as [m|]; simpl in H;
        [destruct H as [H|[]]; discriminate | destruct H].
    + destruct (truthy_str (KEYWORD_QUERY aq)); simpl in H;
        [destruct H as [H|[]]; discriminate | destruct H].
  - intros [[-> (s & Hs & Hne & ->)] | [-> (m & Hm & ->)]].
    + now apply date_start_attached.
    + now apply amount_minimum_attached.
Qed.

Lemma upper_bounds_attached (col : string) (v : value) :
  In (FLte col v) (constraints aq fi fe) <->
  (col = "period_of_performance_potential_end_date"
   /\ exists s, POTENTIAL_END_DATE_END aq = Some s /\ s <> "" /\ v = VStr s)
  \/ (col = "total_obligation"
      /\ exists m, AMOUNT_OBLIGATED_MAXIMUM aq = Some m /\ v = VInt m).
Proof.
  split.
  - unfold constraints. rewrite q_filters_page_query. intros H.
    repeat match type of H with
           | In _ (_ ++ _) => apply in_app_or in H as [H|H]
           end.
    + destruct (truthy_list (INCLUDE_RECIPIENT_UEI aq)); simpl in H;
        [destruct H as [H|[]]; discriminate | destruct H].
    + apply in_recipient_exclude in H as (? & ? & H). discriminate.
    + destruct (POTENTIAL_END_DATE_START aq) as [[|c s]|]; simpl in H;
        try destruct H as [H|[]]; try contradiction. discriminate.
    + destruct (POTENTIAL_END_DATE_END aq) as [[|c s]|] eqn:E; simpl in H;
        try destruct H as [H|[]]; try contradiction.
      inversion H; subst. left. split; [reflexivity|].
      eexists. repeat split. discriminate.
    + not_here H.
    + not_here H.
    + not_here H.
    + not_here H.
    + not_here H.
    + not_here H.
    + destruct (nonempty fi); simpl in H;
        [destruct H as [H|[]]; discriminate | destruct H].
    + apply in_organization_exclude in H as (? & ? & H). discriminate.
    + not_here H.
    + not_here H.
    + destruct (AMOUNT_OBLIGATED_MINIMUM aq) as [m|]; simpl in H;
        [destruct H as [H|[]]; discriminate | destruct H].
    + destruct (AMOUNT_OBLIGATED_MAXIMUM aq) as [m|] eqn:E; simpl in H;
        [destruct H as [H|[]] | destruct H].
      inversion H; subst. right. split; [reflexivity|]. now exists m.
    + destruct (truthy_str (KEYWORD_QUERY aq)); simpl in H;
        [destruct H as [H|[]]; discriminate | destruct H].
  - intros [[-> (s & Hs & Hne & ->)] | [-> (m & Hm & ->)]].
    + now apply date_end_attached.
    + now apply amount_maximum_attached.
Qed.
End Bounds.

(** Every query a fetch sends to the awards table is the page query of
    some offset, whatever the store answers. *)
Section AnyStore.
Variable supabase : query -> result (list row).

Lemma loop_log_page_queries (aq : AwardsQuery) (fi fe : list value) (lim : Z)
      (fuel : nat) (s : Z * list row) (q : query) :
  In q (fst (while_true (body supabase aq fi fe lim) fuel s)) ->
  exists offset, q = page_query aq fi fe offset lim.
Proof.
  revert s. induction fuel as [|fuel IH]; intros s; [intros []|].
  rewrite while_true_fst, body_sends. intros [<-|H]; [eauto|].
  destruct (snd (body supabase aq fi fe lim s)) as [s'| |]; [eauto | destruct H..].
Qed.

Lemma resolve_log_organizations (keys : option (list string)) (q : query) :
  In q (fst (resolve_fpds_codes supabase keys)) -> q_table q = "organizations".
Proof.
  unfold resolve_fpds_codes. destruct (truthy_list keys); [|intros []].
  destruct (supabase _); intros [<-|[]]; reflexivity.
Qed.

Lemma awards_queries_of_a_fetch (aq : AwardsQuery) (fuel : nat) (q : query) :
  In q (fst (get_filtered_awards supabase aq fuel)) ->
  q_table q = "awards" ->
  exists fi fe, q_filters q = constraints aq fi fe.
Proof.
  unfold get_filtered_awards, fetch_awards. intros Hin Ht.
  pose proof (resolve_log_organizations (INCLUDE_ORGANIZATION_KEYS aq) q) as H1.
  pose proof (resolve_log_organizations (EXCLUDE_ORGANIZATION_KEYS aq) q) as H2.
  destruct (resolve_fpds_codes supabase (INCLUDE_ORGANIZATION_KEYS aq)) as [log1 [fi|e1]];
    simpl in H1, Hin; [|rewrite H1 in Ht by exact Hin; discriminate].
  destruct (resolve_fpds_codes supabase (EXCLUDE_ORGANIZATION_KEYS aq)) as [log2 [fe|e2]];
    simpl in H2, Hin.
  - pose proof (loop_log_page_queries aq fi fe limit fuel (0, []) q) as H3.
    destruct (while_true (body supabase aq fi fe limit) fuel (0, [])) as [log3 o].
    simpl in H3, Hin.
    apply in_app_or in Hin as [Hin|Hin]; [rewrite H1 in Ht by exact Hin; discriminate|].
    apply in_app_or in Hin as [Hin|Hin]; [rewrite H2 in Ht by exact Hin; discriminate|].
    destruct (H3 Hin) as [offset ->]. exists fi, fe.
    now rewrite page_query_shape.
  - apply in_app_or in Hin as [Hin|Hin];
      [rewrite H1 in Ht by exact Hin | rewrite H2 in Ht by exact Hin]; discriminate.
Qed.
End AnyStore.

End AwardsMore.

Module RecipientTextFacts.
Import Stdlib.Strings.Ascii Json JsonFacts RecipientText.




End RecipientTextFacts.

Section AwardsFilterProperties.
Import Py PyFacts LoopFacts Postgrest PostgrestFacts Steps Awards AwardsFacts
       ListFilterFacts AwardsMore RecipientTextFacts.



(** X5. On a store that holds its tables as lists, [get_filtered_awards]
    sends one lookup per truthy organization key list and then
    [ceil(n / 1000) + 1] page queries for a result set of [n] awards:
    every fetch pays one extra request for the empty page that ends it
    (one request for an empty result, two for 1 to 1000 awards). *)
Theorem X5_store_fetch_request_count
        (fts : string -> value -> bool) (tables : string -> list row)
        (aq : AwardsQuery) (fuel : nat) :
  (length (tables "awards") < fuel)%nat ->
  length (fst (get_filtered_awards (table_store fts tables) aq fuel))
  = ((if truthy_list (INCLUDE_ORGANIZATION_KEYS aq) then 1 else 0)
     + (if truthy_list (EXCLUDE_ORGANIZATION_KEYS aq) then 1 else 0)
     + ((length (result_set fts tables aq) + 999) / 1000 + 1))%nat.
Proof.
  intros Hfuel. unfold get_filtered_awards.
  rewrite fetch_awards_count.
  - change (Z.to_nat limit) with 1000%nat.
    now replace (length (result_set fts tables aq) + 1000 - 1)%nat
      with (length (result_set fts tables aq) + 999)%nat by lia.
  - unfold limit. lia.
  - pose proof (length_result_set fts tables aq). lia.
Qed.

Lemma X5_request_count_witness :
  length (fst (get_filtered_awards (table_store Samples.no_fts MoreSamples.tables)
                 (MoreSamples.include_organization ["300000201"]) 4))
  = ((if truthy_list (INCLUDE_ORGANIZATION_KEYS
                        (MoreSamples.include_organization ["300000201"])) then 1 else 0)
     + (if truthy_list (EXCLUDE_ORGANIZATION_KEYS
                          (MoreSamples.include_organization ["300000201"])) then 1 else 0)
     + ((length (result_set Samples.no_fts MoreSamples.tables
                   (MoreSamples.include_organization ["300000201"])) + 999) / 1000 + 1))%nat.
Proof.
  apply (X5_store_fetch_request_count Samples.no_fts MoreSamples.tables
           (MoreSamples.include_organization ["300000201"]) 4).
  simpl. lia.
Defined.



(** X7. Whatever the store answers, every query [get_filtered_awards]
    sends to the awards table carries these bounds and no other: a
    lower (upper) bound on the potential end date exactly when
    POTENTIAL_END_DATE_START (END) is a non-empty string, with that
    string as its value, and a lower (upper) bound on the total
    obligation exactly when AMOUNT_OBLIGATED_MINIMUM (MAXIMUM) is not
    [None], with that amount as its value.  The dates are tested for
    truthiness and the amounts with [is not None]: an empty date is
    ignored, an amount of 0 is applied like any other. *)
Theorem X7_bounds_attached_to_every_page_query
        (supabase : query -> result (list row)) (aq : AwardsQuery) (fuel : nat)
        (q : query) :
  In q (fst (get_filtered_awards supabase aq fuel)) ->
  q_table q = "awards" ->
  (forall col v,
      In (FGte col v) (q_filters q) <->
      (col = "period_of_performance_potential_end_date"
       /\ exists s, POTENTIAL_END_DATE_START aq = Some s /\ s <> "" /\ v = VStr s)
      \/ (col = "total_obligation"
          /\ exists m, AMOUNT_OBLIGATED_MINIMUM aq = Some m /\ v = VInt m))
  /\ (forall col v,
         In (FLte col v) (q_filters q) <->
         (col = "period_of_performance_potential_end_date"
          /\ exists s, POTENTIAL_END_DATE_END aq = Some s /\ s <> "" /\ v = VStr s)
         \/ (col = "total_obligation"
             /\ exists m, AMOUNT_OBLIGATED_MAXIMUM aq = Some m /\ v = VInt m)).
Proof.
  intros Hin Ht.
  destruct (awards_queries_of_a_fetch supabase aq fuel q Hin Ht) as (fi & fe & ->).
  split; intros col v; [apply lower_bounds_attached | apply upper_bounds_attached].
Qed.

Lemma X7_bounds_witness :
  (forall col v,
      In (FGte col v)
         (q_filters (page_query (MoreSamples.bounded (Some "") (Some 0)) [] [] 0 limit)) <->
      (col = "period_of_performance_potential_end_date"
       /\ exists s, POTENTIAL_END_DATE_START (MoreSamples.bounded (Some "") (Some 0)) = Some s
                    /\ s <> "" /\ v = VStr s)
      \/ (col = "total_obligation"
          /\ exists m, AMOUNT_OBLIGATED_MINIMUM (MoreSamples.bounded (Some "") (Some 0)) = Some m
                       /\ v = VInt m))
  /\ (forall col v,
         In (FLte col v)
            (q_filters (page_query (MoreSamples.bounded (Some "") (Some 0)) [] [] 0 limit)) <->
         (col = "period_of_performance_potential_end_date"
          /\ exists s, POTENTIAL_END_DATE_END (MoreSamples.bounded (Some "") (Some 0)) = Some s
                       /\ s <> "" /\ v = VStr s)
         \/ (col = "total_obligation"
             /\ exists m, AMOUNT_OBLIGATED_MAXIMUM (MoreSamples.bounded (Some "") (Some 0)) = Some m
                          /\ v = VInt m)).
Proof.
  apply (X7_bounds_attached_to_every_page_query
           (table_store Samples.no_fts MoreSamples.tables)
           (MoreSamples.bounded (Some "") (Some 0)) 4).
  - vm_compute. left. reflexivity.
  - reflexivity.
Defined.

End AwardsFilterProperties.

Section OrganizationFilterProperties.
Import Py PyFacts LoopFacts Postgrest PostgrestFacts Steps Awards AwardsFacts
       ListFilterFacts AwardsMore RecipientTextFacts.

Lemma resolved_on_store (fts : string -> value -> bool) (tables : string -> list row)
      (keys : option (list string)) :
  resolved (table_store fts tables) keys =
  if truthy_list keys
  then fpds_codes_of (run fts tables (organizations_query (items keys)))
  else [].
Proof.
  unfold resolved, resolve_fpds_codes, table_store.
  now destruct (truthy_list keys).
Qed.

Lemma in_fpds_codes_of (data : list row) (c : value) :
  In c (fpds_codes_of data) ->
  exists org, In org data /\ c = get org "fpds_code" /\ truthy_value c = true.
Proof.
  unfold fpds_codes_of. destruct data as [|o data]; [intros []|].
  intros H. apply in_map_iff in H as [org [<- H]].
  apply filter_In in H as [Hin Ht]. now exists org.
Qed.

Lemma fpds_codes_of_none (data : list row) :
  (forall org, In org data -> truthy_value (get org "fpds_code") = false) ->
  fpds_codes_of data = [].
Proof.
  intros H. unfold fpds_codes_of. destruct data as [|o data]; [reflexivity|].
  destruct (List.map _ _) as [|c cs] eqn:E; [reflexivity|].
  assert (Hc : In c (c :: cs)) by now left.
  rewrite <- E in Hc. apply in_map_iff in Hc as [org [<- Hc]].
  apply filter_In in Hc as [Hin Ht]. rewrite (H org Hin) in Ht. discriminate.
Qed.

Lemma in_organizations (fts : string -> value -> bool) (tables : string -> list row)
      (keys : list string) (org : row) :
  In org (run fts tables (organizations_query keys)) ->
  In org (tables "organizations") /\ In (get org "organization_key") (VStr <$> keys).
Proof.
  rewrite run_spec. cbn [organizations_query q_range q_filters q_table in_ add select from_
                         window app].
  intros H. apply satisfying_In in H as [Hin Hall]. split; [assumption|].
  apply (holds_in fts). apply Hall. now left.
Qed.

(** X8. When the lookup resolves INCLUDE_ORGANIZATION_KEYS to at least
    one fpds code, every returned award carries, as its funding agency
    subtier code, the fpds code of an organization whose key is in the
    list.  When the lookup finds organizations but none of them has an
    fpds code, the filter is dropped like an unmatched one: the fetch
    ends as it does without the field. *)
Theorem X8_organization_filter_uses_resolved_codes
        (fts : string -> value -> bool) (tables : string -> list row)
        (aq : AwardsQuery) (fuel : nat) :
  (length (tables "awards") < fuel)%nat ->
  (resolved (table_store fts tables) (INCLUDE_ORGANIZATION_KEYS aq) <> [] ->
   exists rows,
     snd (get_filtered_awards (table_store fts tables) aq fuel) = Returned rows
     /\ forall r, In r rows ->
          exists org, In org (tables "organizations")
                      /\ In (get org "organization_key")
                            (VStr <$> items (INCLUDE_ORGANIZATION_KEYS aq))
                      /\ get r "funding_agency_subtier_agency_code" = get org "fpds_code"
                      /\ truthy_value (get org "fpds_code") = true)
  /\ ((forall org,
          In org (run fts tables
                      (organizations_query (items (INCLUDE_ORGANIZATION_KEYS aq)))) ->
          truthy_value (get org "fpds_code") = false) ->
      snd (get_filtered_awards (table_store fts tables) aq fuel)
      = snd (get_filtered_awards (table_store fts tables)
               (without_include_organization_keys aq) fuel)).
Proof.
  intros Hfuel. split.
  - intros Hne. exists (result_set fts tables aq).
    split; [now apply get_filtered_awards_on_store|].
    intros r Hr.
    pose proof (organization_include_attached aq _
                  (resolved (table_store fts tables) (EXCLUDE_ORGANIZATION_KEYS aq)) Hne) as Hc.
    apply (result_set_holds fts tables aq r _ Hr), holds_in in Hc.
    rewrite resolved_on_store in Hc.
    destruct (truthy_list (INCLUDE_ORGANIZATION_KEYS aq)); [|destruct Hc].
    apply in_fpds_codes_of in Hc as [org [Horg [Hcode Ht]]].
    apply in_organizations in Horg as [Hin Hkey].
    exists org. rewrite <- Hcode. now repeat split.
  - intros Hnone.
    rewrite !get_filtered_awards_on_store by assumption. f_equal.
    unfold result_set.
    cbn [INCLUDE_ORGANIZATION_KEYS EXCLUDE_ORGANIZATION_KEYS
         without_include_organization_keys].
    replace (resolved (table_store fts tables) (INCLUDE_ORGANIZATION_KEYS aq))
      with (@nil value).
    + reflexivity.
    + rewrite resolved_on_store. destruct (truthy_list _); [|reflexivity].
      symmetry. now apply fpds_codes_of_none.
Qed.

Lemma X8_organization_witness :
  (exists rows,
     snd (get_filtered_awards (table_store Samples.no_fts MoreSamples.tables)
            (MoreSamples.include_organization ["300000201"]) 4) = Returned rows
     /\ forall r, In r rows ->
          exists org, In org (MoreSamples.tables "organizations")
                      /\ In (get org "organization_key")
                            (VStr <$> items (INCLUDE_ORGANIZATION_KEYS
                                               (MoreSamples.include_organization ["300000201"])))
                      /\ get r "funding_agency_subtier_agency_code" = get org "fpds_code"
                      /\ truthy_value (get org "fpds_code") = true)
  /\ snd (get_filtered_awards (table_store Samples.no_fts MoreSamples.tables)
            (MoreSamples.include_organization ["300000202"]) 4)
     = snd (get_filtered_awards (table_store Samples.no_fts MoreSamples.tables)
              (without_include_organization_keys
                 (MoreSamples.include_organization ["300000202"])) 4).
Proof.
  split.
  - apply (proj1 (X8_organization_filter_uses_resolved_codes
                    Samples.no_fts MoreSamples.tables
                    (MoreSamples.include_organization ["300000201"]) 4
                    ltac:(simpl; lia))).
    vm_compute. discriminate.
  - apply (proj2 (X8_organization_filter_uses_resolved_codes
                    Samples.no_fts MoreSamples.tables
                    (MoreSamples.include_organization ["300000202"]) 4
                    ltac:(simpl; lia))).
    intros org Hin. vm_compute in Hin. destruct Hin as [<-|[]]. reflexivity.
Defined.

End OrganizationFilterProperties.

(** ** table_filter_Lawrence.py: ids that are not numbers, and the clock *)

Module NoticesMore.
Import Py PyFacts LoopFacts Postgrest PostgrestFacts Notices NoticesFacts NoticesPages.

Section Conversion.
Variable int_of_str : string -> option Z.

Lemma ints_texts (xs : list string) :
  (forall x, In x xs -> int_of_str x <> None) /\
  (exists ns, ints int_of_str (List.map VStr xs) = Ok ns)
  \/ (exists x, In x xs /\ int_of_str x = None)
     /\ ints int_of_str (List.map VStr xs) = Raise invalid_literal.
Proof.
  induction xs as [|x xs IH]; simpl.
  - left. split; [intros x []|]. now eexists.
  - destruct (int_of_str x) as [n|] eqn:E.
    + destruct IH as [[Hall [ns Hns]] | [[y [Hy Hbad]] Hr]].
      * left. split.
        -- intros y [<-|Hy]; [congruence | now apply Hall].
        -- rewrite Hns. simpl. now eexists.
      * right. split; [exists y; split; [now right | assumption]|].
        now rewrite Hr.
    + right. split; [exists x; split; [now left | assumption]|]. reflexivity.
Qed.

Lemma rebind_texts (o : option (list string)) :
  (forall xs x, o = Some xs -> In x xs -> int_of_str x <> None) /\
  (exists o', rebind_ints int_of_str (as_passed o) = Ok o')
  \/ (exists xs x, o = Some xs /\ In x xs /\ int_of_str x = None)
     /\ rebind_ints int_of_str (as_passed o) = Raise invalid_literal.
Proof.
  destruct o as [xs|]; simpl.
  - destruct xs as [|x0 xs].
    + left. split; [intros xs x [= <-] [] | now eexists].
    + change (rebind_ints int_of_str (Some (List.map VStr (x0 :: xs))))
        with (ns ← ints int_of_str (List.map VStr (x0 :: xs)); Ok (Some ns)).
      destruct (ints_texts (x0 :: xs)) as [[Hall [ns Hns]] | [[y [Hy Hbad]] Hr]].
      * left. split; [intros ys y [= <-]; apply Hall|].
        rewrite Hns. now eexists.
      * right. split; [exists (x0 :: xs), y; now repeat split|].
        now rewrite Hr.
  - left. split; [discriminate | now eexists].
Qed.
End Conversion.

Section Fetch.
Variable supabase : query -> result (list row).
Variable utcnow : nat -> string.
Variable int_of_str : string -> option Z.

(** The first pass raises before the query is built when an id does
    not convert. *)
Lemma page_query_bad_id (a : notices_args) :
  has_bad_id int_of_str a ->
  page_query utcnow int_of_str a (initial a) = Raise invalid_literal.
Proof.
  intros [xs [x [Hlist [Hin Hbad]]]].
  unfold page_query, initial.
  cbn [st_include_set_aside_ids st_exclude_set_aside_ids
       st_include_organization_keys st_exclude_organization_keys].
  destruct (active a);
    destruct (rebind_texts int_of_str (include_set_aside_ids a))
      as [[H1 [o1 ->]] | [_ ->]]; try reflexivity;
    destruct (rebind_texts int_of_str (exclude_set_aside_ids a))
      as [[H2 [o2 ->]] | [_ ->]]; try reflexivity;
    destruct (rebind_texts int_of_str (include_organization_keys a))
      as [[H3 [o3 ->]] | [_ ->]]; try reflexivity;
    destruct (rebind_texts int_of_str (exclude_organization_keys a))
      as [[H4 [o4 ->]] | [_ ->]]; try reflexivity;
    exfalso;
    destruct Hlist as [E|[E|[E|E]]];
    [ exact (H1 xs x E Hin Hbad) | exact (H2 xs x E Hin Hbad)
    | exact (H3 xs x E Hin Hbad) | exact (H4 xs x E Hin Hbad)
    | exact (H1 xs x E Hin Hbad) | exact (H2 xs x E Hin Hbad)
    | exact (H3 xs x E Hin Hbad) | exact (H4 xs x E Hin Hbad) ].
Qed.

(** In the default mode the passes send the queries [active_page 0],
    [active_page 1], ... *)
Lemma default_mode_log (a : notices_args) (fuel : nat) (s : state) :
  optional_unset a -> active a = true -> lists_unset s ->
  offset s = Z.of_nat (tick s) * limit ->
  fst (while_true (body supabase utcnow int_of_str a) fuel s) =
  List.map (fun k => active_page utcnow (tick s + k))
           (seq 0 (length (fst (while_true (body supabase utcnow int_of_str a) fuel s)))).
Proof.
  intros Ha Hactive. revert s.
  induction fuel as [|fuel IH]; intros s Hs Hoff; [reflexivity|].
  rewrite while_true_fst. unfold body at 1 2 4 5.
  rewrite (page_query_unset utcnow int_of_str a Ha s Hs), Hactive.
  assert (Eq : Query "notices" notices_columns
                 [FEq "latest" (VBool true);
                  FGt "solicitation_response_deadline" (VStr (utcnow (tick s)))]
                 (Some (offset s, offset s + limit - 1))
               = active_page utcnow (tick s + 0)).
  { unfold active_page. rewrite Nat.add_0_r, Hoff. reflexivity. }
  rewrite Eq.
  destruct (supabase (active_page utcnow (tick s + 0))) as [[|r data]|e];
    cbn [fst snd app length seq List.map]; try reflexivity.
  f_equal.
  rewrite IH.
  - cbn [tick]. rewrite length_map, length_seq.
    rewrite <- seq_shift, map_map. apply map_ext. intros k. f_equal. lia.
  - now repeat split.
  - cbn [offset tick]. rewrite Hoff. lia.
Qed.
End Fetch.

End NoticesMore.

Section NoticesProperties.
Import Py PyFacts LoopFacts Postgrest PostgrestFacts Notices NoticesFacts NoticesPages
       NoticesMore.

(** X9. When an id of one of the four id lists of
    [get_filtered_notices] is not a number for [int], the call raises
    [ValueError] in its first pass, before any query is sent to the
    store. *)
Theorem X9_bad_id_raises_before_any_request
        (supabase : query -> result (list row)) (utcnow : nat -> string)
        (int_of_str : string -> option Z) (a : notices_args) (fuel : nat) :
  has_bad_id int_of_str a ->
  get_filtered_notices supabase utcnow int_of_str a (S fuel)
  = ([], Raised invalid_literal).
Proof.
  intros Hbad. unfold get_filtered_notices. simpl. unfold body.
  now rewrite page_query_bad_id.
Qed.

Lemma X9_bad_id_witness :
  get_filtered_notices Samples.store Samples.clock Samples.no_int
                       (only_set_aside "sixteen") 1
  = ([], Raised invalid_literal).
Proof.
  apply (X9_bad_id_raises_before_any_request Samples.store Samples.clock Samples.no_int
           (only_set_aside "sixteen") 0).
  exists ["sixteen"], "sixteen". split; [left; reflexivity|].
  split; [left; reflexivity | reflexivity].
Defined.

(** X10. Called with [active=True] and no other filter,
    [get_filtered_notices] sends, whatever the store answers, the
    queries of the offsets 0, 1000, 2000, ..., and the query of pass k
    compares the response deadline with the clock as read in pass k:
    each page is filtered against its own timestamp. *)
Theorem X10_each_page_reads_the_clock_again
        (supabase : query -> result (list row)) (utcnow : nat -> string)
        (int_of_str : string -> option Z) (a : notices_args) (fuel : nat) :
  optional_unset a -> active a = true ->
  fst (get_filtered_notices supabase utcnow int_of_str a fuel) =
  List.map (active_page utcnow)
           (seq 0 (length (fst (get_filtered_notices supabase utcnow int_of_str a fuel)))).
Proof.
  intros Ha Hactive. unfold get_filtered_notices.
  rewrite (default_mode_log supabase utcnow int_of_str a fuel (initial a) Ha Hactive)
    at 1.
  - reflexivity.
  - now apply initial_lists_unset.
  - reflexivity.
Qed.

Lemma X10_clock_witness :
  fst (get_filtered_notices Samples.store Samples.clock Samples.no_int defaults 3) =
  List.map (active_page Samples.clock)
           (seq 0 (length (fst (get_filtered_notices Samples.store Samples.clock
                                  Samples.no_int defaults 3)))).
Proof.
  apply (X10_each_page_reads_the_clock_again Samples.store Samples.clock Samples.no_int
           defaults 3).
  - repeat split.
  - reflexivity.
Defined.

End NoticesProperties.

(* ===================================================================== *)
(** ** results_compre_Lawrence.py: from the two files to the report       *)
(* ===================================================================== *)

Module LoadersFacts.
Import Reconcile ReconcileFacts Loaders.

Lemma elem_of_add_truthy (row : fields) (k x : string) (s : gset string) :
  x ∈ add_truthy row k s <-> x ∈ s \/ (x <> "" /\ row !! k = Some (Some x)).
Proof.
  unfold add_truthy.
  destruct (row !! k) as [[text|]|] eqn:E.
  - case_bool_decide as Ht.
    + split; [now left|]. intros [H|[Hx H]]; [exact H|]. congruence.
    + rewrite elem_of_union, elem_of_singleton. split.
      * intros [H| ->]; [now left | right; now split].
      * intros [H|[_ H]]; [now left | right; congruence].
  - split; [now left|]. intros [H|[_ H]]; [exact H | discriminate].
  - split; [now left|]. intros [H|[_ H]]; [exact H | discriminate].
Qed.

Lemma elem_of_fold_add_truthy (k x : string) (entries : list fields) (s : gset string) :
  x ∈ fold_left (fun s hist => add_truthy hist k s) entries s <->
  x ∈ s \/ exists hist, In hist entries /\ x <> "" /\ hist !! k = Some (Some x).
Proof.
  revert s; induction entries as [|h entries IH]; intros s; simpl.
  - split; [now left|]. intros [H|(? & [] & _)]; exact H.
  - rewrite IH, elem_of_add_truthy. split.
    + intros [[H|H]|(hist & Hin & H)].
      * now left.
      * right. exists h. split; [now left | exact H].
      * right. exists hist. split; [now right | exact H].
    + intros [H|(hist & [->|Hin] & H)].
      * left; now left.
      * left; now right.
      * right. exists hist. now split.
Qed.

Lemma csv_ids_spec (row : fields) (x : string) :
  x ∈ csv_ids row <->
  x <> "" /\ (row !! "Solicitation ID" = Some (Some x) \/
              row !! "Solicitation Title" = Some (Some x) \/
              row !! (bom +:+ "Notice ID") = Some (Some x)).
Proof.
  unfold csv_ids. rewrite !elem_of_add_truthy, elem_of_empty. tauto.
Qed.

Lemma results_ids_spec (rec : record) (s : gset string) (x : string) :
  results_ids rec = Loaded s ->
  x ∈ s <->
  x <> "" /\ (columns rec !! "solicitation_id" = Some (Some x) \/
              columns rec !! "notice_id" = Some (Some x) \/
              columns rec !! "title" = Some (Some x) \/
              exists entries hist,
                history rec = Listing entries /\ In hist entries /\
                hist !! "solicitationNumber" = Some (Some x)).
Proof.
  unfold results_ids. destruct (history rec) as [| |entries] eqn:Eh;
    intros H; inversion H; subst; clear H.
  - rewrite !elem_of_add_truthy, elem_of_empty. split.
    + tauto.
    + intros (Hx & [H|[H|[H|(? & ? & H & _)]]]); try tauto. discriminate.
  - rewrite elem_of_fold_add_truthy, !elem_of_add_truthy, elem_of_empty. split.
    + intros [H|(hist & Hin & Hx & H)]; [tauto|].
      split; [exact Hx|]. right; right; right. now exists entries, hist.
    + intros (Hx & [H|[H|[H|(es & hist & Hes & Hin & H)]]]); try tauto.
      inversion Hes; subst. right. now exists hist.
Qed.

Lemma results_ids_loaded (rec : record) :
  history rec <> Null -> exists s, results_ids rec = Loaded s.
Proof.
  unfold results_ids. destruct (history rec); [eauto | congruence | eauto].
Qed.

Lemma load_results_loaded (data : list record) :
  Forall (fun rec => history rec <> Null) data ->
  exists l, load_results_opportunities data = Loaded l /\
            forall rec, In rec data ->
                        exists s, results_ids rec = Loaded s /\ In s l.
Proof.
  induction data as [|rec data IH]; intros Hall.
  - exists []. split; [reflexivity | intros ? []].
  - apply Forall_cons in Hall as [Hrec Hall].
    destruct (results_ids_loaded rec Hrec) as [s Hs].
    destruct (IH Hall) as (l & Hl & Hin).
    exists (s :: l). simpl. rewrite Hs, Hl. split; [reflexivity|].
    intros r [<-|Hr].
    + exists s. split; [exact Hs | now left].
    + destruct (Hin r Hr) as (s' & Hs' & Hin'). exists s'. split; [exact Hs' | now right].
Qed.

Lemma load_results_null (data : list record) (rec : record) :
  In rec data -> history rec = Null ->
  load_results_opportunities data = TypeError not_iterable.
Proof.
  induction data as [|r data IH]; [intros []|].
  intros [->|Hin] Hnull; simpl.
  - unfold results_ids. now rewrite Hnull.
  - unfold results_ids at 1. destruct (history r); [| reflexivity |];
      now rewrite (IH Hin Hnull).
Qed.


End LoadersFacts.

Section FileReconciliationProperties.
Import Reconcile ReconcileFacts Loaders LoadersFacts.

(** X15 (results_compre_Lawrence.py, load_csv_opportunities,
    load_results_opportunities, find_match, main): a CSV row and a
    results record that carry the same non-empty text under any of
    their identifier fields (the three CSV headers; solicitation_id,
    notice_id, title or a history entry's solicitationNumber) are both
    left out of the mismatch lists, whichever fields the text sits
    in. *)
Theorem X15_shared_text_matches_across_fields
        (rows : list fields) (data : list record)
        (row : fields) (rec : record) (x : string) :
  Forall (fun rec => history rec <> Null) data ->
  In row rows -> In rec data ->
  x <> "" ->
  (row !! "Solicitation ID" = Some (Some x) \/
   row !! "Solicitation Title" = Some (Some x) \/
   row !! (bom +:+ "Notice ID") = Some (Some x)) ->
  (columns rec !! "solicitation_id" = Some (Some x) \/
   columns rec !! "notice_id" = Some (Some x) \/
   columns rec !! "title" = Some (Some x) \/
   exists entries hist,
     history rec = Listing entries /\ In hist entries /\
     hist !! "solicitationNumber" = Some (Some x)) ->
  exists rep s,
    Loaders.main rows data = Loaded rep /\
    results_ids rec = Loaded s /\
    ~ In (csv_ids row) (mismatch_records_csv rep) /\
    ~ In s (mismatch_records_results rep).
Proof.
  intros Hall Hrow Hrec Hx Hcsv Hres.
  destruct (load_results_loaded data Hall) as (l & Hl & Hin).
  destruct (Hin rec Hrec) as (s & Hs & Hsl).
  assert (Hxs : x ∈ s) by (apply (results_ids_spec rec s x Hs); now split).
  assert (Hxc : x ∈ csv_ids row) by (apply csv_ids_spec; now split).
  exists (Reconcile.main (load_csv_opportunities rows) l), s.
  unfold Loaders.main. rewrite Hl. repeat split; [exact Hs| |]; simpl.
  - rewrite mismatch_records_In. intros [_ Hf].
    assert (Ht : find_match (csv_ids row) l = true); [|congruence].
    apply find_match_true. exists s. split; [exact Hsl|].
    intros He. apply (elem_of_empty (C := gset string) x). rewrite <- He.
    now apply elem_of_intersection.
  - rewrite mismatch_records_In. intros [_ Hf].
    assert (Ht : find_match s (load_csv_opportunities rows) = true); [|congruence].
    apply find_match_true. exists (csv_ids row). split.
    + unfold load_csv_opportunities. now apply in_map.
    + intros He. apply (elem_of_empty (C := gset string) x). rewrite <- He.
      now apply elem_of_intersection.
Qed.

Lemma X15_shared_text_witness :
  exists rep s,
    Loaders.main
      [ {[ "Solicitation Title" := Some "W912DY-25-R-0001" ]} ]
      [ Record_ {[ "notice_id" := Some "abc" ]}
                (Listing [ {[ "solicitationNumber" := Some "W912DY-25-R-0001" ]} ]) ]
    = Loaded rep /\
    results_ids
      (Record_ {[ "notice_id" := Some "abc" ]}
               (Listing [ {[ "solicitationNumber" := Some "W912DY-25-R-0001" ]} ]))
    = Loaded s /\
    ~ In (csv_ids {[ "Solicitation Title" := Some "W912DY-25-R-0001" ]})
         (mismatch_records_csv rep) /\
    ~ In s (mismatch_records_results rep).
Proof.
  apply (X15_shared_text_matches_across_fields _ _ _ _ "W912DY-25-R-0001").
  - repeat constructor; discriminate.
  - now left.
  - now left.
  - discriminate.
  - right; left. reflexivity.
  - right; right; right. eexists _, _. split; [reflexivity|].
    split; [now left | reflexivity].
Defined.



(** X17 (results_compre_Lawrence.py, load_results_opportunities lines
    49-50, main): one record whose [history] is [null] makes the whole
    comparison fail with [TypeError], wherever the record stands and
    whatever the other records and the CSV rows are; no report is
    produced. *)
Theorem X17_null_history_aborts_the_comparison
        (rows : list fields) (data : list record) (rec : record) :
  In rec data -> history rec = Null ->
  Loaders.main rows data = TypeError not_iterable.
Proof.
  intros Hin Hnull. unfold Loaders.main.
  now rewrite (load_results_null data rec Hin Hnull).
Qed.

Lemma X17_null_history_witness :
  Loaders.main [ {[ "Solicitation ID" := Some "abc" ]} ]
               [ Record_ {[ "solicitation_id" := Some "abc" ]} Absent;
                 Record_ {[ "solicitation_id" := Some "def" ]} Null ]
  = TypeError not_iterable.
Proof.
  apply (X17_null_history_aborts_the_comparison
           _ _ (Record_ {[ "solicitation_id" := Some "def" ]} Null)).
  - right; now left.
  - reflexivity.
Defined.

End FileReconciliationProperties.

(* ===================================================================== *)
(** ** schema_retrevie.py: from the two files to the report               *)
(* ===================================================================== *)

Module SchemaFacts.
Import Loaders Schema.










End SchemaFacts.

Section SchemaReconciliationProperties.
Import Loaders Schema SchemaFacts.





End SchemaReconciliationProperties.

(* ===================================================================== *)
(** ** Records without identifiers, from the files to the report          *)
(* ===================================================================== *)

Module EmptyIdentityFacts.
Import Loaders.




End EmptyIdentityFacts.

Section EmptyIdentityClaim.
Import Reconcile ReconcileFacts Loaders LoadersFacts EmptyIdentityFacts.




End EmptyIdentityClaim.
